(** * Photo Sorter, view layer: the two front-ends and their dialogs

    A shallow embedding of [src/view/dearpygui_view.py], [src/view/dialogs.py]
    and [src/view/main_window.py].

    - [Py]: the Python primitives the three files rely on (a str as its
      code points, string tests, [strip], integer and fixed-point
      formatting, float32 rounding, the one regular expression of
      [MainWindow.update_status]).
    - [Dpg]: the part of the Dear PyGui context that the code reads back or
      that gates a callback: the item registry keyed by tag, item handler
      registries, global key handlers, the id generator.
    - [App]: [DearPyGuiView] and the functions of [dialogs.py] as state
      transformers on a [World]; the events of the user interface (clicks,
      key presses, typing, timers that fire).
    - [Tk]: [MainWindow] of [main_window.py].
    - [AppRest], [TkRest]: the methods that the above leave out: the folder
      display and the end of the process of [DearPyGuiView], the resize
      handler and the idle tasks of [MainWindow].

    Callbacks supplied by the controller are opaque: a [Handler] is a name,
    every invocation is appended to the log of the world, and what the
    callback then does to the world is given by a [Behaviour]. *)

From Stdlib Require Import ZArith QArith Qabs String Ascii List Lia.
From Stdlib Require Import DecimalString DecimalZ DecimalPos.
From stdpp Require Import base gmap strings list.

Open Scope Z_scope.

(* ===================================================================== *)
(** ** Python primitives *)
(* ===================================================================== *)

Module Py.

(** A Python str: the sequence of its code points. *)
Definition str := list N.

(** A str literal of the source; its characters are ASCII, one code point
    each. *)
Fixpoint text (s : string) : str :=
  match s with
  | EmptyString => []
  | String c s' => N_of_ascii c :: text s'
  end.

(** [str(n)] and [f"{n}"] for an int. *)
Definition str_of_int (z : Z) : string :=
  NilZero.string_of_int (Z.to_int z).

(** [bool(s)] for a str: the empty string is falsy. *)
Definition truthy (s : str) : bool :=
  match s with [] => false | _ :: _ => true end.

(** [str.isspace] of one character, which is also what [str.strip] drops
    and what the class [\s] of a str pattern accepts: TAB, LF, VT, FF, CR,
    the separators FS GS RS US, the space, NEL, the no-break space, the
    Ogham space mark, EN QUAD to HAIR SPACE, the line and the paragraph
    separator, the narrow no-break space, the medium mathematical space
    and the ideographic space. *)
Definition isspace (c : N) : bool :=
  (((0x09 <=? c) && (c <=? 0x0D)) || ((0x1C <=? c) && (c <=? 0x20)) ||
   (c =? 0x85) || (c =? 0xA0) || (c =? 0x1680) ||
   ((0x2000 <=? c) && (c <=? 0x200A)) ||
   (c =? 0x2028) || (c =? 0x2029) || (c =? 0x202F) || (c =? 0x205F) ||
   (c =? 0x3000))%N.

(** The digit zero of every script with decimal digits (general category
    Nd, Unicode 14.0 as CPython 3.11 has it); the nine other digits of a
    script follow its zero.  The last five are the mathematical digits. *)
Definition decimal_zeros : list N :=
  [ 0x30; 0x660; 0x6F0; 0x7C0; 0x966; 0x9E6; 0xA66; 0xAE6; 0xB66; 0xBE6;
    0xC66; 0xCE6; 0xD66; 0xDE6; 0xE50; 0xED0; 0xF20; 0x1040; 0x1090;
    0x17E0; 0x1810; 0x1946; 0x19D0; 0x1A80; 0x1A90; 0x1B50; 0x1BB0;
    0x1C40; 0x1C50; 0xA620; 0xA8D0; 0xA900; 0xA9D0; 0xA9F0; 0xAA50;
    0xABF0; 0xFF10; 0x104A0; 0x10D30; 0x11066; 0x110F0; 0x11136; 0x111D0;
    0x112F0; 0x11450; 0x114D0; 0x11650; 0x116C0; 0x11730; 0x118E0;
    0x11950; 0x11C50; 0x11D50; 0x11DA0; 0x16A60; 0x16AC0; 0x16B50;
    0x1E140; 0x1E2F0; 0x1E950; 0x1FBF0;
    0x1D7CE; 0x1D7D8; 0x1D7E2; 0x1D7EC; 0x1D7F6 ]%N.

(** The class [\d] of a str pattern: the decimal digits of every script
    ([str.isdecimal] of one character). *)
Definition isdecimal (c : N) : bool :=
  existsb (fun z => (z <=? c) && (c <? z + 10))%N decimal_zeros.

Definition newline : N := 10%N.

Fixpoint lstrip (s : str) : str :=
  match s with
  | [] => []
  | c :: s' => if isspace c then lstrip s' else s
  end.

Fixpoint rstrip (s : str) : str :=
  match s with
  | [] => []
  | c :: s' =>
      match rstrip s' with
      | [] => if isspace c then [] else [c]
      | r => c :: r
      end
  end.

(** [s.strip()] *)
Definition strip (s : str) : str := lstrip (rstrip s).

Fixpoint startswith (p s : str) : bool :=
  match p, s with
  | [], _ => true
  | a :: p', b :: s' => if N.eqb a b then startswith p' s' else false
  | _ :: _, [] => false
  end.

(** [sub in s] *)
Fixpoint contains (sub s : str) : bool :=
  if startswith sub s then true
  else match s with
       | [] => false
       | _ :: s' => contains sub s'
       end.

(** Rounding of an exact value to the nearest integer, ties to even: what
    the [f] presentation type does to the value it is given. *)
Definition round_half_even (q : Q) : Z :=
  let n := Qnum q in
  let d := Zpos (Qden q) in
  let fl := n / d in
  let r := n mod d in
  match 2 * r ?= d with
  | Lt => fl
  | Gt => fl + 1
  | Eq => if Z.even fl then fl else fl + 1
  end.

Definition sign_of (q : Q) : string :=
  if Qnum q <? 0 then "-" else "".

(** [f"{x:.0f}"].  [x] is the exact value of the Python number (every
    finite float and every int is a rational); nan and the infinities are
    outside the model. *)
Definition format_0f (x : Q) : string :=
  sign_of x +:+ str_of_int (Z.abs (round_half_even x)).

(** [f"{x:.1f}"] *)
Definition format_1f (x : Q) : string :=
  let t := Z.abs (round_half_even (x * (10 # 1))) in
  sign_of x +:+ str_of_int (t / 10) +:+ "." +:+ str_of_int (t mod 10).

(** [2 ** k] for an int [k] of either sign. *)
Definition pow2 (k : Z) : Q :=
  if 0 <=? k then inject_Z (2 ^ k) else 1 # Z.to_pos (2 ^ (- k)).

(** The [e] with [2**e <= n/d < 2**(e+1)], for [n] and [d] positive. *)
Definition exponent (n d : Z) : Z :=
  let k := Z.log2 n - Z.log2 d in
  if (if 0 <=? k then d * 2 ^ k <=? n else d <=? n * 2 ^ (- k)) then k else k - 1.

(** The float32 that a float32 operation returns for the exact result
    [q]: the nearest number with a significand of 24 bits, ties to the
    even significand.  Results below the normal range or above the largest
    float32 do not occur in the code and are outside the model. *)
Definition float32 (q : Q) : Q :=
  let n := Qnum q in
  let d := Zpos (Qden q) in
  if n =? 0 then 0%Q
  else
    let e := exponent (Z.abs n) d in
    let m := round_half_even (Qabs q * pow2 (23 - e)) in
    Qred ((if n <? 0 then inject_Z (- m) else inject_Z m) * pow2 (e - 23)).

(** The pieces of the pattern [^(.*?)(\s*\(\d+/\d+\))$] of
    [MainWindow.update_status], matched the way [re.match] does.

    [\s*] and [\d+] are greedy; each is followed in the pattern by a
    character outside its class, so giving characters back can never turn a
    failure into a success and the greedy run is the only candidate. *)
Fixpoint skip_spaces (s : str) : str :=
  match s with
  | c :: s' => if isspace c then skip_spaces s' else s
  | [] => s
  end.

Fixpoint skip_digits (s : str) : str :=
  match s with
  | c :: s' => if isdecimal c then skip_digits s' else s
  | [] => s
  end.

(** [\d+]: at least one digit; the rest of the subject. *)
Definition digits1 (s : str) : option str :=
  match s with
  | c :: s' => if isdecimal c then Some (skip_digits s') else None
  | [] => None
  end.

(** A literal character; the rest of the subject. *)
Definition lit (c : N) (s : str) : option str :=
  match s with
  | c' :: s' => if N.eqb c c' then Some s' else None
  | [] => None
  end.

(** The characters of the pattern. *)
Definition open_paren : N := 0x28%N.
Definition close_paren : N := 0x29%N.
Definition slash : N := 0x2F%N.

(** [$] without MULTILINE: the end of the subject, or just before a line
    feed that ends it. *)
Definition at_end (s : str) : bool :=
  match s with
  | [] => true
  | [c] => N.eqb c newline
  | _ => false
  end.

(** [\(\d+/\d+\)$] from the opening parenthesis on. *)
Definition counter_body (s : str) : bool :=
  match lit open_paren s with
  | Some s1 =>
      match digits1 s1 with
      | Some s2 =>
          match lit slash s2 with
          | Some s3 =>
              match digits1 s3 with
              | Some s4 =>
                  match lit close_paren s4 with
                  | Some s5 => at_end s5
                  | None => false
                  end
              | None => false
              end
          | None => false
          end
      | None => false
      end
  | None => false
  end.

(** The subject without the line feed that [$] may have stepped over. *)
Definition chomp (s : str) : str :=
  match s with
  | [] => []
  | c :: s' =>
      (fix go (c : N) (s : str) : str :=
         match s with
         | [] => if N.eqb c newline then [] else [c]
         | c' :: s' => c :: go c' s'
         end) c s'
  end.

(** Group 2, [(\s*\(\d+/\d+\))] followed by [$], tried at the start of
    [s]: the text of the group when the rest of the pattern matches. *)
Definition counter_group (s : str) : option str :=
  if counter_body (skip_spaces s) then Some (chomp s) else None.

(** [re.match(r'^(.*?)(\s*\(\d+/\d+\))$', text)]: group 1 is lazy, so
    its candidates are tried shortest first; [.] refuses a line feed, which
    ends the search.  The result is [(group(1), group(2))]. *)
Fixpoint match_counter (text : str) : option (str * str) :=
  match counter_group text with
  | Some g2 => Some ([], g2)
  | None =>
      match text with
      | [] => None
      | c :: rest =>
          if N.eqb c newline then None
          else match match_counter rest with
               | Some (g1, g2) => Some (c :: g1, g2)
               | None => None
               end
      end
  end.

End Py.

(** A str literal stands for its code points wherever a str is expected. *)
Coercion Py.text : string >-> Py.str.

Arguments Py.text : simpl never.

(* ===================================================================== *)
(** ** Controller callbacks and the log of their invocations *)
(* ===================================================================== *)

(** A callable handed in by the controller. *)
Inductive Handler := handler (name : nat).

Global Instance Handler_eq_dec : EqDecision Handler.
Proof. solve_decision. Defined.

(** The dict that [configure_category] passes to its callback: ["action"]
    and ["idx"] are always present, ["name"] and ["path"] only on save. *)
Record DialogResult := {
  action : string;
  idx : Z;
  name : option Py.str;
  path : option Py.str
}.

Global Instance DialogResult_eq_dec : EqDecision DialogResult.
Proof. solve_decision. Defined.

(** The positional arguments of an invocation. *)
Inductive Args :=
| NoArgs
| IdxArg (i : Z)
| ResultArg (r : DialogResult).

Global Instance Args_eq_dec : EqDecision Args.
Proof. solve_decision. Defined.

Inductive Event :=
| Call (h : Handler) (a : Args)
| AskDirectory (title : string)
| OpenUrl (url : string).

Global Instance Event_eq_dec : EqDecision Event.
Proof. solve_decision. Defined.

Definition is_call_of (h : Handler) (e : Event) : bool :=
  match e with
  | Call h' _ => bool_decide (h' = h)
  | _ => false
  end.

Definition is_call (e : Event) : bool :=
  match e with Call _ _ => true | _ => false end.

(** The invocations of [h] in a log, oldest first. *)
Definition calls_of (h : Handler) (l : list Event) : list Event :=
  List.filter (is_call_of h) l.

(** All invocations of controller callbacks in a log. *)
Definition calls (l : list Event) : list Event :=
  List.filter is_call l.


(* ===================================================================== *)
(** ** Tags, themes and the callables bound to widgets *)
(* ===================================================================== *)

(** A Dear PyGui tag: an alias (str) or an id drawn from the generator. *)
Inductive Tag := TStr (s : string) | TInt (n : N).

Global Instance Tag_eq_dec : EqDecision Tag.
Proof. solve_decision. Defined.

Global Instance Tag_countable : Countable Tag :=
  inj_countable'
    (fun t => match t with TStr s => inl s | TInt n => inr n end)
    (fun x => match x with inl s => TStr s | inr n => TInt n end)
    (fun t => match t with TStr _ => eq_refl | TInt _ => eq_refl end).

(** The keys of [self._themes], as built by [_create_all_themes]. *)
Inductive Theme :=
| th_select_folder | th_select_folder_feedback
| th_reset | th_reset_feedback
| th_prev | th_prev_feedback
| th_next | th_next_feedback
| th_category | th_category_defined | th_category_feedback.

Global Instance Theme_eq_dec : EqDecision Theme.
Proof. solve_decision. Defined.

(** The variables of [configure_category] that its inner functions close
    over.  [cfg_view] tells whether [_get_view_instance()] found a view. *)
Record CfgScope := {
  cfg_idx : Z;
  cfg_callback : Handler;
  cfg_view : bool;
  cfg_window_id : Tag;
  cfg_name_id : Tag;
  cfg_folder_id : Tag;
  cfg_ok_id : Tag
}.

Global Instance CfgScope_eq_dec : EqDecision CfgScope.
Proof. solve_decision. Defined.

(** The callables that the code hands to the toolkit, each with what it
    closes over. *)
Inductive Closure :=
| bound_on_select_folder          (* self._on_select_folder *)
| bound_on_prev                   (* self._on_prev *)
| bound_on_next                   (* self._on_next *)
| bound_on_reset                  (* self._on_reset *)
| lambda_category_click           (* lambda s, a, u: self._on_category_click(u) *)
| lambda_category_right_click     (* lambda s, a, u: self._on_category_right_click(u) *)
| lambda_keyboard_category        (* lambda s, a, u: self._handle_keyboard_category(u) *)
| bound_keyboard_prev             (* self._handle_keyboard_prev *)
| bound_keyboard_next             (* self._handle_keyboard_next *)
| lambda_show_how_to              (* lambda: show_how_to() *)
| lambda_show_about               (* lambda: show_about() *)
| message_close (window_id : Tag) (* _show_message_dialog._close_dialog *)
| cfg_on_ok (sc : CfgScope)
| cfg_on_cancel (sc : CfgScope)
| cfg_on_delete (sc : CfgScope)
| cfg_on_browse (sc : CfgScope)
| cfg_update_ok (sc : CfgScope)   (* lambda s, a, u: _update_ok_state() *)
| how_to_close (window_id : Tag)  (* show_how_to._close *)
| about_close (view : bool)       (* show_about.close_popup *)
| lambda_open_github.             (* lambda: webbrowser.open(...) *)

Global Instance Closure_eq_dec : EqDecision Closure.
Proof. solve_decision. Defined.

(* ===================================================================== *)
(** ** The Dear PyGui context *)
(* ===================================================================== *)

Module Dpg.

Inductive Kind :=
| mvWindow | mvGroup | mvButton | mvText | mvInputText | mvImage
| mvTooltip | mvMenuBar | mvMenu | mvMenuItem | mvDynamicTexture.

Global Instance Kind_eq_dec : EqDecision Kind.
Proof. solve_decision. Defined.

(** What [get_value] returns: nothing, a str, or the floats of a texture
    (each float by its exact value). *)
Inductive Value :=
| NoValue
| StrValue (s : Py.str)
| TextureValue (data : list Q)
| TextureFill (x : Q) (count : Z).   (* [x] * count *)

(** One item of the registry.  [ancestors] is the chain of containers the
    item was added under, nearest first; the remaining fields are the
    configuration that the code sets or reads back. *)
Record Item := {
  kind : Kind;
  ancestors : list Tag;
  label : Py.str;
  value : Value;
  enabled : bool;
  show : bool;
  modal : bool;
  theme : option Theme;
  callback : option Closure;
  user_data : option Z;
  texture_tag : option Tag;
  width : Z;
  height : Z;
  pos : option (Z * Z);
  handler_registry : option Tag
}.

(** A new item of a kind, with the defaults of the toolkit. *)
Definition new_item (k : Kind) : Item :=
  {| kind := k; ancestors := []; label := ""; value := NoValue;
     enabled := true; show := true; modal := false; theme := None;
     callback := None; user_data := None; texture_tag := None;
     width := 0; height := 0; pos := None; handler_registry := None |}.

Definition with_ancestors (a : list Tag) (it : Item) : Item :=
  {| kind := kind it; ancestors := a; label := label it; value := value it;
     enabled := enabled it; show := show it; modal := modal it;
     theme := theme it; callback := callback it; user_data := user_data it;
     texture_tag := texture_tag it; width := width it; height := height it;
     pos := pos it; handler_registry := handler_registry it |}.

Definition with_label (s : Py.str) (it : Item) : Item :=
  {| kind := kind it; ancestors := ancestors it; label := s; value := value it;
     enabled := enabled it; show := show it; modal := modal it;
     theme := theme it; callback := callback it; user_data := user_data it;
     texture_tag := texture_tag it; width := width it; height := height it;
     pos := pos it; handler_registry := handler_registry it |}.

Definition with_value (v : Value) (it : Item) : Item :=
  {| kind := kind it; ancestors := ancestors it; label := label it; value := v;
     enabled := enabled it; show := show it; modal := modal it;
     theme := theme it; callback := callback it; user_data := user_data it;
     texture_tag := texture_tag it; width := width it; height := height it;
     pos := pos it; handler_registry := handler_registry it |}.

Definition with_enabled (b : bool) (it : Item) : Item :=
  {| kind := kind it; ancestors := ancestors it; label := label it;
     value := value it; enabled := b; show := show it; modal := modal it;
     theme := theme it; callback := callback it; user_data := user_data it;
     texture_tag := texture_tag it; width := width it; height := height it;
     pos := pos it; handler_registry := handler_registry it |}.

Definition with_show (b : bool) (it : Item) : Item :=
  {| kind := kind it; ancestors := ancestors it; label := label it;
     value := value it; enabled := enabled it; show := b; modal := modal it;
     theme := theme it; callback := callback it; user_data := user_data it;
     texture_tag := texture_tag it; width := width it; height := height it;
     pos := pos it; handler_registry := handler_registry it |}.

Definition with_modal (b : bool) (it : Item) : Item :=
  {| kind := kind it; ancestors := ancestors it; label := label it;
     value := value it; enabled := enabled it; show := show it; modal := b;
     theme := theme it; callback := callback it; user_data := user_data it;
     texture_tag := texture_tag it; width := width it; height := height it;
     pos := pos it; handler_registry := handler_registry it |}.

Definition with_theme (t : Theme) (it : Item) : Item :=
  {| kind := kind it; ancestors := ancestors it; label := label it;
     value := value it; enabled := enabled it; show := show it;
     modal := modal it; theme := Some t; callback := callback it;
     user_data := user_data it; texture_tag := texture_tag it;
     width := width it; height := height it; pos := pos it;
     handler_registry := handler_registry it |}.

Definition with_callback (c : Closure) (it : Item) : Item :=
  {| kind := kind it; ancestors := ancestors it; label := label it;
     value := value it; enabled := enabled it; show := show it;
     modal := modal it; theme := theme it; callback := Some c;
     user_data := user_data it; texture_tag := texture_tag it;
     width := width it; height := height it; pos := pos it;
     handler_registry := handler_registry it |}.

Definition with_user_data (u : Z) (it : Item) : Item :=
  {| kind := kind it; ancestors := ancestors it; label := label it;
     value := value it; enabled := enabled it; show := show it;
     modal := modal it; theme := theme it; callback := callback it;
     user_data := Some u; texture_tag := texture_tag it;
     width := width it; height := height it; pos := pos it;
     handler_registry := handler_registry it |}.

Definition with_texture (t : Tag) (it : Item) : Item :=
  {| kind := kind it; ancestors := ancestors it; label := label it;
     value := value it; enabled := enabled it; show := show it;
     modal := modal it; theme := theme it; callback := callback it;
     user_data := user_data it; texture_tag := Some t;
     width := width it; height := height it; pos := pos it;
     handler_registry := handler_registry it |}.

Definition with_size (w h : Z) (it : Item) : Item :=
  {| kind := kind it; ancestors := ancestors it; label := label it;
     value := value it; enabled := enabled it; show := show it;
     modal := modal it; theme := theme it; callback := callback it;
     user_data := user_data it; texture_tag := texture_tag it;
     width := w; height := h; pos := pos it;
     handler_registry := handler_registry it |}.

Definition with_pos (x y : Z) (it : Item) : Item :=
  {| kind := kind it; ancestors := ancestors it; label := label it;
     value := value it; enabled := enabled it; show := show it;
     modal := modal it; theme := theme it; callback := callback it;
     user_data := user_data it; texture_tag := texture_tag it;
     width := width it; height := height it; pos := Some (x, y);
     handler_registry := handler_registry it |}.

Definition with_handler_registry (r : Tag) (it : Item) : Item :=
  {| kind := kind it; ancestors := ancestors it; label := label it;
     value := value it; enabled := enabled it; show := show it;
     modal := modal it; theme := theme it; callback := callback it;
     user_data := user_data it; texture_tag := texture_tag it;
     width := width it; height := height it; pos := pos it;
     handler_registry := Some r |}.

Inductive MouseButton := mvMouseButton_Left | mvMouseButton_Right.

Global Instance MouseButton_eq_dec : EqDecision MouseButton.
Proof. solve_decision. Defined.

(** [add_item_clicked_handler(button=..., callback=..., user_data=...)] *)
Record ClickedHandler := {
  ch_button : MouseButton;
  ch_callback : Closure;
  ch_user_data : option Z
}.

(** The keys the code binds: [mvKey_1 + i], [mvKey_Left], [mvKey_Right]. *)
Inductive Key := mvKey_1_plus (i : Z) | mvKey_Left | mvKey_Right.

Global Instance Key_eq_dec : EqDecision Key.
Proof. solve_decision. Defined.

(** [add_key_press_handler(key, callback=..., user_data=...)] *)
Record KeyHandler := {
  kh_key : Key;
  kh_callback : Closure;
  kh_user_data : option Z
}.

Record Context := {
  items : gmap Tag Item;
  registries : gmap Tag (list ClickedHandler);
  key_handlers : list KeyHandler;
  next_uuid : N;
  viewport_client : Z * Z
}.

Definition set_items (m : gmap Tag Item) (c : Context) : Context :=
  {| items := m; registries := registries c; key_handlers := key_handlers c;
     next_uuid := next_uuid c; viewport_client := viewport_client c |}.

Definition set_registries (r : gmap Tag (list ClickedHandler)) (c : Context) : Context :=
  {| items := items c; registries := r; key_handlers := key_handlers c;
     next_uuid := next_uuid c; viewport_client := viewport_client c |}.

Definition set_key_handlers (k : list KeyHandler) (c : Context) : Context :=
  {| items := items c; registries := registries c; key_handlers := k;
     next_uuid := next_uuid c; viewport_client := viewport_client c |}.

Definition set_next_uuid (n : N) (c : Context) : Context :=
  {| items := items c; registries := registries c;
     key_handlers := key_handlers c; next_uuid := n;
     viewport_client := viewport_client c |}.

(** [dpg.generate_uuid()] *)
Definition generate_uuid (c : Context) : N * Context :=
  (next_uuid c, set_next_uuid (next_uuid c + 1)%N c).

(** [dpg.does_item_exist(tag)] *)
Definition does_item_exist (t : Tag) (c : Context) : bool :=
  bool_decide (is_Some (items c !! t)).

(** Adding an item: under [tag] when one is given, under a generated id
    otherwise; below [parent] when one is given.  The toolkit raises when
    the tag is taken or the parent is missing ([None] here). *)
Definition add_item (tag : option Tag) (parent : option Tag) (it : Item)
    (c : Context) : option (Tag * Context) :=
  let '(t, c1) :=
    match tag with
    | Some t => (t, c)
    | None => let '(n, c') := generate_uuid c in (TInt n, c')
    end in
  match items c1 !! t with
  | Some _ => None
  | None =>
      match parent with
      | None => Some (t, set_items (<[t := with_ancestors [] it]> (items c1)) c1)
      | Some p =>
          match items c1 !! p with
          | Some pit =>
              Some (t, set_items
                         (<[t := with_ancestors (p :: ancestors pit) it]> (items c1)) c1)
          | None => None
          end
      end
  end.

(** Any call that changes one item in place; raises on a missing item. *)
Definition update_item (t : Tag) (f : Item -> Item) (c : Context) : option Context :=
  match items c !! t with
  | Some it => Some (set_items (<[t := f it]> (items c)) c)
  | None => None
  end.

Definition below (t : Tag) (e : Tag * Item) : Prop := t ∈ ancestors e.2.

Global Instance below_dec t e : Decision (below t e).
Proof. unfold below. apply _. Defined.

(** [dpg.delete_item(tag, children_only=...)]: the items below [tag] go,
    and [tag] itself unless [children_only].  An alias that names no item
    resolves to no item and the call returns with nothing deleted; an id
    that names no item raises. *)
Definition delete_item (t : Tag) (children_only : bool) (c : Context) : option Context :=
  match items c !! t with
  | None => match t with TStr _ => Some c | TInt _ => None end
  | Some it =>
      let kept := filter (fun e => ¬ below t e) (items c) in
      Some (set_items (if children_only then <[t := it]> kept else delete t kept) c)
  end.

(** [dpg.item_handler_registry()] with the handlers added inside it. *)
Definition add_item_handler_registry (hs : list ClickedHandler) (c : Context)
    : Tag * Context :=
  let '(n, c1) := generate_uuid c in
  (TInt n, set_registries (<[TInt n := hs]> (registries c1)) c1).

(** [dpg.handler_registry()] with key press handlers added inside it. *)
Definition add_key_press_handlers (hs : list KeyHandler) (c : Context) : Context :=
  set_key_handlers (key_handlers c ++ hs) c.

End Dpg.

(* ===================================================================== *)
(** ** The world: toolkit context, the view singleton, timers, the log *)
(* ===================================================================== *)

Module App.
Import Dpg.

(** A category entry, [Dict[str, str]]. *)
Abbreviation Category := (gmap string Py.str).

(** [cat.get(key, "")] *)
Definition get_or_empty (cat : Category) (key : string) : Py.str :=
  default (Py.text "") (cat !! key).

(** [self._category_callbacks[idx]]: the dict with keys "click", "right". *)
Record CategoryHandlers := {
  h_click : Handler;
  h_right : Handler
}.

(** The keys of [self._feedback_timers]: the int [idx] of a category
    button, or the str ['nav_' + which] of a navigation button. *)
Inductive FeedbackKey := key_idx (i : Z) | key_str (s : string).

Global Instance FeedbackKey_eq_dec : EqDecision FeedbackKey.
Proof. solve_decision. Defined.

Global Instance FeedbackKey_countable : Countable FeedbackKey :=
  inj_countable'
    (fun k => match k with key_idx i => inl i | key_str s => inr s end)
    (fun x => match x with inl i => key_idx i | inr s => key_str s end)
    (fun k => match k with key_idx _ => eq_refl | key_str _ => eq_refl end).

(** The values of [self._feedback_timers]: [None], a [threading.Timer]
    (by its position in the list of timers of the world), or [True]. *)
Inductive TimerSlot := slot_None | slot_Timer (t : nat) | slot_True.

(** The attributes of the [DearPyGuiView] object. *)
Record View := {
  _callbacks : gmap string Handler;
  _category_callbacks : gmap Z CategoryHandlers;
  _modal_open : bool;
  _category_button_ids : gmap Z Tag;
  _feedback_timers : gmap FeedbackKey TimerSlot;
  _nav_button_ids : gmap string Tag;
  _keyboard_handlers_registered : bool
}.

Definition set_callbacks (m : gmap string Handler) (v : View) : View :=
  {| _callbacks := m; _category_callbacks := _category_callbacks v;
     _modal_open := _modal_open v;
     _category_button_ids := _category_button_ids v;
     _feedback_timers := _feedback_timers v;
     _nav_button_ids := _nav_button_ids v;
     _keyboard_handlers_registered := _keyboard_handlers_registered v |}.

Definition set_category_callbacks (m : gmap Z CategoryHandlers) (v : View) : View :=
  {| _callbacks := _callbacks v; _category_callbacks := m;
     _modal_open := _modal_open v;
     _category_button_ids := _category_button_ids v;
     _feedback_timers := _feedback_timers v;
     _nav_button_ids := _nav_button_ids v;
     _keyboard_handlers_registered := _keyboard_handlers_registered v |}.

Definition set_modal (b : bool) (v : View) : View :=
  {| _callbacks := _callbacks v; _category_callbacks := _category_callbacks v;
     _modal_open := b;
     _category_button_ids := _category_button_ids v;
     _feedback_timers := _feedback_timers v;
     _nav_button_ids := _nav_button_ids v;
     _keyboard_handlers_registered := _keyboard_handlers_registered v |}.

Definition set_category_button_ids (m : gmap Z Tag) (v : View) : View :=
  {| _callbacks := _callbacks v; _category_callbacks := _category_callbacks v;
     _modal_open := _modal_open v;
     _category_button_ids := m;
     _feedback_timers := _feedback_timers v;
     _nav_button_ids := _nav_button_ids v;
     _keyboard_handlers_registered := _keyboard_handlers_registered v |}.

Definition set_feedback_timers (m : gmap FeedbackKey TimerSlot) (v : View) : View :=
  {| _callbacks := _callbacks v; _category_callbacks := _category_callbacks v;
     _modal_open := _modal_open v;
     _category_button_ids := _category_button_ids v;
     _feedback_timers := m;
     _nav_button_ids := _nav_button_ids v;
     _keyboard_handlers_registered := _keyboard_handlers_registered v |}.

Definition set_nav_button_ids (m : gmap string Tag) (v : View) : View :=
  {| _callbacks := _callbacks v; _category_callbacks := _category_callbacks v;
     _modal_open := _modal_open v;
     _category_button_ids := _category_button_ids v;
     _feedback_timers := _feedback_timers v;
     _nav_button_ids := m;
     _keyboard_handlers_registered := _keyboard_handlers_registered v |}.

Definition set_keyboard_registered (b : bool) (v : View) : View :=
  {| _callbacks := _callbacks v; _category_callbacks := _category_callbacks v;
     _modal_open := _modal_open v;
     _category_button_ids := _category_button_ids v;
     _feedback_timers := _feedback_timers v;
     _nav_button_ids := _nav_button_ids v;
     _keyboard_handlers_registered := b |}.

(** What a [threading.Timer] runs when it fires, with what the function
    closes over. *)
Inductive TimerFn :=
| restore_category (button_id : Tag) (idx : Z)
| restore_nav (which : string) (button_id : Tag).

Inductive TimerState := pending | cancelled | finished.

Global Instance TimerState_eq_dec : EqDecision TimerState.
Proof. solve_decision. Defined.

Record Timer := {
  t_fn : TimerFn;
  t_state : TimerState
}.

(** The state of the process.  [instance_set] tells whether
    [DearPyGuiView._instance] is set; [self] is that object.
    [uuid4_drawn] counts the draws of [uuid.uuid4()], and
    [directory_answers] holds what the native folder picker will return,
    next answer first. *)
Record World := {
  dpg : Context;
  self : View;
  instance_set : bool;
  timers : list Timer;
  uuid4_drawn : N;
  directory_answers : list Py.str;
  log : list Event
}.

Definition set_dpg (c : Context) (w : World) : World :=
  {| dpg := c; self := self w; instance_set := instance_set w;
     timers := timers w; uuid4_drawn := uuid4_drawn w;
     directory_answers := directory_answers w; log := log w |}.

Definition set_self (v : View) (w : World) : World :=
  {| dpg := dpg w; self := v; instance_set := instance_set w;
     timers := timers w; uuid4_drawn := uuid4_drawn w;
     directory_answers := directory_answers w; log := log w |}.

Definition set_instance_set (b : bool) (w : World) : World :=
  {| dpg := dpg w; self := self w; instance_set := b;
     timers := timers w; uuid4_drawn := uuid4_drawn w;
     directory_answers := directory_answers w; log := log w |}.

Definition set_timers (t : list Timer) (w : World) : World :=
  {| dpg := dpg w; self := self w; instance_set := instance_set w;
     timers := t; uuid4_drawn := uuid4_drawn w;
     directory_answers := directory_answers w; log := log w |}.

Definition set_uuid4_drawn (n : N) (w : World) : World :=
  {| dpg := dpg w; self := self w; instance_set := instance_set w;
     timers := timers w; uuid4_drawn := n;
     directory_answers := directory_answers w; log := log w |}.

Definition set_directory_answers (a : list Py.str) (w : World) : World :=
  {| dpg := dpg w; self := self w; instance_set := instance_set w;
     timers := timers w; uuid4_drawn := uuid4_drawn w;
     directory_answers := a; log := log w |}.

Definition set_log (l : list Event) (w : World) : World :=
  {| dpg := dpg w; self := self w; instance_set := instance_set w;
     timers := timers w; uuid4_drawn := uuid4_drawn w;
     directory_answers := directory_answers w; log := l |}.

(** How a call ends: it returns, or an exception leaves it.  Either way
    the world it leaves behind is kept. *)
Inductive Outcome := Done (w : World) | Raised (w : World).

Definition world_of (o : Outcome) : World :=
  match o with Done w => w | Raised w => w end.

Definition Proc := World -> Outcome.

Definition skip : Proc := Done.

Definition and_then (p q : Proc) : Proc :=
  fun w => match p w with Done w' => q w' | Raised w' => Raised w' end.

Notation "p >> q" := (and_then p q) (at level 61, left associativity).

(** [try: body finally: fin] *)
Definition try_finally (body fin : Proc) : Proc :=
  fun w =>
    match body w with
    | Done w' => fin w'
    | Raised w' => Raised (world_of (fin w'))
    end.

(** [try: body except Exception: pass] *)
Definition try_except_pass (body : Proc) : Proc :=
  fun w => Done (world_of (body w)).

(** A statement that cannot raise. *)
Definition pure (f : World -> World) : Proc := fun w => Done (f w).

(** A Dear PyGui call; the toolkit raises where the model has [None]. *)
Definition dpg_call (f : Context -> option Context) : Proc :=
  fun w => match f (dpg w) with
           | Some c => Done (set_dpg c w)
           | None => Raised w
           end.

Definition update_self (f : View -> View) : Proc :=
  pure (fun w => set_self (f (self w)) w).

Definition record (e : Event) : World -> World :=
  fun w => set_log (log w ++ [e]) w.

(** What the controller's callbacks do once they are called. *)
Definition Behaviour := Handler -> Args -> Proc.

(** Callbacks that return at once and leave the view alone. *)
Definition returns : Behaviour := fun _ _ => skip.

(** A loop [for x in xs: body(x)]. *)
Fixpoint for_each {A} (xs : list A) (body : A -> Proc) : Proc :=
  match xs with
  | [] => skip
  | x :: xs' => body x >> for_each xs' body
  end.

(* ===================================================================== *)
(** ** [DearPyGuiView] *)
(* ===================================================================== *)

Definition TAG_MAIN_WINDOW := TStr "main_window".
Definition TAG_MENU_BAR := TStr "menu_bar".
Definition TAG_TOP_CONTROLS := TStr "top_controls".
Definition TAG_RESET_BUTTON := TStr "reset_button".
Definition TAG_STATUS_TEXT := TStr "status_text".
Definition TAG_IMAGE_DISPLAY := TStr "image_display".
Definition TAG_IMAGE_TEXTURE := TStr "image_texture".
Definition TAG_PLACEHOLDER_TEXTURE := TStr "placeholder_texture".
Definition TAG_IMAGE_AREA := TStr "image_area_group".
Definition TAG_PREV_BUTTON := TStr "prev_button".
Definition TAG_NEXT_BUTTON := TStr "next_button".
Definition TAG_CATEGORIES_CONTAINER := TStr "categories_container".

Definition DEFAULT_WIDTH := 1200.
Definition DEFAULT_HEIGHT := 730.
Definition IMAGE_DISPLAY_WIDTH := 576.
Definition IMAGE_DISPLAY_HEIGHT := 360.
Definition CATEGORY_BUTTON_WIDTH := 231.

(** A PIL image as [show_image] sees it: its mode, its size (width,
    height), and the bytes that [np.asarray] reads from it, row by row,
    four for each pixel, once it is in mode RGBA ([photo] itself when
    [mode] is "RGBA", [photo.convert("RGBA")] otherwise). *)
Record Image := {
  mode : string;
  size : Z * Z;
  rgba_bytes : list Z
}.

Section WithBehaviour.

Variable env : Behaviour.

(** Calling a callback of the controller: the call is recorded, then the
    callback does what [env] says. *)
Definition invoke (h : Handler) (a : Args) : Proc :=
  fun w => env h a (record (Call h a) w).

(** [set_modal_open] *)
Definition set_modal_open (is_open : bool) : Proc :=
  update_self (set_modal is_open).

(** [set_select_folder_button_enabled] *)
Definition set_select_folder_button_enabled (b : bool) : Proc :=
  fun w =>
    if does_item_exist (TStr "select_folder_button") (dpg w)
    then dpg_call (update_item (TStr "select_folder_button") (with_enabled b)) w
    else Done w.

(** [if self._callbacks.get(key): self._callbacks[key]()] *)
Definition call_registered (key : string) : Proc :=
  fun w =>
    match _callbacks (self w) !! key with
    | Some h => invoke h NoArgs w
    | None => Done w
    end.

(** [_on_select_folder] *)
Definition _on_select_folder : Proc :=
  fun w =>
    if _modal_open (self w) then Done w
    else (set_select_folder_button_enabled false >>
          try_finally (call_registered "select_folder")
                      (set_select_folder_button_enabled true)) w.

Definition _on_next : Proc := call_registered "next".
Definition _on_prev : Proc := call_registered "prev".
Definition _on_reset : Proc := call_registered "reset".

(** [protocol(protocol_name, callback)] *)
Definition protocol (protocol_name : string) (callback : option Handler) : Proc :=
  match callback with
  | Some h =>
      if String.eqb protocol_name "WM_DELETE_WINDOW"
      then update_self (fun v => set_callbacks (<["close" := h]> (_callbacks v)) v)
      else skip
  | None => skip
  end.

Definition on_select_folder (callback : Handler) : Proc :=
  update_self (fun v => set_callbacks (<["select_folder" := callback]> (_callbacks v)) v).

Definition on_next (callback : Handler) : Proc :=
  update_self (fun v => set_callbacks (<["next" := callback]> (_callbacks v)) v).

Definition on_prev (callback : Handler) : Proc :=
  update_self (fun v => set_callbacks (<["prev" := callback]> (_callbacks v)) v).

Definition add_reset_button (callback : Handler) : Proc :=
  update_self (fun v => set_callbacks (<["reset" := callback]> (_callbacks v)) v) >>
  dpg_call (update_item (TStr "reset_button") (with_callback bound_on_reset)).

(** The list handed to [dpg.set_value(TAG_IMAGE_TEXTURE, ...)]: every
    byte as a float32, divided by 255 in float32.  The array has four
    channels once the image is in mode RGBA, so none of the three
    reshaping branches of the source runs; [flatten] keeps the order of
    the bytes and [tolist] the value of each float32. *)
Definition texture_data (photo : Image) : list Q :=
  List.map (fun b => Py.float32 (b # 255)) (rgba_bytes photo).

(** [show_image] *)
Definition show_image (photo : option Image) : Proc :=
  match photo with
  | None =>
      fun w =>
        if does_item_exist TAG_IMAGE_DISPLAY (dpg w)
        then dpg_call (update_item TAG_IMAGE_DISPLAY
               (fun it => with_size IMAGE_DISPLAY_WIDTH IMAGE_DISPLAY_HEIGHT
                            (with_texture TAG_PLACEHOLDER_TEXTURE it))) w
        else Done w
  | Some photo =>
      dpg_call (update_item TAG_IMAGE_TEXTURE
                  (with_value (TextureValue (texture_data photo)))) >>
      (fun w =>
         if does_item_exist TAG_IMAGE_DISPLAY (dpg w)
         then dpg_call (update_item TAG_IMAGE_DISPLAY
                (fun it => with_size IMAGE_DISPLAY_WIDTH IMAGE_DISPLAY_HEIGHT
                             (with_texture TAG_IMAGE_TEXTURE it))) w
         else Done w) >>
      dpg_call (update_item TAG_IMAGE_DISPLAY
                  (with_label (Py.str_of_int IMAGE_DISPLAY_WIDTH +:+ "x" +:+
                               Py.str_of_int IMAGE_DISPLAY_HEIGHT)))
  end.

(** The str that [update_status] builds. *)
Definition status_line (text : Py.str) (file_size_kb : option Q) : Py.str :=
  match file_size_kb with
  | Some kb => text ++ Py.text (" [" +:+ Py.format_1f kb +:+ " KB]")
  | None => text
  end.

(** [update_status] *)
Definition update_status (text : Py.str) (file_size_kb : option Q) : Proc :=
  dpg_call (update_item (TStr "status_text")
              (with_value (StrValue (status_line text file_size_kb)))).

(** The label and the theme that [_create_category_button] gives a button. *)
Definition button_text (idx : Z) (name : Py.str) : Py.str :=
  if Py.truthy name
  then Py.text (Py.str_of_int (idx + 1) +:+ ": ") ++ name
  else Py.text (Py.str_of_int (idx + 1) +:+ ": [Empty]").

Definition button_theme (name path : Py.str) : Theme :=
  if Py.truthy name && Py.truthy path then th_category_defined else th_category.

(** [_create_category_button] *)
Definition _create_category_button (idx : Z) (cat : Category) (parent : Tag) : Proc :=
  fun w =>
    let name := get_or_empty cat "name" in
    let path := get_or_empty cat "path" in
    let '(n, c1) := generate_uuid (dpg w) in
    let btn_id := TInt n in
    let btn :=
      with_size CATEGORY_BUTTON_WIDTH 0
        (with_user_data idx
           (with_callback lambda_category_click
              (with_label (button_text idx name) (new_item mvButton)))) in
    (dpg_call (fun _ => snd <$> add_item (Some btn_id) (Some parent) btn c1) >>
     dpg_call (update_item btn_id (with_theme (button_theme name path))) >>
     update_self (fun v =>
       set_category_button_ids (<[idx := btn_id]> (_category_button_ids v)) v) >>
     (if Py.truthy path
      then fun w1 =>
             match add_item None (Some btn_id) (new_item mvTooltip) (dpg w1) with
             | Some (tip, c2) =>
                 dpg_call (fun _ => snd <$>
                   add_item None (Some tip)
                     (with_value (StrValue path) (new_item mvText)) c2) w1
             | None => Raised w1
             end
      else skip) >>
     (fun w1 =>
        let '(handler_id, c2) :=
          add_item_handler_registry
            [ {| ch_button := mvMouseButton_Right;
                 ch_callback := lambda_category_right_click;
                 ch_user_data := Some idx |} ] (dpg w1) in
        dpg_call (fun _ => update_item btn_id (with_handler_registry handler_id) c2) w1)
    ) w.

(** [categories[idx] if idx < len(categories) else {"name": "", "path": ""}] *)
Definition category_at (categories : list Category) (idx : Z) : Category :=
  if idx <? Z.of_nat (length categories)
  then default ∅ (categories !! Z.to_nat idx)
  else <["name" := Py.text ""]> (<["path" := Py.text ""]> ∅).

(** [set_categories] *)
Definition set_categories (categories : list Category) : Proc :=
  (fun w =>
     if does_item_exist TAG_CATEGORIES_CONTAINER (dpg w)
     then dpg_call (delete_item TAG_CATEGORIES_CONTAINER true) w
     else Done w) >>
  update_self (set_category_callbacks ∅) >>
  update_self (set_category_button_ids ∅) >>
  for_each [0; 1; 2] (fun row =>
    fun w =>
      let '(n, c1) := generate_uuid (dpg w) in
      let group_id := TStr (Py.str_of_int (Z.of_N n)) in
      (dpg_call (fun _ => snd <$>
         add_item (Some group_id) (Some TAG_CATEGORIES_CONTAINER)
           (new_item mvGroup) c1) >>
       for_each [0; 1; 2] (fun col =>
         let idx := row * 3 + col in
         _create_category_button idx (category_at categories idx) group_id)) w).

(** [bind_category] *)
Definition bind_category (idx : Z) (on_click on_right_click : Handler) : Proc :=
  update_self (fun v =>
    set_category_callbacks
      (<[idx := {| h_click := on_click; h_right := on_right_click |}]>
         (_category_callbacks v)) v).

(** [timer.cancel()]: a timer that has not fired yet never will. *)
Definition cancel (t : nat) (ts : list Timer) : list Timer :=
  match ts !! t with
  | Some tm =>
      match t_state tm with
      | pending => <[t := {| t_fn := t_fn tm; t_state := cancelled |}]> ts
      | _ => ts
      end
  | None => ts
  end.

(** [timer = threading.Timer(duration, fn); timer.start()]: the new timer
    takes the next position in the list. *)
Definition start_timer (fn : TimerFn) (w : World) : nat * World :=
  (length (timers w),
   set_timers (timers w ++ [{| t_fn := fn; t_state := pending |}]) w).

(** [_show_button_feedback] *)
Definition _show_button_feedback (idx : Z) : Proc :=
  fun w =>
    match _category_button_ids (self w) !! idx with
    | None => Done w
    | Some button_id =>
        ((fun w =>
            match _feedback_timers (self w) !! key_idx idx with
            | Some slot =>
                let w1 :=
                  match slot with
                  | slot_Timer t => set_timers (cancel t (timers w)) w
                  | slot_True => w      (* the AttributeError is passed over *)
                  | slot_None => w
                  end in
                update_self (fun v =>
                  set_feedback_timers
                    (<[key_idx idx := slot_None]> (_feedback_timers v)) v) w1
            | None => Done w
            end) >>
         dpg_call (update_item button_id (with_theme th_category_feedback)) >>
         (fun w =>
            let '(t, w1) := start_timer (restore_category button_id idx) w in
            update_self (fun v =>
              set_feedback_timers
                (<[key_idx idx := slot_Timer t]> (_feedback_timers v)) v) w1)) w
    end.

(** The theme that [restore_theme] picks from the label of the button. *)
Definition restored_theme (label : Py.str) : Theme :=
  let is_empty := if Py.truthy label then Py.contains "[Empty]" label else true in
  if is_empty then th_category else th_category_defined.

(** [restore_theme] of [_show_button_feedback] *)
Definition restore_theme_category (button_id : Tag) (idx : Z) : Proc :=
  (fun w =>
     match items (dpg w) !! button_id with
     | Some it =>
         dpg_call (update_item button_id (with_theme (restored_theme (label it)))) w
     | None => Done w
     end) >>
  update_self (fun v =>
    set_feedback_timers (delete (key_idx idx) (_feedback_timers v)) v).

(** The feedback theme of a navigation button, if [which] names one. *)
Definition nav_theme (which : string) (feedback : bool) : option Theme :=
  if String.eqb which "prev" then Some (if feedback then th_prev_feedback else th_prev)
  else if String.eqb which "next" then Some (if feedback then th_next_feedback else th_next)
  else None.

Definition bind_nav_theme (which : string) (feedback : bool) (button_id : Tag) : Proc :=
  match nav_theme which feedback with
  | Some th => dpg_call (update_item button_id (with_theme th))
  | None => skip
  end.

(** [_show_nav_button_feedback] *)
Definition _show_nav_button_feedback (which : string) : Proc :=
  fun w =>
    match _nav_button_ids (self w) !! which with
    | None => Done w
    | Some button_id =>
        let nav_key := key_str ("nav_" +:+ which) in
        ((fun w =>
            match _feedback_timers (self w) !! nav_key with
            | Some _ =>
                update_self (fun v =>
                  set_feedback_timers
                    (<[nav_key := slot_None]> (_feedback_timers v)) v) w
            | None => Done w
            end) >>
         bind_nav_theme which true button_id >>
         update_self (fun v =>
           set_feedback_timers (<[nav_key := slot_True]> (_feedback_timers v)) v) >>
         pure (fun w => snd (start_timer (restore_nav which button_id) w))) w
    end.

(** [restore_theme] of [_show_nav_button_feedback] *)
Definition restore_theme_nav (which : string) (button_id : Tag) : Proc :=
  fun w =>
    let nav_key := key_str ("nav_" +:+ which) in
    match _feedback_timers (self w) !! nav_key with
    | None | Some slot_None => Done w
    | Some _ =>
        (bind_nav_theme which false button_id >>
         update_self (fun v =>
           set_feedback_timers (delete nav_key (_feedback_timers v)) v)) w
    end.

(** [_on_category_click] *)
Definition _on_category_click (idx : Z) : Proc :=
  _show_button_feedback idx >>
  (fun w =>
     match _category_callbacks (self w) !! idx with
     | Some hs => invoke (h_click hs) (IdxArg idx) w
     | None => Done w
     end).

(** [_on_category_right_click] *)
Definition _on_category_right_click (idx : Z) : Proc :=
  fun w =>
    match _category_callbacks (self w) !! idx with
    | Some hs => invoke (h_right hs) (IdxArg idx) w
    | None => Done w
    end.

(** The handlers that [bind_keyboard_shortcuts] adds: one per digit key
    in the loop [for i in range(9)], then the two arrow keys. *)
Definition shortcut_handlers : list KeyHandler :=
  List.map
    (fun i => {| kh_key := mvKey_1_plus i;
                 kh_callback := lambda_keyboard_category;
                 kh_user_data := Some i |})
    [0; 1; 2; 3; 4; 5; 6; 7; 8] ++
  [ {| kh_key := mvKey_Left; kh_callback := bound_keyboard_prev;
       kh_user_data := None |};
    {| kh_key := mvKey_Right; kh_callback := bound_keyboard_next;
       kh_user_data := None |} ].

(** [bind_keyboard_shortcuts] *)
Definition bind_keyboard_shortcuts : Proc :=
  fun w =>
    if _keyboard_handlers_registered (self w) then Done w
    else
      (update_self (set_keyboard_registered true) >>
       pure (fun w =>
         set_dpg (add_key_press_handlers shortcut_handlers (dpg w)) w)) w.

(** [_handle_keyboard_prev] *)
Definition _handle_keyboard_prev : Proc :=
  _show_nav_button_feedback "prev" >> _on_prev.

(** [_handle_keyboard_next] *)
Definition _handle_keyboard_next : Proc :=
  _show_nav_button_feedback "next" >> _on_next.

(** [_handle_keyboard_category] *)
Definition _handle_keyboard_category (idx : Z) : Proc :=
  fun w =>
    if _modal_open (self w) then Done w
    else (_show_button_feedback idx >> _on_category_click idx) w.

(** Adding an item under a tag of the caller's choice. *)
Definition add (tag : Tag) (parent : option Tag) (it : Item) : Proc :=
  dpg_call (fun c => snd <$> add_item (Some tag) parent it c).

(** Adding an item under a generated id, which the continuation receives. *)
Definition add_auto (parent : option Tag) (it : Item) (k : Tag -> Proc) : Proc :=
  fun w =>
    match add_item None parent it (dpg w) with
    | Some (t, c) => k t (set_dpg c w)
    | None => Raised w
    end.

(** [__init__]: the singleton is set, then the textures, the main window
    and its widgets are built, then the callback dicts and the modal flag.
    Items that only take up room (spacers) are left out, and so is the
    resize callback that moves them. *)
Definition __init__ : Proc :=
  pure (set_instance_set true) >>
  pure (fun w =>
    set_dpg {| items := items (dpg w); registries := registries (dpg w);
               key_handlers := key_handlers (dpg w);
               next_uuid := next_uuid (dpg w);
               viewport_client := (DEFAULT_WIDTH, DEFAULT_HEIGHT) |} w) >>
  add TAG_PLACEHOLDER_TEXTURE None
    (with_size 1 1 (with_value (TextureValue [0#1; 0#1; 0#1; 0#1])
                      (new_item mvDynamicTexture))) >>
  add TAG_IMAGE_TEXTURE None
    (with_size IMAGE_DISPLAY_WIDTH IMAGE_DISPLAY_HEIGHT
       (with_value (TextureFill (0#1) (IMAGE_DISPLAY_WIDTH * IMAGE_DISPLAY_HEIGHT * 4))
          (new_item mvDynamicTexture))) >>
  update_self (set_category_button_ids ∅) >>
  update_self (set_feedback_timers ∅) >>
  update_self (set_nav_button_ids ∅) >>
  add TAG_MAIN_WINDOW None
    (with_pos 0 0 (with_size DEFAULT_WIDTH DEFAULT_HEIGHT (new_item mvWindow))) >>
  (* _build_menu_bar *)
  add TAG_MENU_BAR (Some TAG_MAIN_WINDOW) (new_item mvMenuBar) >>
  add_auto (Some TAG_MENU_BAR) (with_label "Menu" (new_item mvMenu)) (fun menu =>
    add_auto (Some menu)
      (with_callback lambda_show_how_to (with_label "How to" (new_item mvMenuItem)))
      (fun _ =>
    add_auto (Some menu)
      (with_callback lambda_show_about (with_label "About" (new_item mvMenuItem)))
      (fun _ => skip))) >>
  add TAG_RESET_BUTTON (Some TAG_MAIN_WINDOW)
    (with_pos (DEFAULT_WIDTH - 70) 30 (with_label "Reset" (new_item mvButton))) >>
  dpg_call (update_item TAG_RESET_BUTTON (with_theme th_reset)) >>
  add_auto (Some TAG_MAIN_WINDOW) (new_item mvGroup) (fun outer =>
    add (TStr "center_content") (Some outer) (new_item mvGroup)) >>
  (* _build_top_controls *)
  add TAG_TOP_CONTROLS (Some (TStr "center_content")) (new_item mvGroup) >>
  add (TStr "select_folder_button") (Some TAG_TOP_CONTROLS)
    (with_size 170 30
       (with_callback bound_on_select_folder
          (with_label "Select Source Folder" (new_item mvButton)))) >>
  dpg_call (update_item (TStr "select_folder_button") (with_theme th_select_folder)) >>
  add (TStr "selected_folder_path") (Some TAG_TOP_CONTROLS)
    (with_value (StrValue "No folder selected") (new_item mvText)) >>
  (* _build_status_text *)
  add TAG_STATUS_TEXT (Some (TStr "center_content"))
    (with_value (StrValue "Select a source folder") (new_item mvText)) >>
  (* _build_image_area *)
  add TAG_IMAGE_AREA (Some (TStr "center_content")) (new_item mvGroup) >>
  add TAG_PREV_BUTTON (Some TAG_IMAGE_AREA)
    (with_size 40 IMAGE_DISPLAY_HEIGHT
       (with_callback bound_on_prev (with_label "<" (new_item mvButton)))) >>
  dpg_call (update_item TAG_PREV_BUTTON (with_theme th_prev)) >>
  update_self (fun v =>
    set_nav_button_ids (<["prev" := TAG_PREV_BUTTON]> (_nav_button_ids v)) v) >>
  add TAG_IMAGE_DISPLAY (Some TAG_IMAGE_AREA)
    (with_size IMAGE_DISPLAY_WIDTH IMAGE_DISPLAY_HEIGHT
       (with_texture TAG_IMAGE_TEXTURE (new_item mvImage))) >>
  add TAG_NEXT_BUTTON (Some TAG_IMAGE_AREA)
    (with_size 40 IMAGE_DISPLAY_HEIGHT
       (with_callback bound_on_next (with_label ">" (new_item mvButton)))) >>
  dpg_call (update_item TAG_NEXT_BUTTON (with_theme th_next)) >>
  update_self (fun v =>
    set_nav_button_ids (<["next" := TAG_NEXT_BUTTON]> (_nav_button_ids v)) v) >>
  (* _build_categories_container *)
  add TAG_CATEGORIES_CONTAINER (Some (TStr "center_content")) (new_item mvGroup) >>
  update_self (set_callbacks ∅) >>
  update_self (set_category_callbacks ∅) >>
  update_self (set_modal false).

(* ===================================================================== *)
(** ** [dialogs.py] *)
(* ===================================================================== *)

(** [_center_window] *)
Definition _center_window (window_id : Tag) (width height : Z) : Proc :=
  fun w =>
    let '(vp_width, vp_height) := viewport_client (dpg w) in
    let x := Z.max ((vp_width - width) / 2) 0 in
    let y := Z.max ((vp_height - height) / 2) 0 in
    dpg_call (update_item window_id (with_pos x y)) w.

(** [_show_message_dialog] *)
Definition _show_message_dialog (title message : Py.str) : Proc :=
  fun w =>
    let width := 300 in
    let height := 100 in
    let '(n, c1) := generate_uuid (dpg w) in
    let window_id := TStr (Py.str_of_int (Z.of_N n)) in
    (add window_id None
       (with_size width height
          (with_modal true (with_label title (new_item mvWindow)))) >>
     add_auto (Some window_id) (with_value (StrValue message) (new_item mvText))
       (fun _ => skip) >>
     add_auto (Some window_id)
       (with_callback (message_close window_id) (with_label "OK" (new_item mvButton)))
       (fun _ => skip) >>
     _center_window window_id width height) (set_dpg c1 w).

(** [_close_dialog] of [_show_message_dialog] *)
Definition message_close_body (window_id : Tag) : Proc :=
  dpg_call (delete_item window_id false).

Definition show_info (message : Py.str) : Proc := _show_message_dialog "Info" message.
Definition show_warning (message : Py.str) : Proc := _show_message_dialog "Warning" message.
Definition show_error (message : Py.str) : Proc := _show_message_dialog "Error" message.

(** [_set_modal_state]; [view] tells whether [_get_view_instance()]
    returned the singleton. *)
Definition _set_modal_state (view : bool) (is_open : bool) : Proc :=
  if view then set_modal_open is_open else skip.

(** [str(uuid.uuid4())]: the draws are modelled as successive numerals, so
    that two draws never agree. *)
Definition uuid4 (w : World) : string * World :=
  (Py.str_of_int (Z.of_N (uuid4_drawn w)),
   set_uuid4_drawn (uuid4_drawn w + 1)%N w).

(** [dpg.get_value(tag)] of a text input. *)
Definition get_str (t : Tag) (w : World) : option Py.str :=
  match items (dpg w) !! t with
  | Some it => match value it with StrValue s => Some s | _ => None end
  | None => None
  end.

(** [_update_ok_state] of [configure_category] *)
Definition _update_ok_state (sc : CfgScope) : Proc :=
  fun w =>
    match get_str (cfg_name_id sc) w, get_str (cfg_folder_id sc) w with
    | Some name_val, Some folder_val =>
        let enabled :=
          Py.truthy (Py.strip name_val) && Py.truthy (Py.strip folder_val) in
        dpg_call (update_item (cfg_ok_id sc) (with_enabled enabled)) w
    | _, _ => Raised w
    end.

(** [_on_ok] of [configure_category] *)
Definition _on_ok (sc : CfgScope) : Proc :=
  (fun w =>
     invoke (cfg_callback sc)
       (ResultArg {| action := "save"; idx := cfg_idx sc;
                     name := get_str (cfg_name_id sc) w;
                     path := get_str (cfg_folder_id sc) w |}) w) >>
  _set_modal_state (cfg_view sc) false >>
  dpg_call (delete_item (cfg_window_id sc) false).

(** [_on_cancel] of [configure_category] *)
Definition _on_cancel (sc : CfgScope) : Proc :=
  invoke (cfg_callback sc)
    (ResultArg {| action := "cancel"; idx := cfg_idx sc;
                  name := None; path := None |}) >>
  _set_modal_state (cfg_view sc) false >>
  dpg_call (delete_item (cfg_window_id sc) false).

(** [_on_delete] of [configure_category] *)
Definition _on_delete (sc : CfgScope) : Proc :=
  invoke (cfg_callback sc)
    (ResultArg {| action := "delete"; idx := cfg_idx sc;
                  name := None; path := None |}) >>
  _set_modal_state (cfg_view sc) false >>
  dpg_call (delete_item (cfg_window_id sc) false).

(** [filedialog.askdirectory(title=...)]: the call is recorded and the
    next answer of the world is returned; "" when the user cancels. *)
Definition askdirectory (title : string) (w : World) : Py.str * World :=
  let w1 := record (AskDirectory title) w in
  match directory_answers w1 with
  | [] => (Py.text "", w1)
  | a :: rest => (a, set_directory_answers rest w1)
  end.

(** [_on_browse] of [configure_category] *)
Definition _on_browse (sc : CfgScope) : Proc :=
  fun w =>
    let '(folder_selected, w1) := askdirectory "Select Destination Folder" w in
    if Py.truthy folder_selected
    then (dpg_call (update_item (cfg_folder_id sc)
                      (with_value (StrValue folder_selected))) >>
          _update_ok_state sc) w1
    else Done w1.

(** [configure_category] *)
Definition configure_category (idx : Z) (initial : Category) (callback : Handler) : Proc :=
  fun w =>
    let view := instance_set w in
    let '(u, w1) := uuid4 w in
    let window := "category_config_" +:+ Py.str_of_int idx +:+ "_" +:+ u in
    let sc := {| cfg_idx := idx; cfg_callback := callback; cfg_view := view;
                 cfg_window_id := TStr window;
                 cfg_name_id := TStr ("cat_name_" +:+ window);
                 cfg_folder_id := TStr ("cat_folder_" +:+ window);
                 cfg_ok_id := TStr ("cat_ok_" +:+ window) |} in
    let width := 315 in
    let height := 200 in
    (add (cfg_window_id sc) None
       (with_size width height
          (with_modal true
             (with_label ("Edit Category " +:+ Py.str_of_int (idx + 1))
                (new_item mvWindow)))) >>
     add (cfg_name_id sc) (Some (cfg_window_id sc))
       (with_size 300 0
          (with_callback (cfg_update_ok sc)
             (with_value (StrValue (get_or_empty initial "name"))
                (new_item mvInputText)))) >>
     add_auto (Some (cfg_window_id sc)) (new_item mvGroup) (fun g =>
       add (cfg_folder_id sc) (Some g)
         (with_size 220 0
            (with_callback (cfg_update_ok sc)
               (with_value (StrValue (get_or_empty initial "path"))
                  (new_item mvInputText)))) >>
       add_auto (Some g)
         (with_callback (cfg_on_browse sc) (with_label "Browse..." (new_item mvButton)))
         (fun _ => skip)) >>
     add_auto (Some (cfg_window_id sc)) (new_item mvGroup) (fun g =>
       add (cfg_ok_id sc) (Some g)
         (with_callback (cfg_on_ok sc) (with_label "Save" (new_item mvButton))) >>
       add_auto (Some g)
         (with_callback (cfg_on_cancel sc) (with_label "Cancel" (new_item mvButton)))
         (fun _ => skip) >>
       add_auto (Some g)
         (with_callback (cfg_on_delete sc) (with_label "Delete" (new_item mvButton)))
         (fun _ => skip)) >>
     _center_window (cfg_window_id sc) width height >>
     _update_ok_state sc >>
     _set_modal_state view true) w1.

(** [_close] of [show_how_to] *)
Definition how_to_close_body (window_id : Tag) : Proc :=
  dpg_call (delete_item window_id false).

Definition instructions : Py.str :=
  "How to Use Photo Sorter".

(** [show_how_to]; the text of the instructions is cut to its heading. *)
Definition show_how_to : Proc :=
  fun w =>
    let '(u, w1) := uuid4 w in
    let window_id := TStr ("how_to_popup_" +:+ u) in
    let width := 880 in
    let height := 270 in
    (add window_id None
       (with_size width height
          (with_modal true (with_label "How to" (new_item mvWindow)))) >>
     add_auto (Some window_id) (with_value (StrValue instructions) (new_item mvText))
       (fun _ => skip) >>
     add_auto (Some window_id) (new_item mvGroup) (fun g =>
       add_auto (Some g)
         (with_size 80 0
            (with_callback (how_to_close window_id)
               (with_label "Close" (new_item mvButton))))
         (fun _ => skip)) >>
     _center_window window_id width height) w1.

Definition about_window_id := TStr "about_popup_dialogs".

(** [close_popup] of [show_about] *)
Definition about_close_body (view : bool) : Proc :=
  _set_modal_state view false >>
  dpg_call (update_item about_window_id (with_show false)).

(** [show_about] *)
Definition show_about : Proc :=
  fun w =>
    let view := instance_set w in
    let width := 355 in
    let height := 180 in
    ((fun w =>
        if does_item_exist about_window_id (dpg w) then Done w
        else
          (add about_window_id None
             (with_size width height
                (with_show false
                   (with_modal true (with_label "About" (new_item mvWindow))))) >>
           add_auto (Some about_window_id)
             (with_value (StrValue "Photo Sorter") (new_item mvText)) (fun _ => skip) >>
           add_auto (Some about_window_id) (new_item mvGroup) (fun g =>
             add_auto (Some g) (with_value (StrValue "GitHub:") (new_item mvText))
               (fun _ => skip) >>
             add (TStr "about_github_link") (Some g)
               (with_value (StrValue "https://github.com/gorfreee/photo_sorter")
                  (new_item mvText))) >>
           add_auto (Some about_window_id)
             (with_value (StrValue "License: MIT License") (new_item mvText))
             (fun _ => skip) >>
           add_auto (Some about_window_id) (new_item mvGroup) (fun g =>
             add_auto (Some g)
               (with_size 120 0
                  (with_callback lambda_open_github
                     (with_label "Open GitHub" (new_item mvButton))))
               (fun _ => skip) >>
             add_auto (Some g)
               (with_size 80 0
                  (with_callback (about_close view)
                     (with_label "Close" (new_item mvButton))))
               (fun _ => skip))) w) >>
     _set_modal_state view true >>
     _center_window about_window_id width height >>
     dpg_call (update_item about_window_id (with_show true))) w.

(* ===================================================================== *)
(** ** The events of the user interface *)
(* ===================================================================== *)

(** What each callable does when the toolkit calls it with the
    [user_data] of the item or handler it is bound to.  A lambda that
    forwards [u] to a method receives [None] when the item carries no
    user data; the methods then find [None] in none of their dicts. *)
Definition run_closure (c : Closure) (u : option Z) : Proc :=
  match c with
  | bound_on_select_folder => _on_select_folder
  | bound_on_prev => _on_prev
  | bound_on_next => _on_next
  | bound_on_reset => _on_reset
  | lambda_category_click =>
      match u with Some i => _on_category_click i | None => skip end
  | lambda_category_right_click =>
      match u with Some i => _on_category_right_click i | None => skip end
  | lambda_keyboard_category =>
      match u with Some i => _handle_keyboard_category i | None => skip end
  | bound_keyboard_prev => _handle_keyboard_prev
  | bound_keyboard_next => _handle_keyboard_next
  | lambda_show_how_to => show_how_to
  | lambda_show_about => show_about
  | message_close window_id => message_close_body window_id
  | cfg_on_ok sc => _on_ok sc
  | cfg_on_cancel sc => _on_cancel sc
  | cfg_on_delete sc => _on_delete sc
  | cfg_on_browse sc => _on_browse sc
  | cfg_update_ok sc => _update_ok_state sc
  | how_to_close window_id => how_to_close_body window_id
  | about_close view => about_close_body view
  | lambda_open_github =>
      pure (record (OpenUrl "https://github.com/gorfreee/photo_sorter"))
  end.

(** The toolkit runs a callback and carries on whatever it raises. *)
Definition dispatch (c : Closure) (u : option Z) (w : World) : World :=
  world_of (run_closure c u w).

(** An item is on screen when it and every container above it is shown. *)
Definition visible (t : Tag) (c : Context) : bool :=
  match items c !! t with
  | Some it =>
      show it &&
      forallb (fun a => match items c !! a with
                        | Some ait => show ait
                        | None => false
                        end) (ancestors it)
  | None => false
  end.

(** The user clicks the item [t] with the left button: the callback of the
    item runs when the item is on screen and enabled. *)
Definition ui_click (t : Tag) (w : World) : World :=
  match items (dpg w) !! t with
  | Some it =>
      if visible t (dpg w) && enabled it then
        match callback it with
        | Some c => dispatch c (user_data it) w
        | None => w
        end
      else w
  | None => w
  end.

(** The user clicks the item [t] with the right button: the clicked
    handlers for that button in the registry bound to the item run. *)
Definition ui_right_click (t : Tag) (w : World) : World :=
  match items (dpg w) !! t with
  | Some it =>
      if visible t (dpg w) then
        match handler_registry it with
        | Some r =>
            fold_left
              (fun w h =>
                 match ch_button h with
                 | mvMouseButton_Right => dispatch (ch_callback h) (ch_user_data h) w
                 | mvMouseButton_Left => w
                 end)
              (default [] (registries (dpg w) !! r)) w
        | None => w
        end
      else w
  | None => w
  end.

(** The user presses a key: every key press handler registered for it
    runs, in the order of registration. *)
Definition ui_key_press (k : Key) (w : World) : World :=
  fold_left
    (fun w h =>
       if bool_decide (kh_key h = k)
       then dispatch (kh_callback h) (kh_user_data h) w
       else w)
    (key_handlers (dpg w)) w.

(** The user edits the text input [t] so that it reads [s]: the value is
    stored and the callback of the input runs. *)
Definition ui_type (t : Tag) (s : Py.str) (w : World) : World :=
  match items (dpg w) !! t with
  | Some it =>
      if visible t (dpg w) && enabled it && bool_decide (kind it = mvInputText) then
        let w1 := set_dpg (set_items (<[t := with_value (StrValue s) it]> (items (dpg w)))
                             (dpg w)) w in
        match callback it with
        | Some c => dispatch c (user_data it) w1
        | None => w1
        end
      else w
  | None => w
  end.

(** What a timer runs. *)
Definition run_timer_fn (fn : TimerFn) : Proc :=
  match fn with
  | restore_category button_id idx => restore_theme_category button_id idx
  | restore_nav which button_id => restore_theme_nav which button_id
  end.

(** The delay of timer [t] is over: its function runs unless the timer was
    cancelled or has run before. *)
Definition timer_fires (t : nat) (w : World) : World :=
  match timers w !! t with
  | Some tm =>
      match t_state tm with
      | pending =>
          world_of
            (run_timer_fn (t_fn tm)
               (set_timers (<[t := {| t_fn := t_fn tm; t_state := finished |}]> (timers w)) w))
      | _ => w
      end
  | None => w
  end.

End WithBehaviour.

(** The timers that have been started and have neither fired nor been
    cancelled. *)
Definition pending_timers (w : World) : list nat :=
  List.filter
    (fun t => match timers w !! t with
              | Some tm => bool_decide (t_state tm = pending)
              | None => false
              end)
    (seq 0%nat (length (timers w))).

(** Those among them that will restore category button [idx]. *)
Definition pending_for (idx : Z) (w : World) : list nat :=
  List.filter
    (fun t => match timers w !! t with
              | Some {| t_fn := restore_category _ i |} => bool_decide (i = idx)
              | _ => false
              end)
    (pending_timers w).

(** A process that has just started: nothing in the toolkit, no view. *)
Definition fresh_process : World :=
  {| dpg := {| items := ∅; registries := ∅; key_handlers := [];
               next_uuid := 1000; viewport_client := (0, 0) |};
     self := {| _callbacks := ∅; _category_callbacks := ∅; _modal_open := false;
                _category_button_ids := ∅; _feedback_timers := ∅;
                _nav_button_ids := ∅; _keyboard_handlers_registered := false |};
     instance_set := false;
     timers := [];
     uuid4_drawn := 0;
     directory_answers := [];
     log := [] |}.

(** The world once [DearPyGuiView()] has been constructed. *)
Definition started : World := world_of (__init__ fresh_process).

End App.

(* ===================================================================== *)
(** ** [MainWindow], the Tkinter front-end *)
(* ===================================================================== *)

Module Tk.

Abbreviation Category := (gmap string Py.str).

(** A [PhotoImage], with the size it was made at. *)
Record Photo := {
  photo_width : Z;
  photo_height : Z
}.

(** [handle_click] of [bind_category], with what it closes over; the
    [btn] it presses and releases is the widget the binding sits on. *)
Record HandleClick := {
  hc_idx : Z;
  hc_on_click : Handler;
  hc_on_right_click : Handler
}.

(** A button of the category grid.  [widget] tells the Tk widgets apart;
    the two bindings are those for ['<Button-1>'] and ['<Button-3>']. *)
Record Button := {
  widget : nat;
  text : Py.str;
  relief : string;
  grid_row : Z;
  grid_column : Z;
  bound_Button_1 : option HandleClick;
  bound_Button_3 : option HandleClick
}.

Definition with_relief (r : string) (b : Button) : Button :=
  {| widget := widget b; text := text b; relief := r;
     grid_row := grid_row b; grid_column := grid_column b;
     bound_Button_1 := bound_Button_1 b; bound_Button_3 := bound_Button_3 b |}.

Definition with_bindings (h : HandleClick) (b : Button) : Button :=
  {| widget := widget b; text := text b; relief := relief b;
     grid_row := grid_row b; grid_column := grid_column b;
     bound_Button_1 := Some h; bound_Button_3 := Some h |}.

(** What [bind_keyboard_shortcuts] binds to a key. *)
Inductive KeyBinding :=
| key_category (idx : Z)   (* lambda e, idx=i: self.category_click_callback(idx) if ... *)
| key_prev                 (* lambda e: self.prev_btn.invoke() *)
| key_next.                (* lambda e: self.next_btn.invoke() *)

(** What [after_idle] has been asked to run by [handle_click]. *)
Inductive IdleTask :=
| raise_relief (widget : nat).    (* lambda: btn.config(relief='raised') *)

Record MainWindow := {
  status_label : Py.str;
  image_label : option Photo;          (* the image option of the label; '' is None *)
  photo_ref : option Photo;
  next_btn : option Handler;           (* the command option of the button *)
  prev_btn : option Handler;
  select_btn : option Handler;
  reset_btn : option Handler;
  cat_buttons : list Button;
  category_click_callback : option Handler;
  category_right_callback : option Handler;
  current_columns : Z;
  key_bindings : gmap string KeyBinding;
  idle : list IdleTask;
  next_widget : nat;
  log : list Event
}.

Definition set_status_label (s : Py.str) (m : MainWindow) : MainWindow :=
  {| status_label := s; image_label := image_label m; photo_ref := photo_ref m;
     next_btn := next_btn m; prev_btn := prev_btn m; select_btn := select_btn m;
     reset_btn := reset_btn m; cat_buttons := cat_buttons m;
     category_click_callback := category_click_callback m;
     category_right_callback := category_right_callback m;
     current_columns := current_columns m; key_bindings := key_bindings m;
     idle := idle m; next_widget := next_widget m; log := log m |}.

Definition set_image (i r : option Photo) (m : MainWindow) : MainWindow :=
  {| status_label := status_label m; image_label := i; photo_ref := r;
     next_btn := next_btn m; prev_btn := prev_btn m; select_btn := select_btn m;
     reset_btn := reset_btn m; cat_buttons := cat_buttons m;
     category_click_callback := category_click_callback m;
     category_right_callback := category_right_callback m;
     current_columns := current_columns m; key_bindings := key_bindings m;
     idle := idle m; next_widget := next_widget m; log := log m |}.

Definition set_commands (n p s r : option Handler) (m : MainWindow) : MainWindow :=
  {| status_label := status_label m; image_label := image_label m;
     photo_ref := photo_ref m;
     next_btn := n; prev_btn := p; select_btn := s; reset_btn := r;
     cat_buttons := cat_buttons m;
     category_click_callback := category_click_callback m;
     category_right_callback := category_right_callback m;
     current_columns := current_columns m; key_bindings := key_bindings m;
     idle := idle m; next_widget := next_widget m; log := log m |}.

Definition set_cat_buttons (b : list Button) (m : MainWindow) : MainWindow :=
  {| status_label := status_label m; image_label := image_label m;
     photo_ref := photo_ref m;
     next_btn := next_btn m; prev_btn := prev_btn m; select_btn := select_btn m;
     reset_btn := reset_btn m; cat_buttons := b;
     category_click_callback := category_click_callback m;
     category_right_callback := category_right_callback m;
     current_columns := current_columns m; key_bindings := key_bindings m;
     idle := idle m; next_widget := next_widget m; log := log m |}.

Definition set_category_callbacks (c r : option Handler) (m : MainWindow) : MainWindow :=
  {| status_label := status_label m; image_label := image_label m;
     photo_ref := photo_ref m;
     next_btn := next_btn m; prev_btn := prev_btn m; select_btn := select_btn m;
     reset_btn := reset_btn m; cat_buttons := cat_buttons m;
     category_click_callback := c;
     category_right_callback := r;
     current_columns := current_columns m; key_bindings := key_bindings m;
     idle := idle m; next_widget := next_widget m; log := log m |}.

Definition set_current_columns (c : Z) (m : MainWindow) : MainWindow :=
  {| status_label := status_label m; image_label := image_label m;
     photo_ref := photo_ref m;
     next_btn := next_btn m; prev_btn := prev_btn m; select_btn := select_btn m;
     reset_btn := reset_btn m; cat_buttons := cat_buttons m;
     category_click_callback := category_click_callback m;
     category_right_callback := category_right_callback m;
     current_columns := c; key_bindings := key_bindings m;
     idle := idle m; next_widget := next_widget m; log := log m |}.

Definition set_key_bindings (k : gmap string KeyBinding) (m : MainWindow) : MainWindow :=
  {| status_label := status_label m; image_label := image_label m;
     photo_ref := photo_ref m;
     next_btn := next_btn m; prev_btn := prev_btn m; select_btn := select_btn m;
     reset_btn := reset_btn m; cat_buttons := cat_buttons m;
     category_click_callback := category_click_callback m;
     category_right_callback := category_right_callback m;
     current_columns := current_columns m; key_bindings := k;
     idle := idle m; next_widget := next_widget m; log := log m |}.

Definition set_idle (i : list IdleTask) (m : MainWindow) : MainWindow :=
  {| status_label := status_label m; image_label := image_label m;
     photo_ref := photo_ref m;
     next_btn := next_btn m; prev_btn := prev_btn m; select_btn := select_btn m;
     reset_btn := reset_btn m; cat_buttons := cat_buttons m;
     category_click_callback := category_click_callback m;
     category_right_callback := category_right_callback m;
     current_columns := current_columns m; key_bindings := key_bindings m;
     idle := i; next_widget := next_widget m; log := log m |}.

Definition set_next_widget (n : nat) (m : MainWindow) : MainWindow :=
  {| status_label := status_label m; image_label := image_label m;
     photo_ref := photo_ref m;
     next_btn := next_btn m; prev_btn := prev_btn m; select_btn := select_btn m;
     reset_btn := reset_btn m; cat_buttons := cat_buttons m;
     category_click_callback := category_click_callback m;
     category_right_callback := category_right_callback m;
     current_columns := current_columns m; key_bindings := key_bindings m;
     idle := idle m; next_widget := n; log := log m |}.

Definition set_log (l : list Event) (m : MainWindow) : MainWindow :=
  {| status_label := status_label m; image_label := image_label m;
     photo_ref := photo_ref m;
     next_btn := next_btn m; prev_btn := prev_btn m; select_btn := select_btn m;
     reset_btn := reset_btn m; cat_buttons := cat_buttons m;
     category_click_callback := category_click_callback m;
     category_right_callback := category_right_callback m;
     current_columns := current_columns m; key_bindings := key_bindings m;
     idle := idle m; next_widget := next_widget m; log := l |}.

(** How a call ends, as in [App]. *)
Inductive Outcome := Done (m : MainWindow) | Raised (m : MainWindow).

Definition window_of (o : Outcome) : MainWindow :=
  match o with Done m => m | Raised m => m end.

Definition Behaviour := Handler -> Args -> MainWindow -> Outcome.

Definition returns : Behaviour := fun _ _ m => Done m.

(** [__init__]: the widgets before any callback is registered. *)
Definition __init__ : MainWindow :=
  {| status_label := "Select a source folder.";
     image_label := None; photo_ref := None;
     next_btn := None; prev_btn := None; select_btn := None; reset_btn := None;
     cat_buttons := [];
     category_click_callback := None; category_right_callback := None;
     current_columns := 9;
     key_bindings := ∅; idle := []; next_widget := 0%nat; log := [] |}.

Definition on_next (callback : Handler) (m : MainWindow) : MainWindow :=
  set_commands (Some callback) (prev_btn m) (select_btn m) (reset_btn m) m.

Definition on_prev (callback : Handler) (m : MainWindow) : MainWindow :=
  set_commands (next_btn m) (Some callback) (select_btn m) (reset_btn m) m.

Definition on_select_folder (callback : Handler) (m : MainWindow) : MainWindow :=
  set_commands (next_btn m) (prev_btn m) (Some callback) (reset_btn m) m.

Definition add_reset_button (callback : Handler) (m : MainWindow) : MainWindow :=
  set_commands (next_btn m) (prev_btn m) (select_btn m) (Some callback) m.

(** [show_image]: a [PhotoImage] is truthy, [None] is not. *)
Definition show_image (photo : option Photo) (m : MainWindow) : MainWindow :=
  match photo with
  | Some p => set_image (Some p) (Some p) m
  | None => set_image None None m
  end.

(** The text that [update_status] gives the status label. *)
Definition status_line (text : Py.str) (file_size_kb : option Q) : Py.str :=
  match file_size_kb with
  | Some kb =>
      match Py.match_counter text with
      | Some (g1, g2) =>
          let name := Py.strip g1 in
          let counter := g2 in
          let size_str := Py.text (" [" +:+ Py.format_0f kb +:+ " KB]") in
          name ++ size_str ++ Py.text " " ++ counter
      | None => text ++ Py.text (" [" +:+ Py.format_0f kb +:+ " KB]")
      end
  | None => text
  end.

(** [update_status] *)
Definition update_status (text : Py.str) (file_size_kb : option Q)
    (m : MainWindow) : MainWindow :=
  set_status_label (status_line text file_size_kb) m.

(** [categories[i].get(key)] as a truth value. *)
Definition has (cat : Category) (key : string) : bool :=
  match cat !! key with Some s => Py.truthy s | None => false end.

(** The text of button [i] in [_rebuild_category_grid]. *)
Definition btn_text (categories : list Category) (i : Z) : Py.str :=
  match (if i <? Z.of_nat (length categories)
         then categories !! Z.to_nat i else None) with
  | Some cat =>
      if has cat "name" && has cat "path"
      then Py.text (Py.str_of_int (i + 1) +:+ ": ") ++ default (Py.text "") (cat !! "name")
      else Py.text (Py.str_of_int (i + 1) +:+ ": Select a category")
  | None => Py.text (Py.str_of_int (i + 1) +:+ ": Select a category")
  end.

(** One turn of the loop [for i in range(9)] of
    [_rebuild_category_grid]; the division raises when [columns] is 0. *)
Definition add_grid_button (categories : list Category) (columns : Z) (i : Z)
    (m : MainWindow) : Outcome :=
  if columns =? 0 then Raised m
  else
    let btn := {| widget := next_widget m;
                  text := btn_text categories i;
                  relief := "raised";
                  grid_row := i / columns;
                  grid_column := i mod columns;
                  bound_Button_1 := None; bound_Button_3 := None |} in
    Done (set_cat_buttons (cat_buttons m ++ [btn])
            (set_next_widget (S (next_widget m)) m)).

Fixpoint for_each (xs : list Z) (body : Z -> MainWindow -> Outcome)
    (m : MainWindow) : Outcome :=
  match xs with
  | [] => Done m
  | x :: xs' =>
      match body x m with
      | Done m' => for_each xs' body m'
      | Raised m' => Raised m'
      end
  end.

(** [_rebuild_category_grid]; the weights of the grid rows and columns
    are layout only and left out. *)
Definition _rebuild_category_grid (categories : list Category) (columns : Z)
    : MainWindow -> Outcome :=
  for_each [0; 1; 2; 3; 4; 5; 6; 7; 8] (add_grid_button categories columns).

(** [set_categories] *)
Definition set_categories (categories : list Category) (m : MainWindow) : Outcome :=
  _rebuild_category_grid categories (current_columns m) (set_cat_buttons [] m).

(** [l[i]] for a Python list: a negative index counts from the end. *)
Definition py_index {A} (l : list A) (i : Z) : option nat :=
  let n := Z.of_nat (length l) in
  if (0 <=? i) && (i <? n) then Some (Z.to_nat i)
  else if (- n <=? i) && (i <? 0) then Some (Z.to_nat (n + i))
  else None.

(** [bind_category]; [self.cat_buttons[idx]] raises IndexError out of
    range. *)
Definition bind_category (idx : Z) (on_click on_right_click : Handler)
    (m : MainWindow) : Outcome :=
  match py_index (cat_buttons m) idx with
  | Some pos =>
      let h := {| hc_idx := idx; hc_on_click := on_click;
                  hc_on_right_click := on_right_click |} in
      Done (set_category_callbacks (Some on_click) (Some on_right_click)
              (set_cat_buttons
                 (alter (with_bindings h) pos (cat_buttons m)) m))
  | None => Raised m
  end.

(** [bind_keyboard_shortcuts] *)
Definition bind_keyboard_shortcuts (m : MainWindow) : MainWindow :=
  set_key_bindings
    (<["<Right>" := key_next]>
       (<["<Left>" := key_prev]>
          (fold_left
             (fun kb i => <[Py.str_of_int (i + 1) := key_category i]> kb)
             [0; 1; 2; 3; 4; 5; 6; 7; 8] (key_bindings m)))) m.

Section WithBehaviour.

Variable env : Behaviour.

Definition invoke (h : Handler) (a : Args) (m : MainWindow) : Outcome :=
  env h a (set_log (log m ++ [Call h a]) m).

(** [btn.config(relief=...)] on the widget with the given identity, if it
    is still there. *)
Definition config_relief (wid : nat) (r : string) (m : MainWindow) : MainWindow :=
  set_cat_buttons
    (List.map (fun b => if Nat.eqb (widget b) wid then with_relief r b else b)
       (cat_buttons m)) m.

(** [handle_click(event, which)] on the widget [wid] *)
Definition handle_click (wid : nat) (h : HandleClick) (left : bool)
    (m : MainWindow) : Outcome :=
  let m1 := config_relief wid "sunken" m in
  let body :=
    if left then invoke (hc_on_click h) (IdxArg (hc_idx h)) m1
    else invoke (hc_on_right_click h) (IdxArg (hc_idx h)) m1 in
  match body with
  | Done m2 => Done (set_idle (idle m2 ++ [raise_relief wid]) m2)
  | Raised m2 => Raised (set_idle (idle m2 ++ [raise_relief wid]) m2)
  end.

(** The user clicks the button at position [pos] of the grid with the left
    ([left = true]) or the right button.  Tk reports what a binding
    raises and carries on. *)
Definition ui_click (pos : nat) (left : bool) (m : MainWindow) : MainWindow :=
  match cat_buttons m !! pos with
  | Some b =>
      match (if left then bound_Button_1 b else bound_Button_3 b) with
      | Some h => window_of (handle_click (widget b) h left m)
      | None => m
      end
  | None => m
  end.

(** [button.invoke()] on a navigation button *)
Definition invoke_command (command : option Handler) (m : MainWindow) : Outcome :=
  match command with
  | Some h => invoke h NoArgs m
  | None => Done m
  end.

(** The user presses the key [k]. *)
Definition ui_key_press (k : string) (m : MainWindow) : MainWindow :=
  match key_bindings m !! k with
  | Some (key_category idx) =>
      match category_click_callback m with
      | Some h => window_of (invoke h (IdxArg idx) m)
      | None => m
      end
  | Some key_prev => window_of (invoke_command (prev_btn m) m)
  | Some key_next => window_of (invoke_command (next_btn m) m)
  | None => m
  end.

End WithBehaviour.

End Tk.
(* ===================================================================== *)
(** ** [DearPyGuiView]: the folder display and the end of the process *)
(* ===================================================================== *)

Module AppRest.
Import Dpg App.

Section WithNormpath.

(** [os.path.normpath] of the platform the program runs on. *)
Variable normpath : Py.str -> Py.str.

(** [update_select_folder_button] *)
Definition update_select_folder_button (folder_selected : bool) : Proc :=
  fun w =>
    let label :=
      if folder_selected then "Change Source Folder" else "Select Source Folder" in
    if does_item_exist (TStr "select_folder_button") (dpg w)
    then dpg_call (update_item (TStr "select_folder_button") (with_label label)) w
    else Done w.

(** [set_selected_folder_path] *)
Definition set_selected_folder_path (folder_path : Py.str) : Proc :=
  if negb (Py.truthy folder_path)
  then
    dpg_call (update_item (TStr "selected_folder_path")
                (with_value (StrValue "No folder selected"))) >>
    update_select_folder_button false
  else
    let folder_path := normpath folder_path in
    dpg_call (update_item (TStr "selected_folder_path")
                (with_value (StrValue folder_path))) >>
    update_select_folder_button true.

End WithNormpath.

(** The process around the view: whether [dpg.stop_dearpygui()] has asked
    the render loop to end, and whether the Dear PyGui context is still
    there. *)
Record Process := {
  world : World;
  stop_requested : bool;
  context_alive : bool
}.

Inductive Ended := Returned (p : Process) | Failed (p : Process).

Definition process_of (e : Ended) : Process :=
  match e with Returned p => p | Failed p => p end.

Section WithBehaviour.

Variable env : Behaviour.

(** [destroy]: the close callback, if one is registered, then
    [dpg.destroy_context()]. *)
Definition destroy (p : Process) : Ended :=
  match call_registered env "close" (world p) with
  | Done w =>
      Returned {| world := w; stop_requested := stop_requested p;
                  context_alive := false |}
  | Raised w =>
      Failed {| world := w; stop_requested := stop_requested p;
                context_alive := context_alive p |}
  end.

(** [quit]: [dpg.stop_dearpygui()], then [self.destroy()]. *)
Definition quit (p : Process) : Ended :=
  destroy {| world := world p; stop_requested := true;
             context_alive := context_alive p |}.

End WithBehaviour.

End AppRest.

(* ===================================================================== *)
(** ** [MainWindow]: resizing and idle tasks *)
(* ===================================================================== *)

Module TkRest.
Import Tk.

(** A ['<Configure>'] event as [_on_window_resize] reads it: whether
    [event.widget] is the main window, and [event.width]. *)
Record ConfigureEvent := {
  widget_is_self : bool;
  width : Z
}.

(** [s[n:]] *)
Fixpoint slice_from (n : nat) (s : Py.str) : Py.str :=
  match n, s with
  | O, _ => s
  | S n', _ :: s' => slice_from n' s'
  | S _, [] => []
  end.

(** The entry that [_on_window_resize] reads back from the text of a
    button. *)
Definition read_back (btn_text : Py.str) : Category :=
  if negb (Py.contains "Select a category" btn_text)
  then <["name" := slice_from 3 btn_text]> (<["path" := Py.text ""]> ∅)
  else <["name" := Py.text ""]> (<["path" := Py.text ""]> ∅).

(** The column count that fits a window of the given width. *)
Definition columns_for (width : Z) : Z :=
  let min_btn_width := 110 in
  let available_width := width - 40 in
  Z.max 1 (Z.min 9 (available_width / min_btn_width)).

(** [_on_window_resize].  The second component is the list [categories]
    that the lambda handed to [after_idle] closes over, when one is
    scheduled; running that lambda is [set_categories] on the list. *)
Definition _on_window_resize (event : ConfigureEvent) (m : MainWindow)
    : MainWindow * option (list Category) :=
  if negb (widget_is_self event) then (m, None)
  else
    let columns := columns_for (width event) in
    if negb (columns =? current_columns m)
    then
      let m1 := set_current_columns columns m in
      let categories := List.map (fun btn => read_back (text btn)) (cat_buttons m1) in
      (m1, Some categories)
    else (m, None).

(** The window once the scheduled rebuild, if any, has run. *)
Definition after_resize (event : ConfigureEvent) (m : MainWindow) : Outcome :=
  match _on_window_resize event m with
  | (m1, Some categories) => set_categories categories m1
  | (m1, None) => Done m1
  end.

(** What an idle task does when Tk gets round to it. *)
Definition run_idle_task (t : IdleTask) (m : MainWindow) : MainWindow :=
  match t with
  | raise_relief wid => config_relief wid "raised" m
  end.

(** Tk is idle: the tasks run in the order in which they were scheduled. *)
Definition run_idle (m : MainWindow) : MainWindow :=
  fold_left (fun m t => run_idle_task t m) (idle m) (set_idle [] m).

End TkRest.

(* ===================================================================== *)
(** ** Scenarios and specification-level definitions *)
(* ===================================================================== *)

Module Spec.
Import Dpg App.

(** Callbacks whose run leaves the log as it is: they call back into
    neither front-end. *)
Definition transparent (env : Behaviour) : Prop :=
  ∀ h a w, log (world_of (env h a w)) = log w.

Definition tk_transparent (env : Tk.Behaviour) : Prop :=
  ∀ h a m, Tk.log (Tk.window_of (env h a m)) = Tk.log m.

(** Category button [t] of slot [idx] is on screen with the wiring that
    [_create_category_button] gives it. *)
Record wired (idx : Z) (t : Tag) (w : World) : Prop := {
  wired_id : _category_button_ids (self w) !! idx = Some t;
  wired_item : ∃ it r,
    items (dpg w) !! t = Some it ∧ enabled it = true ∧
    callback it = Some lambda_category_click ∧ user_data it = Some idx ∧
    handler_registry it = Some r ∧
    registries (dpg w) !! r =
      Some [ {| ch_button := mvMouseButton_Right;
                ch_callback := lambda_category_right_click;
                ch_user_data := Some idx |} ];
  wired_visible : visible t (dpg w) = true
}.

(** Four distinct callbacks of a controller. *)
Definition f1 := handler 1.
Definition g1 := handler 2.
Definition f2 := handler 3.
Definition g2 := handler 4.

(** The view with its nine buttons and the keyboard shortcuts. *)
Definition view_ready : World :=
  world_of (bind_keyboard_shortcuts (world_of (set_categories [] started))).

(** [MainWindow] with its nine buttons and the keyboard shortcuts. *)
Definition tk_ready : Tk.MainWindow :=
  Tk.bind_keyboard_shortcuts (Tk.window_of (Tk.set_categories [] Tk.__init__)).

(** ... then [bind_category(0, f1, g1)] and [bind_category(1, f2, g2)]. *)
Definition tk_two_bound : Tk.MainWindow :=
  Tk.window_of (Tk.bind_category 1 f2 g2
    (Tk.window_of (Tk.bind_category 0 f1 g1 tk_ready))).

Definition view_two_bound : World :=
  world_of (bind_category 1 f2 g2 (world_of (bind_category 0 f1 g1 view_ready))).


(** A callback for dialog results. *)
Definition cb := handler 5.

(** The select-folder callback of a controller. *)
Definition pick := handler 6.

(** The view with the two bindings and a select-folder callback. *)
Definition view_wired : World :=
  world_of (on_select_folder pick view_two_bound).

(** The configuration dialog of slot 0 is open. *)
Definition one_dialog : World :=
  world_of (configure_category 0 ∅ cb view_wired).

(** [configure_category] is called once more while it is open. *)
Definition two_dialogs : World :=
  world_of (configure_category 1 ∅ cb one_dialog).

(** The help dialog, a message dialog and the about dialog, each opened
    from the wired view. *)
Definition help_open : World := world_of (show_how_to view_wired).
Definition info_open : World := world_of (show_info "No images found." view_wired).
Definition about_open : World := world_of (show_about view_wired).

(** A select-folder callback that calls [_on_select_folder] again before
    it returns; the callbacks of the nested call behave as [env]. *)
Definition calls_back (env : Behaviour) : Behaviour :=
  fun h a w =>
    match a with
    | NoArgs => _on_select_folder env w
    | _ => env h a w
    end.

(** A select-folder callback during which the button is clicked again;
    what the click triggers behaves as [env]. *)
Definition clicks_again (env : Behaviour) : Behaviour :=
  fun h a w =>
    match a with
    | NoArgs => Done (ui_click env (TStr "select_folder_button") w)
    | _ => env h a w
    end.

(** One entry with a name and no path. *)
Definition named_only : list Category := [ <["name" := Py.text "A"]> (<["path" := Py.text ""]> ∅) ].

(** The grid for that entry, with the pulse of button 0 triggered once
    and its timer fired. *)
Definition named_only_grid : World := world_of (set_categories named_only started).

Definition named_only_pulsed : World :=
  world_of (_show_button_feedback 0 named_only_grid).

Definition named_only_restored : World := timer_fires 0 named_only_pulsed.


(** The theme bound to the button of slot [idx], if there is one. *)
Definition button_theme_of (idx : Z) (w : World) : option Theme :=
  match _category_button_ids (self w) !! idx with
  | Some t => match items (dpg w) !! t with
              | Some it => theme it
              | None => None
              end
  | None => None
  end.

(** One entry named "[Empty]" with a path. *)
Definition named_empty : list Category :=
  [ <["name" := Py.text "[Empty]"]> (<["path" := Py.text "/x"]> ∅) ].

Definition named_empty_grid : World := world_of (set_categories named_empty started).

Definition named_empty_restored : World :=
  timer_fires 0 (world_of (_show_button_feedback 0 named_empty_grid)).

(** One defined entry; the pulse of button 3 is triggered twice in a row,
    and once on button 0 in between. *)
Definition one_defined : list Category := [ <["name" := Py.text "A"]> (<["path" := Py.text "/x"]> ∅) ].

Definition one_defined_grid : World := world_of (set_categories one_defined started).

Definition pulsed_twice : World :=
  world_of (_show_button_feedback 3
    (world_of (_show_button_feedback 0
       (world_of (_show_button_feedback 3 one_defined_grid))))).

(** A callback that raises at once. *)
Definition raises : Behaviour := fun _ _ w => Raised w.

(** Two photos of different sizes. *)
Definition small_photo : Tk.Photo := {| Tk.photo_width := 10; Tk.photo_height := 20 |}.
Definition large_photo : Tk.Photo := {| Tk.photo_width := 3000; Tk.photo_height := 2000 |}.


(** The tag that [_show_message_dialog] gives its window when called in
    [w], and the one [show_how_to] gives its window. *)
Definition message_window (w : World) : Tag :=
  TStr (Py.str_of_int (Z.of_N (next_uuid (dpg w)))).

Definition how_to_window (w : World) : Tag :=
  TStr ("how_to_popup_" +:+ Py.str_of_int (Z.of_N (uuid4_drawn w))).

(** A procedure that leaves the attributes of the view alone, however it
    ends. *)
Definition keeps_self (p : Proc) : Prop :=
  ∀ w, self (world_of (p w)) = self w.

(** The windows of kind [mvWindow] that are modal and shown. *)
Definition open_modal_windows (w : World) : list Tag :=
  (map_to_list (filter (fun e => kind e.2 = mvWindow ∧ modal e.2 = true ∧ show e.2 = true)
                       (items (dpg w)))).*1.


(** Whether a call returned. *)
Definition returned (o : Outcome) : bool :=
  match o with Done _ => true | Raised _ => false end.

(** An RGBA image of one pixel. *)
Definition one_pixel : Image :=
  {| mode := "RGBA"; size := (1, 1); rgba_bytes := [255; 0; 51; 255] |}.

(** The bytes of a photo are those of its pixels: four for each of its
    width x height pixels, each between 0 and 255. *)
Definition image_ok (photo : Image) : Prop :=
  0 <= (size photo).1 ∧ 0 <= (size photo).2 ∧
  Z.of_nat (length (rgba_bytes photo)) = 4 * (size photo).1 * (size photo).2 ∧
  Forall (fun b => 0 <= b <= 255) (rgba_bytes photo).

(** [v] is a float32 of magnitude 1 at most: an int of 24 bits over a
    power of two. *)
Definition is_float32 (v : Q) : Prop :=
  ∃ m k : Z, Z.abs m <= 2 ^ 24 ∧ 0 <= k <= 149 ∧ (v == m # Z.to_pos (2 ^ k))%Q.

(** [v] is byte [b] divided by 255 as float32 has it: a float32 between
    0 and 1 within half a unit in the last place of the quotient. *)
Definition normalised (b : Z) (v : Q) : Prop :=
  is_float32 v ∧ (0 <= v)%Q ∧ (v <= 1)%Q ∧
  (Qabs (v - (b # 255)) <= (b # 255) * (1 # 16777216))%Q.

(** The same as a test, for a value that is given in full. *)
Definition normalised_b (b : Z) (v : Q) : bool :=
  let k := Z.log2 (Zpos (Qden v)) in
  (Zpos (Qden v) =? 2 ^ k) && (Z.abs (Qnum v) <=? 2 ^ 24) && (k <=? 149) &&
  Qle_bool 0 v && Qle_bool v 1 &&
  Qle_bool (Qabs (v - (b # 255))) ((b # 255) * (1 # 16777216)).


(** Every character of a str passes a test. *)
Definition all_chars (P : N -> bool) (s : Py.str) : bool := forallb P s.

(** A run of whitespace, possibly empty. *)
Definition blank (s : Py.str) : Prop := all_chars Py.isspace s = true.

(** A decimal number: one digit or more. *)
Definition number (s : Py.str) : Prop :=
  s ≠ [] ∧ all_chars Py.isdecimal s = true.

(** A str without a line feed. *)
Definition one_line (s : Py.str) : Prop :=
  all_chars (fun c => negb (N.eqb c Py.newline)) s = true.

(** Nothing, or the one line feed that may end a status text. *)
Definition line_end (s : Py.str) : Prop :=
  s = [] ∨ s = [Py.newline].

(** The counter " (i/n)" at the end of a status text: whitespace [ws],
    then "(i/n)", then [nl]. *)
Definition counter_text (ws i n nl : Py.str) : Py.str :=
  ws ++ Py.text "(" ++ i ++ Py.text "/" ++ n ++ Py.text ")" ++ nl.

(** A status text that is a one-line [name], then a counter. *)
Definition ends_with_counter (text : Py.str) : Prop :=
  ∃ name ws i n nl,
    text = name ++ counter_text ws i n nl ∧
    one_line name ∧ blank ws ∧ number i ∧ number n ∧ line_end nl.

(** A str that neither starts nor ends with whitespace. *)
Definition trimmed (s : Py.str) : Prop :=
  (∀ c, head s = Some c → Py.isspace c = false) ∧
  (∀ c, last s = Some c → Py.isspace c = false).

(** The texts before and after the first point of [s], if it has one. *)
Fixpoint split_point (s : string) : string * option string :=
  match s with
  | EmptyString => (EmptyString, None)
  | String c s' =>
      if Ascii.eqb c "." then (EmptyString, Some s')
      else let '(a, b) := split_point s' in (String c a, b)
  end.

(** The int that a run of ASCII digits stands for. *)
Definition digits_value (s : string) : option Z :=
  Z.of_uint <$> NilZero.uint_of_string s.

(** The number that a text in fixed-point notation stands for, with the
    number of digits after its point: an optional "-", digits, and
    possibly a point followed by digits. *)
Definition fixed_value (s : string) : option (Q * nat) :=
  let '(neg, body) :=
    match s with
    | String c r => if Ascii.eqb c "-" then (true, r) else (false, s)
    | EmptyString => (false, s)
    end in
  let '(ip, fp) := split_point body in
  match digits_value ip, fp with
  | Some a, None => Some (inject_Z (if neg then - a else a), 0%nat)
  | Some a, Some f =>
      match digits_value f with
      | Some b =>
          let v := (inject_Z a + (b # Pos.of_nat (10 ^ String.length f)))%Q in
          Some (if neg then (- v)%Q else v, String.length f)
      | None => None
      end
  | None, _ => None
  end.


(** *** The grid of category buttons *)

(** A tag that the id generator has already passed: an int below [n], or
    a str that does not read as a number from [n] on. *)
Definition tag_older (n : N) (t : Tag) : bool :=
  match t with
  | TInt k => (k <? n)%N
  | TStr s =>
      match NilZero.int_of_string s with
      | Some d => Z.of_int d <? Z.of_N n
      | None => true
      end
  end.

(** The ids that the generator will hand out are still free. *)
Definition fresh (c : Context) : Prop :=
  map_Forall (fun t _ => tag_older (next_uuid c) t = true) (items c).

(** The same as a test, for a world that is given in full. *)
Definition fresh_b (c : Context) : bool :=
  forallb (fun e => tag_older (next_uuid c) e.1) (map_to_list (items c)).

(** Entry [i] of the list exists and has both a name and a path. *)
Definition entry_defined (categories : list Category) (i : Z) : bool :=
  match categories !! Z.to_nat i with
  | Some cat => Py.truthy (get_or_empty cat "name") && Py.truthy (get_or_empty cat "path")
  | None => false
  end.

Definition entry_name (categories : list Category) (i : Z) : Py.str :=
  match categories !! Z.to_nat i with
  | Some cat => get_or_empty cat "name"
  | None => ""
  end.

(** The item is the button of slot [i] for the given entries: in the
    defined theme when the entry is defined, in the plain one otherwise. *)
Record category_button (categories : list Category) (i : Z) (it : Item) : Prop := {
  cb_kind : kind it = mvButton;
  cb_label : label it = button_text i (entry_name categories i);
  cb_theme : theme it =
    Some (if entry_defined categories i then th_category_defined else th_category);
  cb_user_data : user_data it = Some i;
  cb_callback : callback it = Some lambda_category_click;
  cb_below : TAG_CATEGORIES_CONTAINER ∈ ancestors it;
  cb_enabled : enabled it = true;
  cb_show : show it = true
}.

(** What one call of [_create_category_button] does to the world. *)
Record step_post (idx : Z) (name path : Py.str) (parent : Tag) (w w' : World) : Prop := {
  sp_ids : _category_button_ids (self w') =
           <[idx := TInt (next_uuid (dpg w))]> (_category_button_ids (self w));
  sp_button : ∃ it pit,
    items (dpg w') !! TInt (next_uuid (dpg w)) = Some it ∧
    items (dpg w) !! parent = Some pit ∧
    kind it = mvButton ∧ label it = button_text idx name ∧
    theme it = Some (button_theme name path) ∧
    user_data it = Some idx ∧ callback it = Some lambda_category_click ∧
    ancestors it = parent :: ancestors pit ∧ enabled it = true ∧ show it = true;
  sp_old : ∀ t it, items (dpg w) !! t = Some it → items (dpg w') !! t = Some it;
  sp_new : ∀ t it, items (dpg w') !! t = Some it →
           t = TInt (next_uuid (dpg w)) ∨ items (dpg w) !! t = Some it ∨ kind it ≠ mvButton;
  sp_fresh : fresh (dpg w');
  sp_log : log w' = log w;
  sp_modal : _modal_open (self w') = _modal_open (self w);
  sp_cbs : _category_callbacks (self w') = _category_callbacks (self w)
}.

(** The state of the grid once the buttons of the slots below [n] are
    built: each of these slots has its button, no other slot has one, no
    two slots share a button, and the container holds no button besides
    them.  [w0] is the world in which [set_categories] was called. *)
Record grid_inv (cats : list Category) (n : Z) (w0 w : World) : Prop := {
  gi_container : ∃ cit, items (dpg w) !! TAG_CATEGORIES_CONTAINER = Some cit;
  gi_fresh : fresh (dpg w);
  gi_dom : ∀ i, 0 <= i < n → is_Some (_category_button_ids (self w) !! i);
  gi_button : ∀ i t, _category_button_ids (self w) !! i = Some t →
     0 <= i < n ∧ ∃ it, items (dpg w) !! t = Some it ∧ category_button cats i it;
  gi_inj : ∀ i j t, _category_button_ids (self w) !! i = Some t →
     _category_button_ids (self w) !! j = Some t → i = j;
  gi_only : ∀ t it, items (dpg w) !! t = Some it → kind it = mvButton →
     TAG_CATEGORIES_CONTAINER ∈ ancestors it →
     ∃ i, _category_button_ids (self w) !! i = Some t;
  gi_log : log w = log w0;
  gi_modal : _modal_open (self w) = _modal_open (self w0);
  gi_cbs : _category_callbacks (self w) = ∅
}.

(** One turn of the loop [for row in range(3)] of [set_categories]. *)
Definition row (cats : list Category) (r : Z) : Proc :=
  fun w =>
    let '(n, c1) := generate_uuid (dpg w) in
    let group_id := TStr (Py.str_of_int (Z.of_N n)) in
    (dpg_call (fun _ => snd <$>
       add_item (Some group_id) (Some TAG_CATEGORIES_CONTAINER)
         (new_item mvGroup) c1) >>
     for_each [0; 1; 2] (fun col =>
       let idx := r * 3 + col in
       _create_category_button idx (category_at cats idx) group_id)) w.

(** The text of button [i] of the Tkinter grid: the name of the entry
    when it is defined, the invitation to select a category otherwise. *)
Definition tk_text (cats : list Category) (i : Z) : Py.str :=
  if entry_defined cats i
  then Py.text (Py.str_of_int (i + 1) +:+ ": ") ++ entry_name cats i
  else Py.text (Py.str_of_int (i + 1) +:+ ": Select a category").

(** *** The category configuration dialog *)

(** What the user can do in the dialog. *)
Inductive DialogEvent :=
| type_name (s : Py.str)
| type_folder (s : Py.str)
| click_browse
| click_save
| click_cancel
| click_delete.

(** The tags of the dialog that [configure_category] builds when it is
    called in [w]: those it names itself, and the generated ids of the two
    groups and of the Browse, Cancel and Delete buttons. *)
Record DialogTags := {
  dt_scope : CfgScope;
  dt_group1 : Tag;
  dt_browse : Tag;
  dt_group2 : Tag;
  dt_cancel : Tag;
  dt_delete : Tag
}.

Definition dialog_of (idx : Z) (on_result : Handler) (w : World) : DialogTags :=
  let window :=
    "category_config_" +:+ Py.str_of_int idx +:+ "_" +:+
    Py.str_of_int (Z.of_N (uuid4_drawn w)) in
  let n := next_uuid (dpg w) in
  {| dt_scope := {| cfg_idx := idx; cfg_callback := on_result;
                    cfg_view := instance_set w;
                    cfg_window_id := TStr window;
                    cfg_name_id := TStr ("cat_name_" +:+ window);
                    cfg_folder_id := TStr ("cat_folder_" +:+ window);
                    cfg_ok_id := TStr ("cat_ok_" +:+ window) |};
     dt_group1 := TInt n;
     dt_browse := TInt (n + 1);
     dt_group2 := TInt (n + 2);
     dt_cancel := TInt (n + 3);
     dt_delete := TInt (n + 4) |}.

(** The tags that [configure_category] names itself are free in [w]. *)
Definition dialog_tags_free (d : DialogTags) (w : World) : Prop :=
  items (dpg w) !! cfg_window_id (dt_scope d) = None ∧
  items (dpg w) !! cfg_name_id (dt_scope d) = None ∧
  items (dpg w) !! cfg_folder_id (dt_scope d) = None ∧
  items (dpg w) !! cfg_ok_id (dt_scope d) = None.

(** The callback [h] returns when it is called, leaves the items under
    the tags [ts] as they are and calls no callback of the controller
    before it returns. *)
Definition returns_quietly (env : Behaviour) (h : Handler) (ts : list Tag) : Prop :=
  ∀ a w, ∃ w', env h a w = Done w' ∧
               (∀ t, t ∈ ts → items (dpg w') !! t = items (dpg w) !! t) ∧
               calls (log w') = calls (log w).

Section Dialog.
Variable env : Behaviour.

(** One event of the user on the widgets of the dialog. *)
Definition dialog_event (d : DialogTags) (ev : DialogEvent) (w : World) : World :=
  match ev with
  | type_name s => ui_type env (cfg_name_id (dt_scope d)) s w
  | type_folder s => ui_type env (cfg_folder_id (dt_scope d)) s w
  | click_browse => ui_click env (dt_browse d) w
  | click_save => ui_click env (cfg_ok_id (dt_scope d)) w
  | click_cancel => ui_click env (dt_cancel d) w
  | click_delete => ui_click env (dt_delete d) w
  end.

Definition run_dialog (d : DialogTags) (evs : list DialogEvent) (w : World) : World :=
  fold_left (fun w ev => dialog_event d ev w) evs w.

End Dialog.

(** The save action is enabled: each of the two fields holds a character
    that is not whitespace. *)
Definition save_enabled (name path : Py.str) : bool :=
  negb (all_chars Py.isspace name) && negb (all_chars Py.isspace path).

(** The dialog as the specification words it: the fields hold what was
    typed or picked last; the first of save (while it is enabled), cancel
    and delete ends the dialog and is its one reported outcome.
    [answers] is what the folder picker returns, call after call. *)
Fixpoint reported (idx : Z) (name path : Py.str) (answers : list Py.str)
    (evs : list DialogEvent) : option DialogResult :=
  match evs with
  | [] => None
  | type_name s :: evs' => reported idx s path answers evs'
  | type_folder s :: evs' => reported idx name s answers evs'
  | click_browse :: evs' =>
      match answers with
      | [] => reported idx name path [] evs'
      | a :: rest => reported idx name (if Py.truthy a then a else path) rest evs'
      end
  | click_save :: evs' =>
      if save_enabled name path
      then Some {| action := "save"; idx := idx; name := Some name; path := Some path |}
      else reported idx name path answers evs'
  | click_cancel :: _ =>
      Some {| action := "cancel"; idx := idx; name := None; path := None |}
  | click_delete :: _ =>
      Some {| action := "delete"; idx := idx; name := None; path := None |}
  end.

(** A result as the dialog may report it for slot [i]. *)
Definition well_formed_result (i : Z) (r : DialogResult) : Prop :=
  idx r = i ∧
  ((action r = "save" ∧
    ∃ nm pth, name r = Some nm ∧ path r = Some pth ∧
              ¬ blank nm ∧ ¬ blank pth) ∨
   (action r = "cancel" ∧ name r = None ∧ path r = None) ∨
   (action r = "delete" ∧ name r = None ∧ path r = None)).


(** *** Shapes of the items of the dialog *)

(** The nine tags of a dialog, in the order in which the items are built. *)
Definition dialog_tags (d : DialogTags) : list Tag :=
  [ cfg_window_id (dt_scope d); cfg_name_id (dt_scope d); dt_group1 d;
    cfg_folder_id (dt_scope d); dt_browse d; dt_group2 d;
    cfg_ok_id (dt_scope d); dt_cancel d; dt_delete d ].

(** A text input of the dialog holding [v]. *)
Record input_ok (sc : CfgScope) (anc : list Tag) (v : Py.str) (it : Item) : Prop := {
  io_kind : kind it = mvInputText;
  io_enabled : enabled it = true;
  io_show : show it = true;
  io_ancestors : ancestors it = anc;
  io_callback : callback it = Some (cfg_update_ok sc);
  io_value : value it = StrValue v
}.

(** A button of the dialog bound to [c], enabled or not. *)
Record button_ok (anc : list Tag) (c : Closure) (en : bool) (it : Item) : Prop := {
  bo_enabled : enabled it = en;
  bo_show : show it = true;
  bo_ancestors : ancestors it = anc;
  bo_callback : callback it = Some c
}.

(** A container of the dialog, on screen. *)
Record container_ok (anc : list Tag) (it : Item) : Prop := {
  co_show : show it = true;
  co_ancestors : ancestors it = anc
}.

(** The dialog [d] is open with [nm] and [pth] in its two fields. *)
Record dialog_open (d : DialogTags) (nm pth : Py.str) (w : World) : Prop := {
  do_distinct : NoDup (dialog_tags d);
  do_view : cfg_view (dt_scope d) = true;
  do_modal : _modal_open (self w) = true;
  do_window : ∃ it, items (dpg w) !! cfg_window_id (dt_scope d) = Some it ∧
                    container_ok [] it;
  do_name : ∃ it, items (dpg w) !! cfg_name_id (dt_scope d) = Some it ∧
                  input_ok (dt_scope d) [cfg_window_id (dt_scope d)] nm it;
  do_group1 : ∃ it, items (dpg w) !! dt_group1 d = Some it ∧
                    container_ok [cfg_window_id (dt_scope d)] it;
  do_folder : ∃ it, items (dpg w) !! cfg_folder_id (dt_scope d) = Some it ∧
                    input_ok (dt_scope d) [dt_group1 d; cfg_window_id (dt_scope d)] pth it;
  do_browse : ∃ it, items (dpg w) !! dt_browse d = Some it ∧
                    button_ok [dt_group1 d; cfg_window_id (dt_scope d)]
                      (cfg_on_browse (dt_scope d)) true it;
  do_group2 : ∃ it, items (dpg w) !! dt_group2 d = Some it ∧
                    container_ok [cfg_window_id (dt_scope d)] it;
  do_ok : ∃ it, items (dpg w) !! cfg_ok_id (dt_scope d) = Some it ∧
                button_ok [dt_group2 d; cfg_window_id (dt_scope d)]
                  (cfg_on_ok (dt_scope d)) (save_enabled nm pth) it;
  do_cancel : ∃ it, items (dpg w) !! dt_cancel d = Some it ∧
                    button_ok [dt_group2 d; cfg_window_id (dt_scope d)]
                      (cfg_on_cancel (dt_scope d)) true it;
  do_delete : ∃ it, items (dpg w) !! dt_delete d = Some it ∧
                    button_ok [dt_group2 d; cfg_window_id (dt_scope d)]
                      (cfg_on_delete (dt_scope d)) true it
}.

(** The dialog [d] is gone: none of its widgets is left. *)
Definition dialog_closed (d : DialogTags) (w : World) : Prop :=
  ∀ t, t ∈ dialog_tags d → items (dpg w) !! t = None.

(** What the next call of the folder picker leaves in the folder field. *)
Definition picked (answers : list Py.str) (pth : Py.str) : Py.str :=
  match answers with
  | a :: _ => if Py.truthy a then a else pth
  | [] => pth
  end.

End Spec.

(* ===================================================================== *)
(** ** Further scenarios and properties *)
(* ===================================================================== *)

Module SpecRest.
Import Dpg App AppRest Spec.


(** The item [t] is there, on screen and enabled: a click reaches it. *)
Definition pressable (t : Tag) (w : World) : bool :=
  match items (dpg w) !! t with
  | Some it => visible t (dpg w) && enabled it
  | None => false
  end.

(** The callable that a click on [t] runs, if the click reaches [t] and
    [t] has one. *)
Definition bound_to (t : Tag) (w : World) : option Closure :=
  match items (dpg w) !! t with
  | Some it => if visible t (dpg w) && enabled it then callback it else None
  | None => None
  end.

(** [wired] as a test, for a world that is given in full. *)
Definition wired_b (idx : Z) (t : Tag) (w : World) : bool :=
  bool_decide (_category_button_ids (self w) !! idx = Some t) &&
  match items (dpg w) !! t with
  | Some it =>
      enabled it &&
      bool_decide (callback it = Some lambda_category_click) &&
      bool_decide (user_data it = Some idx) &&
      match handler_registry it with
      | Some r =>
          match registries (dpg w) !! r with
          | Some [h] =>
              bool_decide (ch_button h = mvMouseButton_Right) &&
              bool_decide (ch_callback h = lambda_category_right_click) &&
              bool_decide (ch_user_data h = Some idx)
          | _ => false
          end
      | None => false
      end
  | None => false
  end &&
  visible t (dpg w).

(** Every category pulse that is still to be undone is the one that the
    slot of its button in [_feedback_timers] holds. *)
Definition pulses_tracked (w : World) : Prop :=
  ∀ t b i,
    timers w !! t = Some {| t_fn := restore_category b i; t_state := pending |} →
    _feedback_timers (self w) !! key_idx i = Some (slot_Timer t).

(** The timers once [_show_button_feedback] has cancelled the one that
    the slot of the button holds, if it holds one. *)
Definition after_cancel (slot : option TimerSlot) (ts : list Timer) : list Timer :=
  match slot with
  | Some (slot_Timer k) => cancel k ts
  | _ => ts
  end.

(** A procedure that leaves one component of the world as it is, however
    it ends. *)
Definition leaves {A} (part : World -> A) (p : Proc) : Prop :=
  ∀ w, part (world_of (p w)) = part w.

(** What happens to the pulses over time: a category button or a
    navigation button is pulsed, the grid is rebuilt, a timer runs out. *)
Inductive PulseEvent :=
| pulse (idx : Z)
| nav_pulse (which : string)
| rebuild (categories : list Category)
| fire (t : nat).

Definition pulse_event (ev : PulseEvent) (w : World) : World :=
  match ev with
  | pulse idx => world_of (_show_button_feedback idx w)
  | nav_pulse which => world_of (_show_nav_button_feedback which w)
  | rebuild categories => world_of (set_categories categories w)
  | fire t => timer_fires t w
  end.

Definition run_pulses (evs : list PulseEvent) (w : World) : World :=
  fold_left (fun w ev => pulse_event ev w) evs w.

(** Callbacks that leave the timers of the view alone. *)
Definition keeps_timers (env : Behaviour) : Prop :=
  ∀ h a w, timers (world_of (env h a w)) = timers w.

(** Every item sits below items that exist. *)
Definition well_rooted (c : Context) : Prop :=
  ∀ t it a, items c !! t = Some it → a ∈ ancestors it → is_Some (items c !! a).

Definition well_rooted_b (c : Context) : bool :=
  forallb (fun e => forallb (fun a => bool_decide (is_Some (items c !! a)))
                            (ancestors e.2))
          (map_to_list (items c)).

(** Callbacks that leave the buttons of the grid alone. *)
Definition tk_keeps_buttons (env : Tk.Behaviour) : Prop :=
  ∀ h a m, Tk.cat_buttons (Tk.window_of (env h a m)) = Tk.cat_buttons m.

(** The callbacks of a controller for the two navigation buttons. *)
Definition go_prev := handler 7.
Definition go_next := handler 8.

(** The configuration dialog is open over a view whose navigation
    callbacks are registered. *)
Definition dialog_over_navigation : World :=
  world_of (configure_category 0 ∅ cb
    (world_of (on_next go_next (world_of (on_prev go_prev view_wired))))).

(** The view with its nine buttons and slot 0 bound, before any keyboard
    shortcut is registered. *)
Definition view_without_shortcuts : World :=
  world_of (bind_category 0 f1 g1 (world_of (set_categories [] started))).

(** A process in which only the image texture has been added. *)
Definition texture_only : World :=
  world_of (add TAG_IMAGE_TEXTURE None (new_item mvDynamicTexture) fresh_process).

(** The about dialog after its Close button was used. *)
Definition about_closed : World :=
  dispatch returns (about_close true) None about_open.

(** The button that [_rebuild_category_grid] makes for slot [i] as the
    widget [wid], and the buttons it makes for a run of slots. *)
Definition new_button (cats : list Tk.Category) (columns : Z) (wid : nat) (i : Z)
    : Tk.Button :=
  {| Tk.widget := wid;
     Tk.text := Tk.btn_text cats i;
     Tk.relief := "raised";
     Tk.grid_row := i / columns;
     Tk.grid_column := i mod columns;
     Tk.bound_Button_1 := None; Tk.bound_Button_3 := None |}.

Fixpoint new_buttons (cats : list Tk.Category) (columns : Z) (wid : nat) (xs : list Z)
    : list Tk.Button :=
  match xs with
  | [] => []
  | x :: xs' => new_button cats columns wid x :: new_buttons cats columns (S wid) xs'
  end.

(** The Tkinter grid for one defined entry, before any resize. *)
Definition tk_one_defined : Tk.MainWindow :=
  Tk.window_of (Tk.set_categories one_defined Tk.__init__).

(** The first ['<Configure>'] event of the main window, 800 pixels wide. *)
Definition first_configure : TkRest.ConfigureEvent :=
  {| TkRest.widget_is_self := true; TkRest.width := 800 |}.

(** A Tkinter callback that raises at once. *)
Definition tk_raises : Tk.Behaviour := fun _ _ m => Tk.Raised m.

(** [MainWindow] with its nine buttons, before anything is bound. *)
Definition tk_grid : Tk.MainWindow :=
  Tk.window_of (Tk.set_categories [] Tk.__init__).

(** A process that runs the started view. *)
Definition running (w : World) : Process :=
  {| world := w; stop_requested := false; context_alive := true |}.

End SpecRest.

(* ===================================================================== *)
(** ** Theorems *)
(* ===================================================================== *)

Import Dpg App Spec.

(** *** Procedures, logs, numerals *)

Lemma and_then_Done (p q : Proc) w w1 : p w = Done w1 -> (p >> q) w = q w1.
Proof. unfold and_then. by intros ->. Qed.

Lemma and_then_Done_inv (p q : Proc) w w2 :
  (p >> q) w = Done w2 -> ∃ w1, p w = Done w1 ∧ q w1 = Done w2.
Proof. unfold and_then. destruct (p w) as [w1|w1]; [|done]. by exists w1. Qed.

Lemma returned_Done o : returned o = true -> o = Done (world_of o).
Proof. by destruct o. Qed.

Lemma calls_app l1 l2 : calls (l1 ++ l2) = calls l1 ++ calls l2.
Proof. unfold calls. apply List.filter_app. Qed.

Lemma to_int_not_nil z :
  Z.to_int z <> Decimal.Pos Decimal.Nil /\ Z.to_int z <> Decimal.Neg Decimal.Nil.
Proof.
  destruct z as [|p|p]; simpl; split; try discriminate;
    intros H; injection H as H; exact (Unsigned.to_uint_nonnil _ H).
Qed.

Lemma int_of_str_of_int z :
  NilZero.int_of_string (Py.str_of_int z) = Some (Z.to_int z).
Proof. unfold Py.str_of_int. apply NilZero.isi; apply to_int_not_nil. Qed.

Lemma str_of_int_inj a b : Py.str_of_int a = Py.str_of_int b -> a = b.
Proof.
  intros H. apply (f_equal NilZero.int_of_string) in H.
  rewrite !int_of_str_of_int in H.
  injection H as H. by apply to_int_inj.
Qed.

Lemma fresh_b_spec c : fresh_b c = true -> fresh c.
Proof.
  unfold fresh_b, fresh. rewrite forallb_forall. intros H t it Hl.
  apply (H (t, it)). apply list_elem_of_In. by apply elem_of_map_to_list.
Qed.

Lemma fresh_int c k : fresh c -> (next_uuid c <= k)%N -> items c !! TInt k = None.
Proof.
  intros Hf Hk. destruct (items c !! TInt k) eqn:E; [|done].
  apply Hf in E. simpl in E. apply N.ltb_lt in E. lia.
Qed.

Lemma fresh_str c k :
  fresh c -> (next_uuid c <= k)%N ->
  items c !! TStr (Py.str_of_int (Z.of_N k)) = None.
Proof.
  intros Hf Hk. destruct (items c !! TStr _) eqn:E; [|done].
  apply Hf in E. simpl in E. rewrite int_of_str_of_int, of_to in E.
  apply Z.ltb_lt in E. lia.
Qed.

Lemma tag_older_mono n m t : (n <= m)%N -> tag_older n t = true -> tag_older m t = true.
Proof.
  destruct t as [s|k]; simpl.
  - destruct (NilZero.int_of_string s); [|done].
    rewrite !Z.ltb_lt. lia.
  - rewrite !N.ltb_lt. lia.
Qed.

Lemma tag_older_int n : tag_older (n + 1) (TInt n) = true.
Proof. simpl. apply N.ltb_lt. lia. Qed.

Lemma tag_older_str n : tag_older (n + 1) (TStr (Py.str_of_int (Z.of_N n))) = true.
Proof. simpl. rewrite int_of_str_of_int, of_to. apply Z.ltb_lt. lia. Qed.


(** *** The grid of category buttons (C8) *)

Lemma category_at_name cats i : 0 <= i ->
  get_or_empty (category_at cats i) "name" = entry_name cats i.
Proof.
  intros Hi. unfold category_at, entry_name.
  destruct (Z.ltb_spec i (Z.of_nat (length cats))).
  - destruct (cats !! Z.to_nat i) eqn:E; [done|].
    apply lookup_ge_None in E. lia.
  - rewrite (proj2 (lookup_ge_None cats (Z.to_nat i))) by lia. done.
Qed.

Lemma category_at_theme cats i : 0 <= i ->
  button_theme (get_or_empty (category_at cats i) "name")
               (get_or_empty (category_at cats i) "path") =
  if entry_defined cats i then th_category_defined else th_category.
Proof.
  intros Hi. unfold category_at, entry_defined, button_theme.
  destruct (Z.ltb_spec i (Z.of_nat (length cats))).
  - destruct (cats !! Z.to_nat i) eqn:E; [done|].
    apply lookup_ge_None in E. lia.
  - rewrite (proj2 (lookup_ge_None cats (Z.to_nat i))) by lia. done.
Qed.

Ltac tag_ne :=
  solve [ assumption | discriminate | congruence
        | let H := fresh in intros H; injection H as H; lia
        | let H := fresh in intros H; symmetry in H; congruence ].

Ltac lookup_grid :=
  match goal with
  | |- context [ <[?k := ?x]> ?m !! ?k ] => rewrite (lookup_insert_eq m k x)
  | |- context [ <[?k := ?x]> ?m !! ?j ] => rewrite (lookup_insert_ne m k j x) by tag_ne
  | H : ?m !! ?k = _ |- context [ ?m !! ?k ] => rewrite H
  | |- context [ <[?k := ?x]> (<[?k := ?y]> ?m) ] => rewrite (insert_insert_eq m k y x)
  end.

Lemma create_category_button_spec idx cat parent w pit :
  fresh (dpg w) -> items (dpg w) !! parent = Some pit ->
  ∃ w', _create_category_button idx cat parent w = Done w' ∧
        step_post idx (get_or_empty cat "name") (get_or_empty cat "path") parent w w'.
Proof.
  intros Hf Hp.
  unfold _create_category_button.
  set (name := get_or_empty cat "name"). set (path := get_or_empty cat "path").
  destruct w as [c v ins tm u4 da lg]. simpl in *.
  destruct c as [its regs khs n vp]. simpl in *.
  assert (Hn : its !! TInt n = None). { apply (fresh_int _ n Hf). simpl. lia. }
  assert (Hn1 : its !! TInt (n + 1)%N = None) by (apply (fresh_int _ _ Hf); simpl; lia).
  assert (Hn2 : its !! TInt (n + 1 + 1)%N = None) by (apply (fresh_int _ _ Hf); simpl; lia).
  assert (Hpn : parent ≠ TInt n) by (intros ->; congruence).
  assert (Hfm : ∀ m, (n <= m)%N → map_Forall (λ t _, tag_older m t = true) its).
  { intros m Hm. eapply map_Forall_impl; [exact Hf|]. simpl. intros t _ Ht.
    eapply tag_older_mono; [|exact Ht]. lia. }
  unfold and_then, dpg_call, add_item, update_item, update_self, pure,
    add_item_handler_registry, generate_uuid. simpl.
  repeat (lookup_grid; simpl).
  destruct (Py.truthy path) eqn:Etr; cbn; repeat (lookup_grid; cbn).
  - eexists. split; [reflexivity|].
    split; simpl.
    + reflexivity.
    + eexists _, pit. repeat (lookup_grid; simpl). split; [reflexivity|].
      repeat split; try done.
    + intros t it Ht.
      assert (t ≠ TInt n) by congruence.
      assert (t ≠ TInt (n+1)) by congruence.
      assert (t ≠ TInt (n+1+1)) by congruence.
      by repeat (lookup_grid; simpl).
    + intros t it.
      repeat (rewrite lookup_insert; case_decide;
              [first [ by left | intros [= <-]; right; right; done ]|]).
      by right; left.
    + unfold fresh. simpl.
      repeat (apply map_Forall_insert_2; [simpl; apply N.ltb_lt; lia|]).
      apply Hfm. lia.
    + reflexivity.
    + reflexivity.
    + reflexivity.
  - eexists. split; [reflexivity|].
    split; simpl.
    + reflexivity.
    + eexists _, pit. repeat (lookup_grid; simpl). split; [reflexivity|].
      repeat split; try done.
    + intros t it Ht.
      assert (t ≠ TInt n) by congruence.
      by repeat (lookup_grid; simpl).
    + intros t it.
      repeat (rewrite lookup_insert; case_decide;
              [first [ by left | intros [= <-]; right; right; done ]|]).
      by right; left.
    + unfold fresh. simpl.
      repeat (apply map_Forall_insert_2; [simpl; apply N.ltb_lt; lia|]).
      apply Hfm. lia.
    + reflexivity.
    + reflexivity.
    + reflexivity.
Qed.

Lemma button_step cats n w0 w parent pit :
  0 <= n ->
  grid_inv cats n w0 w ->
  items (dpg w) !! parent = Some pit ->
  TAG_CATEGORIES_CONTAINER ∈ parent :: ancestors pit ->
  ∃ w', _create_category_button n (category_at cats n) parent w = Done w' ∧
        grid_inv cats (n + 1) w0 w' ∧ items (dpg w') !! parent = Some pit.
Proof.
  intros Hn [Hc Hf Hd Hb Hi Ho Hl Hm Hcb] Hp Hin.
  destruct (create_category_button_spec n (category_at cats n) parent w pit Hf Hp)
    as (w' & Hrun & [Hids (it & pit' & Hit & Hp' & Hk & Hlab & Hth & Hud & Hcbk & Hanc & Hen & Hsh)
                     Hold Hnew Hfr Hlog Hmod Hcbs]).
  assert (pit' = pit) as -> by congruence.
  assert (Hfreshtag : items (dpg w) !! TInt (next_uuid (dpg w)) = None)
    by (apply fresh_int; [done|lia]).
  exists w'. split; [done|]. split; [|by apply Hold].
  split.
  - destruct Hc as [cit Hc]. exists cit. by apply Hold.
  - done.
  - intros i Hi'. rewrite Hids. destruct (decide (i = n)) as [->|].
    + rewrite lookup_insert_eq. by eexists.
    + rewrite lookup_insert_ne by done. apply Hd. lia.
  - intros i t. rewrite Hids. destruct (decide (i = n)) as [->|].
    + rewrite lookup_insert_eq. intros [= <-]. split; [lia|].
      exists it. split; [done|]. split; try done.
      * by rewrite Hlab, category_at_name.
      * by rewrite Hth, category_at_theme.
      * by rewrite Hanc.
    + rewrite lookup_insert_ne by done. intros Ht.
      destruct (Hb i t Ht) as (Hr & it' & Hit' & Hcat). split; [lia|].
      exists it'. split; [by apply Hold|done].
  - intros i j t. rewrite Hids.
    destruct (decide (i = n)) as [->|]; destruct (decide (j = n)) as [->|]; try done.
    + rewrite lookup_insert_eq, lookup_insert_ne by done. intros [= <-] Hj.
      destruct (Hb j _ Hj) as (_ & it' & Hit' & _). congruence.
    + rewrite lookup_insert_eq, lookup_insert_ne by done. intros Hj [= <-].
      destruct (Hb i _ Hj) as (_ & it' & Hit' & _). congruence.
    + rewrite !lookup_insert_ne by done. apply Hi.
  - intros t it' Hit' Hk' Hin'. rewrite Hids.
    destruct (Hnew t it' Hit') as [-> | [Hwas | Hnk]]; [| |done].
    + exists n. by rewrite lookup_insert_eq.
    + destruct (Ho t it' Hwas Hk' Hin') as [i Hi'].
      exists i. rewrite lookup_insert_ne; [done|].
      intros <-. destruct (Hb n t Hi') as [? _]. lia.
  - congruence.
  - congruence.
  - congruence.
Qed.

Lemma row_spec cats r w0 w :
  0 <= r ->
  grid_inv cats (r * 3) w0 w ->
  ∃ w', row cats r w = Done w' ∧ grid_inv cats (r * 3 + 3) w0 w'.
Proof.
  intros Hr Hinv. unfold row.
  destruct Hinv as [[cit Hc] Hf Hd Hb Hi Ho Hl Hm Hcb].
  assert (Hg : items (dpg w) !! TStr (Py.str_of_int (Z.of_N (next_uuid (dpg w)))) = None)
    by (apply fresh_str; [done|lia]).
  set (g := TStr (Py.str_of_int (Z.of_N (next_uuid (dpg w))))) in *.
  set (git := with_ancestors (TAG_CATEGORIES_CONTAINER :: ancestors cit) (new_item mvGroup)).
  set (w1 := set_dpg (set_items (<[g := git]> (items (dpg w)))
                        (set_next_uuid (next_uuid (dpg w) + 1)%N (dpg w))) w).
  unfold generate_uuid. cbv beta iota zeta. fold g.
  assert (Hrun1 :
    dpg_call (fun _ => snd <$>
        add_item (Some g) (Some TAG_CATEGORIES_CONTAINER)
          (new_item mvGroup) (set_next_uuid (next_uuid (dpg w) + 1)%N (dpg w))) w = Done w1).
  { unfold dpg_call, add_item. simpl. rewrite Hg, Hc. simpl. reflexivity. }
  rewrite (and_then_Done _ _ _ _ Hrun1). clear Hrun1.
  assert (Hinv1 : grid_inv cats (r * 3) w0 w1).
  { split; simpl.
    - exists cit. rewrite lookup_insert_ne; [done|]. intros E. rewrite E in Hg. congruence.
    - unfold fresh; simpl. apply map_Forall_insert_2; [apply tag_older_str|].
      eapply map_Forall_impl; [exact Hf|]. simpl. intros t _ Ht.
      eapply tag_older_mono; [|exact Ht]. lia.
    - done.
    - intros i t Ht. destruct (Hb i t Ht) as (? & it & Hit & ?). split; [done|].
      exists it. split; [|done]. rewrite lookup_insert_ne; [done|]. congruence.
    - done.
    - intros t it. rewrite lookup_insert. case_decide.
      + intros [= <-]. done.
      + apply Ho.
    - done.
    - done.
    - done. }
  assert (Hgit : items (dpg w1) !! g = Some git) by (simpl; apply lookup_insert_eq).
  assert (Hin : TAG_CATEGORIES_CONTAINER ∈ g :: ancestors git) by (simpl; rewrite !elem_of_cons; auto).
  clearbody w1.
  simpl.
  destruct (button_step cats (r * 3 + 0) w0 w1 g git) as (w2 & Hrun2 & Hinv2 & Hg2);
    [lia|by replace (r * 3 + 0) with (r * 3) by lia|done|done|].
  rewrite (and_then_Done _ _ _ _ Hrun2).
  destruct (button_step cats (r * 3 + 1) w0 w2 g git) as (w3 & Hrun3 & Hinv3 & Hg3);
    [lia|by replace (r * 3 + 1) with (r * 3 + 0 + 1) by lia|done|done|].
  rewrite (and_then_Done _ _ _ _ Hrun3).
  destruct (button_step cats (r * 3 + 2) w0 w3 g git) as (w4 & Hrun4 & Hinv4 & Hg4);
    [lia|by replace (r * 3 + 2) with (r * 3 + 1 + 1) by lia|done|done|].
  rewrite (and_then_Done _ _ _ _ Hrun4).
  exists w4. split; [done|]. by replace (r * 3 + 3) with (r * 3 + 2 + 1) by lia.
Qed.


Lemma set_categories_rows cats :
  set_categories cats =
  ((fun w =>
     if does_item_exist TAG_CATEGORIES_CONTAINER (dpg w)
     then dpg_call (delete_item TAG_CATEGORIES_CONTAINER true) w
     else Done w) >>
   update_self (set_category_callbacks ∅) >>
   update_self (set_category_button_ids ∅) >>
   (row cats 0 >> (row cats 1 >> (row cats 2 >> skip)))).
Proof. reflexivity. Qed.

Lemma set_categories_inv cats w cit :
  fresh (dpg w) ->
  items (dpg w) !! TAG_CATEGORIES_CONTAINER = Some cit ->
  kind cit = mvGroup ->
  ∃ w', set_categories cats w = Done w' ∧ grid_inv cats 9 w w'.
Proof.
  intros Hf Hc Hk. rewrite set_categories_rows.
  set (kept := filter (fun e => ¬ below TAG_CATEGORIES_CONTAINER e) (items (dpg w))).
  set (w1 := set_self (set_category_button_ids ∅ (set_category_callbacks ∅ (self w)))
               (set_dpg (set_items (<[TAG_CATEGORIES_CONTAINER := cit]> kept) (dpg w)) w)).
  assert (Hrun :
    ((fun w =>
       if does_item_exist TAG_CATEGORIES_CONTAINER (dpg w)
       then dpg_call (delete_item TAG_CATEGORIES_CONTAINER true) w
       else Done w) >>
     update_self (set_category_callbacks ∅) >>
     update_self (set_category_button_ids ∅)) w = Done w1).
  { unfold and_then, does_item_exist, dpg_call, delete_item, update_self, pure.
    rewrite Hc. rewrite bool_decide_eq_true_2 by by eexists. reflexivity. }
  rewrite (and_then_Done _ _ _ _ Hrun). clear Hrun.
  assert (Hinv : grid_inv cats (0 * 3) w w1).
  { split; simpl; try done.
    - exists cit. apply lookup_insert_eq.
    - unfold fresh; simpl. apply map_Forall_insert_2; [by apply (Hf _ _ Hc)|].
      intros t it Ht. apply map_lookup_filter_Some in Ht as [Ht _]. by apply (Hf _ _ Ht).
    - intros i ?. lia.
    - intros t it. rewrite lookup_insert. case_decide.
      + intros [= <-]. congruence.
      + intros Ht Hkind Hin. apply map_lookup_filter_Some in Ht as [_ Hnb].
        destruct Hnb. exact Hin. }
  clearbody w1. clear - Hinv.
  destruct (row_spec cats 0 w w1 ltac:(lia) Hinv) as (w2 & Hr2 & Hinv2).
  rewrite (and_then_Done _ _ _ _ Hr2).
  destruct (row_spec cats 1 w w2 ltac:(lia) Hinv2) as (w3 & Hr3 & Hinv3).
  rewrite (and_then_Done _ _ _ _ Hr3).
  destruct (row_spec cats 2 w w3 ltac:(lia) Hinv3) as (w4 & Hr4 & Hinv4).
  rewrite (and_then_Done _ _ _ _ Hr4).
  exists w4. split; [done|]. exact Hinv4.
Qed.

Lemma tk_btn_text cats i : 0 <= i -> Tk.btn_text cats i = tk_text cats i.
Proof.
  intros Hi. unfold Tk.btn_text, tk_text, entry_defined, entry_name, Tk.has, get_or_empty.
  destruct (Z.ltb_spec i (Z.of_nat (length cats))).
  - destruct (cats !! Z.to_nat i) as [cat|] eqn:E; [|done].
    destruct (cat !! "name") as [s|], (cat !! "path") as [s'|]; simpl; try done;
      try (destruct (Py.truthy s); done).
  - rewrite (proj2 (lookup_ge_None cats (Z.to_nat i))) by lia. done.
Qed.

Lemma tk_for_each_grid cats cols xs m :
  cols <> 0 ->
  ∃ m', Tk.for_each xs (Tk.add_grid_button cats cols) m = Tk.Done m' ∧
        Tk.text <$> Tk.cat_buttons m' =
          (Tk.text <$> Tk.cat_buttons m) ++ (Tk.btn_text cats <$> xs) ∧
        Tk.log m' = Tk.log m ∧
        Tk.category_click_callback m' = Tk.category_click_callback m ∧
        Tk.key_bindings m' = Tk.key_bindings m.
Proof.
  intros Hc. revert m. induction xs as [|x xs IH]; intros m.
  - exists m. simpl. by rewrite app_nil_r.
  - simpl. unfold Tk.add_grid_button at 1.
    apply Z.eqb_neq in Hc as Hc'. rewrite Hc'.
    destruct (IH (Tk.set_cat_buttons
                    (Tk.cat_buttons m ++
                       [{| Tk.widget := Tk.next_widget m;
                           Tk.text := Tk.btn_text cats x;
                           Tk.relief := "raised";
                           Tk.grid_row := x / cols;
                           Tk.grid_column := x mod cols;
                           Tk.bound_Button_1 := None;
                           Tk.bound_Button_3 := None |}])
                    (Tk.set_next_widget (S (Tk.next_widget m)) m)))
      as (m' & Hrun & Htxt & Hlog & Hcb & Hkb).
    exists m'. split; [exact Hrun|]. split; [|done].
    rewrite Htxt. simpl. rewrite fmap_app. simpl. by rewrite <- app_assoc.
Qed.

Lemma tk_set_categories cats m :
  Tk.current_columns m <> 0 ->
  ∃ m', Tk.set_categories cats m = Tk.Done m' ∧
        length (Tk.cat_buttons m') = 9%nat ∧
        ∀ i, 0 <= i < 9 → ∃ b, Tk.cat_buttons m' !! Z.to_nat i = Some b ∧
                               Tk.text b = tk_text cats i.
Proof.
  intros Hc. unfold Tk.set_categories, Tk._rebuild_category_grid.
  destruct (tk_for_each_grid cats (Tk.current_columns m) [0; 1; 2; 3; 4; 5; 6; 7; 8]
              (Tk.set_cat_buttons [] m) Hc) as (m' & Hrun & Htxt & _).
  exists m'. split; [exact Hrun|]. simpl in Htxt.
  split.
  - apply (f_equal length) in Htxt. rewrite length_fmap in Htxt. exact Htxt.
  - intros i Hi.
    assert (Hl : (Tk.text <$> Tk.cat_buttons m') !! Z.to_nat i = Some (Tk.btn_text cats i)).
    { rewrite Htxt.
      assert (i = 0 ∨ i = 1 ∨ i = 2 ∨ i = 3 ∨ i = 4 ∨ i = 5 ∨ i = 6 ∨ i = 7 ∨ i = 8)
        as Hcase by lia.
      destruct Hcase as [->|[->|[->|[->|[->|[->|[->|[->| ->]]]]]]]]; reflexivity. }
    rewrite list_lookup_fmap in Hl.
    destruct (Tk.cat_buttons m' !! Z.to_nat i) as [b|]; [|done].
    exists b. split; [done|]. simpl in Hl. injection Hl as ->. apply tk_btn_text. lia.
Qed.

(** *** Clicks and keys (C1, C2) *)

(** Feedback on an existing button returns and touches neither the log nor
    the callback dicts nor the modal flag. *)
Lemma show_button_feedback_frame idx w t it :
  _category_button_ids (self w) !! idx = Some t ->
  items (dpg w) !! t = Some it ->
  ∃ w', _show_button_feedback idx w = Done w' ∧
        log w' = log w ∧
        _category_callbacks (self w') = _category_callbacks (self w) ∧
        _category_button_ids (self w') = _category_button_ids (self w) ∧
        _modal_open (self w') = _modal_open (self w) ∧
        items (dpg w') !! t = Some (with_theme th_category_feedback it) ∧
        (∀ t', t' ≠ t → items (dpg w') !! t' = items (dpg w) !! t').
Proof.
  intros Hid Hit. unfold _show_button_feedback. rewrite Hid.
  unfold and_then, update_self, pure, dpg_call, update_item, start_timer.
  destruct (_feedback_timers (self w) !! key_idx idx) as [[|tm|]|]; simpl;
    rewrite Hit; simpl; eexists; (split; [reflexivity|]); simpl;
    repeat split; try done; try apply lookup_insert_eq;
    intros; by rewrite lookup_insert_ne.
Qed.

Lemma on_category_click_log env idx w t it hs :
  transparent env ->
  _category_button_ids (self w) !! idx = Some t ->
  items (dpg w) !! t = Some it ->
  _category_callbacks (self w) !! idx = Some hs ->
  log (world_of (_on_category_click env idx w)) = log w ++ [Call (h_click hs) (IdxArg idx)].
Proof.
  intros Henv Hid Hit Hcb.
  destruct (show_button_feedback_frame idx w t it Hid Hit)
    as (w' & Hrun & Hlog & Hcbs & _).
  unfold _on_category_click. rewrite (and_then_Done _ _ _ _ Hrun).
  rewrite Hcbs, Hcb. unfold invoke. rewrite Henv. simpl. by rewrite Hlog.
Qed.

Lemma dpg_left_click env idx t w hs :
  transparent env -> wired idx t w ->
  _category_callbacks (self w) !! idx = Some hs ->
  log (ui_click env t w) = log w ++ [Call (h_click hs) (IdxArg idx)].
Proof.
  intros Henv [Hid (it & r & Hit & Hen & Hcb & Hud & _) Hvis] Hcbs.
  unfold ui_click. rewrite Hit, Hvis, Hen, Hcb, Hud. simpl.
  unfold dispatch. simpl. by eapply on_category_click_log.
Qed.

Lemma dpg_right_click env idx t w hs :
  transparent env -> wired idx t w ->
  _category_callbacks (self w) !! idx = Some hs ->
  log (ui_right_click env t w) = log w ++ [Call (h_right hs) (IdxArg idx)].
Proof.
  intros Henv [Hid (it & r & Hit & Hen & Hcb & Hud & Hr & Hreg) Hvis] Hcbs.
  unfold ui_right_click. rewrite Hit, Hvis, Hr, Hreg. simpl.
  unfold dispatch. simpl. unfold _on_category_right_click. rewrite Hcbs.
  unfold invoke. by rewrite Henv.
Qed.

(** A key whose handlers each leave the world alone leaves it alone. *)
Lemma key_press_fold env k (hs : list KeyHandler) w :
  (∀ h, h ∈ hs → kh_key h = k → dispatch env (kh_callback h) (kh_user_data h) w = w) ->
  fold_left
    (fun w h => if bool_decide (kh_key h = k)
                then dispatch env (kh_callback h) (kh_user_data h) w else w) hs w = w.
Proof.
  induction hs as [|h hs IH]; intros H; simpl; [done|].
  case_bool_decide as E.
  - rewrite H by (try done; set_solver). apply IH. intros; apply H; set_solver.
  - apply IH. intros; apply H; set_solver.
Qed.

Lemma dpg_number_key env idx t w it hs :
  transparent env -> 0 <= idx < 9 ->
  key_handlers (dpg w) = shortcut_handlers ->
  _modal_open (self w) = false ->
  _category_button_ids (self w) !! idx = Some t ->
  items (dpg w) !! t = Some it ->
  _category_callbacks (self w) !! idx = Some hs ->
  log (ui_key_press env (mvKey_1_plus idx) w) = log w ++ [Call (h_click hs) (IdxArg idx)].
Proof.
  intros Henv Hidx Hkh Hmod Hid Hit Hcb.
  assert (Hone : log (dispatch env lambda_keyboard_category (Some idx) w) =
                 log w ++ [Call (h_click hs) (IdxArg idx)]).
  { unfold dispatch. simpl. unfold _handle_keyboard_category. rewrite Hmod.
    destruct (show_button_feedback_frame idx w t it Hid Hit)
      as (w' & Hrun & Hlog & Hcbs & Hids & _ & Hit' & _).
    rewrite (and_then_Done _ _ _ _ Hrun).
    erewrite on_category_click_log; [by rewrite Hlog|done| | |].
    - by rewrite Hids.
    - exact Hit'.
    - by rewrite Hcbs. }
  unfold ui_key_press. rewrite Hkh.
  assert (idx = 0 ∨ idx = 1 ∨ idx = 2 ∨ idx = 3 ∨ idx = 4 ∨ idx = 5 ∨ idx = 6 ∨ idx = 7 ∨ idx = 8)
    as Hcase by lia.
  destruct Hcase as [->|[->|[->|[->|[->|[->|[->|[->| ->]]]]]]]]; exact Hone.
Qed.

Lemma dpg_number_key_modal env i w :
  key_handlers (dpg w) = shortcut_handlers ->
  _modal_open (self w) = true ->
  ui_key_press env (mvKey_1_plus i) w = w.
Proof.
  intros Hkh Hmod. unfold ui_key_press. rewrite Hkh.
  apply key_press_fold. intros h Hin Hk.
  unfold shortcut_handlers in Hin.
  rewrite elem_of_app, list_elem_of_In, in_map_iff in Hin.
  destruct Hin as [(j & <- & _) | Hin].
  - unfold dispatch. simpl. unfold _handle_keyboard_category. by rewrite Hmod.
  - rewrite !elem_of_cons in Hin. destruct Hin as [-> | [-> | Hin]]; [done|done|].
    by apply elem_of_nil in Hin.
Qed.

(** The wired view meets the conditions of the three lemmas above at
    every slot: each of the nine buttons is on screen with its wiring. *)
Example view_two_bound_wired :
  Forall (fun i => ∃ t, _category_button_ids (self view_two_bound) !! i = Some t ∧
                        wired i t view_two_bound)
         [0; 1; 2; 3; 4; 5; 6; 7; 8].
Proof.
  repeat (apply Forall_cons_2; [|]); [..|apply Forall_nil_2];
    match goal with
    | |- ∃ t, ?ids !! ?i = Some t ∧ _ =>
        let o := eval vm_compute in (ids !! i) in
        match o with
        | Some ?t =>
            exists t; split; [vm_compute; reflexivity|];
            let oi := eval vm_compute in (items (dpg view_two_bound) !! t) in
            match oi with
            | Some ?it =>
                let or := eval vm_compute in (handler_registry it) in
                match or with
                | Some ?r =>
                    split;
                    [ vm_compute; reflexivity
                    | exists it, r; repeat split; vm_compute; reflexivity
                    | vm_compute; reflexivity ]
                end
            end
        end
    end.
Qed.

Lemma tk_number_key env m i h :
  tk_transparent env ->
  Tk.key_bindings m !! Py.str_of_int (i + 1) = Some (Tk.key_category i) ->
  Tk.category_click_callback m = Some h ->
  Tk.log (Tk.ui_key_press env (Py.str_of_int (i + 1)) m) = Tk.log m ++ [Call h (IdxArg i)].
Proof.
  intros Henv Hk Hc. unfold Tk.ui_key_press. rewrite Hk, Hc.
  unfold Tk.invoke. by rewrite Henv.
Qed.

Lemma tk_bind_category_last_wins idx f g m m' :
  Tk.bind_category idx f g m = Tk.Done m' ->
  Tk.category_click_callback m' = Some f ∧ Tk.key_bindings m' = Tk.key_bindings m.
Proof.
  unfold Tk.bind_category. destruct (Tk.py_index _ _); [|done].
  by intros [= <-].
Qed.

(** C1.  After [bind_category(idx, f, g)] a left click on button [idx]
    and the number key [idx + 1] should both call [f(idx)], whatever is
    bound to the other slots.  [MainWindow] breaks this: [bind_category]
    keeps the click callback of the keyboard in one attribute, so with
    [f1, g1] bound to slot 0 and then [f2, g2] to slot 1, the clicks on
    button 0 call [f1(0)] and [g1(0)] but the key "1" calls [f2(0)].
    [DearPyGuiView], which keeps one pair per slot, calls [f1(0)]. *)
Theorem tk_number_key_calls_last_bound_callback :
  Tk.log (Tk.ui_click Tk.returns 0 true tk_two_bound) = [Call f1 (IdxArg 0)] ∧
  Tk.log (Tk.ui_click Tk.returns 0 false tk_two_bound) = [Call g1 (IdxArg 0)] ∧
  Tk.log (Tk.ui_key_press Tk.returns "1" tk_two_bound) = [Call f2 (IdxArg 0)] ∧
  log (ui_key_press returns (mvKey_1_plus 0) view_two_bound) = [Call f1 (IdxArg 0)].
Proof. vm_compute. done. Qed.

(** C2, as stated, fails in [MainWindow]: the modal flag lives in the
    [DearPyGuiView] singleton and is true while a configuration dialog is
    open, yet the binding of the key "1" in [MainWindow] consults no flag
    and calls the stored click callback. *)
Lemma tk_number_key_not_swallowed :
  _modal_open (self one_dialog) = true ∧
  Tk.log (Tk.ui_key_press Tk.returns "1" tk_two_bound) = [Call f2 (IdxArg 0)].
Proof. vm_compute. done. Qed.

(** C2, amended.  In [DearPyGuiView], while the modal flag is true, the
    number key of any category leaves the world as it is: no callback is
    called.  [MainWindow] has no modal flag: its number key [j + 1] calls
    the stored click callback with [j], once. *)
Theorem number_key_swallowed_by_dearpygui_view env tkenv w i m j h :
  key_handlers (dpg w) = shortcut_handlers ->
  _modal_open (self w) = true ->
  tk_transparent tkenv ->
  Tk.key_bindings m !! Py.str_of_int (j + 1) = Some (Tk.key_category j) ->
  Tk.category_click_callback m = Some h ->
  ui_key_press env (mvKey_1_plus i) w = w ∧
  Tk.log (Tk.ui_key_press tkenv (Py.str_of_int (j + 1)) m) = Tk.log m ++ [Call h (IdxArg j)].
Proof.
  intros. split; [by apply dpg_number_key_modal | by apply tk_number_key].
Qed.

Lemma number_key_swallowed_by_dearpygui_view_witness :
  ui_key_press returns (mvKey_1_plus 0) one_dialog = one_dialog ∧
  Tk.log (Tk.ui_key_press Tk.returns (Py.str_of_int (0 + 1)) tk_two_bound) =
    Tk.log tk_two_bound ++ [Call f2 (IdxArg 0)].
Proof.
  apply (number_key_swallowed_by_dearpygui_view returns Tk.returns one_dialog 0
           tk_two_bound 0 f2).
  - vm_compute. reflexivity.
  - vm_compute. reflexivity.
  - intros h a m. reflexivity.
  - vm_compute. reflexivity.
  - vm_compute. reflexivity.
Defined.


(** *** Dialogs and the modal flag (C4, C5, C6) *)

Lemma keeps_self_skip : keeps_self skip.
Proof. by intros w. Qed.

Lemma keeps_self_and_then p q : keeps_self p -> keeps_self q -> keeps_self (p >> q).
Proof.
  intros Hp Hq w. unfold and_then. specialize (Hp w).
  destruct (p w) as [w1|w1]; simpl in *; [|done]. by rewrite Hq.
Qed.

Lemma keeps_self_dpg_call f : keeps_self (dpg_call f).
Proof. intros w. unfold dpg_call. by destruct (f (dpg w)). Qed.

Lemma keeps_self_add t p it : keeps_self (add t p it).
Proof. apply keeps_self_dpg_call. Qed.

Lemma keeps_self_add_auto p it k :
  (∀ t, keeps_self (k t)) -> keeps_self (add_auto p it k).
Proof.
  intros Hk w. unfold add_auto. destruct (add_item None p it (dpg w)) as [[t c]|]; [|done].
  by rewrite Hk.
Qed.

Lemma keeps_self_center t a b : keeps_self (_center_window t a b).
Proof.
  intros w. unfold _center_window. destruct (viewport_client (dpg w)).
  apply keeps_self_dpg_call.
Qed.

Lemma keeps_self_after (f : World -> World) (p : Proc) :
  (∀ w, self (f w) = self w) -> keeps_self p -> keeps_self (fun w => p (f w)).
Proof. intros Hf Hp w. by rewrite Hp. Qed.

Lemma show_message_dialog_keeps_self title message :
  keeps_self (_show_message_dialog title message).
Proof.
  intros w. unfold _show_message_dialog, generate_uuid. cbv zeta.
  apply (keeps_self_after (fun w => set_dpg _ w)); [done|].
  repeat first [ apply keeps_self_and_then | apply keeps_self_add
               | apply keeps_self_add_auto; intros | apply keeps_self_center
               | apply keeps_self_skip ].
Qed.

Lemma show_how_to_keeps_self : keeps_self show_how_to.
Proof.
  intros w. unfold show_how_to, uuid4. cbv zeta.
  apply (keeps_self_after (fun w => set_uuid4_drawn _ w)); [done|].
  repeat first [ apply keeps_self_and_then | apply keeps_self_add
               | apply keeps_self_add_auto; intros | apply keeps_self_center
               | apply keeps_self_skip ].
Qed.

Lemma message_close_keeps_self t : keeps_self (message_close_body t).
Proof. apply keeps_self_dpg_call. Qed.

Lemma how_to_close_keeps_self t : keeps_self (how_to_close_body t).
Proof. apply keeps_self_dpg_call. Qed.

(** C4.  Every modal dialog should set the modal flag when it opens.
    [show_how_to] and [_show_message_dialog] never touch the attributes of
    the view, so the flag stays as it was: with the help dialog or a message
    dialog open as a modal window the flag is false and the key "1" still
    calls the click callback of slot 0.  The sibling dialogs [show_about]
    and [configure_category] do set the flag. *)
Theorem help_and_message_dialogs_leave_modal_flag_unset :
  (∀ w, _modal_open (self (world_of (show_how_to w))) = _modal_open (self w)) ∧
  (∀ title message w,
     _modal_open (self (world_of (_show_message_dialog title message w))) =
     _modal_open (self w)) ∧
  (modal <$> items (dpg help_open) !! how_to_window view_wired) = Some true ∧
  _modal_open (self help_open) = false ∧
  log (ui_key_press returns (mvKey_1_plus 0) help_open) = [Call f1 (IdxArg 0)] ∧
  (modal <$> items (dpg info_open) !! message_window view_wired) = Some true ∧
  _modal_open (self info_open) = false ∧
  log (ui_key_press returns (mvKey_1_plus 0) info_open) = [Call f1 (IdxArg 0)] ∧
  _modal_open (self about_open) = true ∧
  _modal_open (self one_dialog) = true.
Proof.
  split; [intros w; by rewrite show_how_to_keeps_self|].
  split; [intros t m w; by rewrite show_message_dialog_keeps_self|].
  vm_compute. done.
Qed.

(** The Close button of the about dialog clears the flag before it hides
    the window. *)
Example about_close_clears_modal_flag :
  _modal_open (self (dispatch returns (about_close true) None about_open)) = false ∧
  (show <$> items (dpg (dispatch returns (about_close true) None about_open))
              !! about_window_id) = Some false.
Proof. vm_compute. done. Qed.

Lemma configure_category_sets_modal_flag idx initial on_result w w1 :
  instance_set w = true ->
  configure_category idx initial on_result w = Done w1 ->
  _modal_open (self w1) = true.
Proof.
  intros Hi. unfold configure_category, uuid4. cbv zeta. simpl. rewrite Hi.
  intros H. apply and_then_Done_inv in H as (w' & _ & H).
  unfold _set_modal_state, set_modal_open, update_self, pure in H.
  by injection H as <-.
Qed.

Lemma on_select_folder_modal env w :
  _modal_open (self w) = true -> _on_select_folder env w = Done w.
Proof. unfold _on_select_folder. by intros ->. Qed.

(** While the modal flag is set the select-folder action does nothing. *)
Lemma select_folder_noop_while_modal env w :
  _modal_open (self w) = true ->
  _on_select_folder env w = Done w ∧
  (∀ it, items (dpg w) !! TStr "select_folder_button" = Some it →
         callback it = Some bound_on_select_folder →
         ui_click env (TStr "select_folder_button") w = w).
Proof.
  intros Hm. split; [by apply on_select_folder_modal|].
  intros it Hit Hcb. unfold ui_click. rewrite Hit, Hcb.
  destruct (visible _ _ && enabled it); [|done].
  unfold dispatch. simpl. by rewrite on_select_folder_modal.
Qed.

(** C5, as stated, fails: [configure_category] has no guard.  Called
    while the dialog of slot 0 is open (modal flag true), it builds a second
    modal window next to the first.  Cancel in the second window then
    clears the one modal flag while the first window is still open, and
    the select-folder action calls its callback again. *)
Lemma second_configure_category_opens_second_dialog :
  _modal_open (self one_dialog) = true ∧
  open_modal_windows one_dialog = [TStr "category_config_0_0"] ∧
  open_modal_windows two_dialogs =
    [TStr "category_config_1_1"; TStr "category_config_0_0"] ∧
  let one_closed :=
    dialog_event returns (dialog_of 1 cb one_dialog) click_cancel two_dialogs in
  _modal_open (self one_closed) = false ∧
  open_modal_windows one_closed = [TStr "category_config_0_0"] ∧
  calls_of pick (log (world_of (_on_select_folder returns one_closed))) =
    [Call pick NoArgs].
Proof. vm_compute. done. Qed.

(** C6, as stated, fails: [_on_select_folder] has no guard of its own
    besides the modal flag.  A callback that calls it again before
    returning runs twice. *)
Lemma nested_select_folder_call_runs_callback_twice :
  _modal_open (self view_wired) = false ∧
  log (world_of (_on_select_folder (calls_back returns) view_wired)) =
    [Call pick NoArgs; Call pick NoArgs].
Proof. vm_compute. done. Qed.

(** C6, amended.  While a call of [_on_select_folder] is in flight the
    select-folder button is disabled: a second click on the button during
    the callback is not dispatched, the callback runs once, and the button
    is enabled again when the call returns, and also when the callback
    raises. *)
Theorem second_click_during_select_folder_is_ignored env w h it :
  _modal_open (self w) = false ->
  _callbacks (self w) !! "select_folder" = Some h ->
  items (dpg w) !! TStr "select_folder_button" = Some it ->
  (∃ w', _on_select_folder (clicks_again env) w = Done w' ∧
         log w' = log w ++ [Call h NoArgs] ∧
         items (dpg w') !! TStr "select_folder_button" = Some (with_enabled true it)) ∧
  (∃ w', _on_select_folder raises w = Raised w' ∧
         items (dpg w') !! TStr "select_folder_button" = Some (with_enabled true it)).
Proof.
  intros Hm Hc Hit.
  unfold _on_select_folder. rewrite Hm.
  unfold and_then, try_finally, set_select_folder_button_enabled, does_item_exist,
    call_registered, dpg_call, update_item.
  rewrite Hit. rewrite bool_decide_eq_true_2 by by eexists. simpl.
  rewrite Hc. unfold invoke, clicks_again, raises, ui_click. simpl.
  rewrite !lookup_insert_eq. simpl. rewrite andb_false_r. simpl.
  rewrite !lookup_insert_eq. rewrite bool_decide_eq_true_2 by by eexists. simpl.
  split; eexists; (split; [reflexivity|]); simpl.
  - split; [done|]. rewrite insert_insert_eq. apply lookup_insert_eq.
  - rewrite insert_insert_eq. apply lookup_insert_eq.
Qed.

Lemma second_click_during_select_folder_is_ignored_witness :
  ∃ it, items (dpg view_wired) !! TStr "select_folder_button" = Some it ∧
  (∃ w', _on_select_folder (clicks_again returns) view_wired = Done w' ∧
         log w' = log view_wired ++ [Call pick NoArgs] ∧
         items (dpg w') !! TStr "select_folder_button" = Some (with_enabled true it)) ∧
  (∃ w', _on_select_folder raises view_wired = Raised w' ∧
         items (dpg w') !! TStr "select_folder_button" = Some (with_enabled true it)).
Proof.
  eexists. split; [vm_compute; reflexivity|].
  apply (second_click_during_select_folder_is_ignored returns view_wired pick).
  - vm_compute. reflexivity.
  - vm_compute. reflexivity.
  - vm_compute. reflexivity.
Defined.

(** *** The image area (C7) *)

Lemma normalised_b_spec b v : normalised_b b v = true -> normalised b v.
Proof.
  unfold normalised_b, normalised, is_float32.
  rewrite !andb_true_iff, !Z.leb_le, Z.eqb_eq.
  intros [[[[[Hden Hnum] Hk] H0] H1] He].
  apply Qle_bool_iff in H0, H1, He.
  split; [|done].
  exists (Qnum v), (Z.log2 (Z.pos (Qden v))).
  split; [done|]. split; [split; [apply Z.log2_nonneg|done]|].
  rewrite <- Hden. simpl. by destruct v.
Qed.

(** Every byte divided by 255 in float32. *)
Lemma float32_byte b : 0 <= b <= 255 -> normalised b (Py.float32 (b # 255)).
Proof.
  intros Hb. apply normalised_b_spec.
  assert (Hall : forallb (fun n => normalised_b (Z.of_nat n) (Py.float32 (Z.of_nat n # 255)))
                   (seq 0 256) = true) by (vm_compute; reflexivity).
  rewrite forallb_forall in Hall.
  specialize (Hall (Z.to_nat b)). rewrite Z2Nat.id in Hall by lia.
  apply Hall, in_seq. lia.
Qed.

Lemma texture_data_normalised photo :
  Forall (fun b => 0 <= b <= 255) (rgba_bytes photo) ->
  Forall2 normalised (rgba_bytes photo) (texture_data photo).
Proof.
  unfold texture_data. induction 1 as [|b bs Hb _ IH]; simpl; constructor; [|done].
  by apply float32_byte.
Qed.

(** C7, as stated, fails in both front-ends.  In [MainWindow],
    [show_image(None)] clears the image of the label and puts no
    placeholder there, and a photo is shown as it is given, at its own
    size.  In [DearPyGuiView], [show_image] does not scale the photo: for
    a photo of one pixel the image texture, which stays 576 x 360, is
    handed the four floats of that pixel. *)
Lemma show_image_does_not_scale_the_photo :
  Tk.image_label (Tk.show_image None (Tk.show_image (Some small_photo) Tk.__init__)) = None ∧
  Tk.image_label (Tk.show_image (Some small_photo) Tk.__init__) = Some small_photo ∧
  Tk.image_label (Tk.show_image (Some large_photo) Tk.__init__) = Some large_photo ∧
  size one_pixel = (1, 1) ∧
  (value <$> items (dpg (world_of (show_image (Some one_pixel) started))) !! TAG_IMAGE_TEXTURE) =
    Some (TextureValue [1; 0; 13421773 # 67108864; 1]%Q) ∧
  (width <$> items (dpg (world_of (show_image (Some one_pixel) started))) !! TAG_IMAGE_TEXTURE) =
    Some 576 ∧
  (height <$> items (dpg (world_of (show_image (Some one_pixel) started))) !! TAG_IMAGE_TEXTURE) =
    Some 360.
Proof. vm_compute. repeat split. Qed.

(** C7, amended.  In [DearPyGuiView], whatever the image item showed
    before, [show_image(None)] binds the placeholder texture at the fixed
    576 x 360 and leaves the image texture alone; [show_image(photo)] hands
    the image texture the bytes of the photo in their order, unscaled
    (four floats for each pixel of the photo, whatever its size), each
    byte divided by 255 in float32, and binds that texture to the image
    item at the same fixed 576 x 360 with the label "576x360".
    [MainWindow.show_image] sets the image of the label to what it is
    given, nothing when given [None]. *)
Theorem show_image_fills_fixed_area (w : World) (display tex : Item) (photo : Image) :
  items (dpg w) !! TAG_IMAGE_DISPLAY = Some display ->
  items (dpg w) !! TAG_IMAGE_TEXTURE = Some tex ->
  image_ok photo ->
  (∃ w', show_image None w = Done w' ∧
         items (dpg w') !! TAG_IMAGE_DISPLAY =
           Some (with_size 576 360 (with_texture TAG_PLACEHOLDER_TEXTURE display)) ∧
         items (dpg w') !! TAG_IMAGE_TEXTURE = Some tex) ∧
  (∃ w' data, show_image (Some photo) w = Done w' ∧
         items (dpg w') !! TAG_IMAGE_DISPLAY =
           Some (with_label "576x360"
                   (with_size 576 360 (with_texture TAG_IMAGE_TEXTURE display))) ∧
         items (dpg w') !! TAG_IMAGE_TEXTURE = Some (with_value (TextureValue data) tex) ∧
         Z.of_nat (length data) = 4 * (size photo).1 * (size photo).2 ∧
         Forall2 normalised (rgba_bytes photo) data) ∧
  (∀ p : option Tk.Photo, ∀ m, Tk.image_label (Tk.show_image p m) = p).
Proof.
  intros Hd Ht (Hw & Hh & Hlen & Hb).
  assert (Hne : TAG_IMAGE_TEXTURE ≠ TAG_IMAGE_DISPLAY) by (cbv; discriminate).
  split; [|split].
  - unfold show_image, does_item_exist, dpg_call, update_item.
    rewrite bool_decide_eq_true_2 by by eexists. rewrite Hd.
    eexists. split; [reflexivity|]. simpl. split; [apply lookup_insert_eq|].
    by rewrite lookup_insert_ne.
  - unfold show_image, and_then, does_item_exist, dpg_call, update_item. simpl.
    rewrite Ht. simpl.
    rewrite lookup_insert_ne by done. rewrite Hd.
    rewrite bool_decide_eq_true_2 by by eexists. simpl.
    rewrite lookup_insert_eq.
    eexists _, _. split; [reflexivity|]. simpl.
    rewrite lookup_insert_eq. split; [reflexivity|].
    split; [|split].
    + rewrite insert_insert_eq. rewrite lookup_insert_ne by done.
      apply lookup_insert_eq.
    + unfold texture_data. by rewrite length_map.
    + by apply texture_data_normalised.
  - by intros [p|] m.
Qed.

Lemma show_image_fills_fixed_area_witness :
  ∃ display tex,
  items (dpg started) !! TAG_IMAGE_DISPLAY = Some display ∧
  items (dpg started) !! TAG_IMAGE_TEXTURE = Some tex ∧
  (∃ w', show_image None started = Done w' ∧
         items (dpg w') !! TAG_IMAGE_DISPLAY =
           Some (with_size 576 360 (with_texture TAG_PLACEHOLDER_TEXTURE display)) ∧
         items (dpg w') !! TAG_IMAGE_TEXTURE = Some tex) ∧
  (∃ w' data, show_image (Some one_pixel) started = Done w' ∧
         items (dpg w') !! TAG_IMAGE_DISPLAY =
           Some (with_label "576x360"
                   (with_size 576 360 (with_texture TAG_IMAGE_TEXTURE display))) ∧
         items (dpg w') !! TAG_IMAGE_TEXTURE = Some (with_value (TextureValue data) tex) ∧
         Z.of_nat (length data) = 4 * (size one_pixel).1 * (size one_pixel).2 ∧
         Forall2 normalised (rgba_bytes one_pixel) data) ∧
  (∀ p : option Tk.Photo, ∀ m, Tk.image_label (Tk.show_image p m) = p).
Proof.
  eexists _, _. split; [vm_compute; reflexivity|]. split; [vm_compute; reflexivity|].
  apply (show_image_fills_fixed_area started _ _ one_pixel).
  - vm_compute. reflexivity.
  - vm_compute. reflexivity.
  - repeat split; try (vm_compute; discriminate).
    repeat constructor; simpl; lia.
Defined.


(** *** The feedback pulse (C9) *)

(** C9.  The pulse should end with the button in its resting theme.
    [restore_theme] picks the theme from the label ("[Empty]" in it or not)
    while [_create_category_button] picks it from name and path.  For an
    entry with a name and no path the button rests in the plain theme and
    the pulse leaves it in the defined one; for a defined entry named
    "[Empty]" it rests in the defined theme and the pulse leaves it in the
    plain one.  In both runs one timer was pending and none is left. *)
Theorem pulse_restores_theme_from_label_not_from_entry :
  button_theme_of 0 named_only_grid = Some th_category ∧
  button_theme_of 0 named_only_pulsed = Some th_category_feedback ∧
  pending_for 0 named_only_pulsed = [0%nat] ∧
  button_theme_of 0 named_only_restored = Some th_category_defined ∧
  pending_timers named_only_restored = [] ∧
  button_theme_of 0 named_empty_grid = Some th_category_defined ∧
  button_theme_of 0 named_empty_restored = Some th_category ∧
  pending_timers named_empty_restored = [].
Proof. vm_compute. done. Qed.

(** A cancelled timer does nothing when its delay ends. *)
Lemma cancelled_timer_never_fires w t tm :
  timers w !! t = Some tm -> t_state tm = cancelled -> timer_fires t w = w.
Proof. intros Ht Hs. unfold timer_fires. by rewrite Ht, Hs. Qed.

(** The timers on the grid of one defined entry: after two
    pulses on button 3, with one on button 0 in between, the first timer
    of button 3 is cancelled, one timer is pending per button, and each
    pending timer restores its own button. *)
Example pulse_twice_one_pending_timer :
  pending_for 3 pulsed_twice = [2%nat] ∧
  pending_for 0 pulsed_twice = [1%nat] ∧
  (t_state <$> timers pulsed_twice !! 0%nat) = Some cancelled ∧
  button_theme_of 3 (timer_fires 2 pulsed_twice) = Some th_category ∧
  button_theme_of 0 (timer_fires 2 pulsed_twice) = Some th_category_feedback ∧
  pending_for 0 (timer_fires 2 pulsed_twice) = [1%nat] ∧
  button_theme_of 0 (timer_fires 1 (timer_fires 2 pulsed_twice)) = Some th_category_defined ∧
  pending_timers (timer_fires 1 (timer_fires 2 pulsed_twice)) = [].
Proof. vm_compute. done. Qed.

(** *** The status line (C10) *)

Lemma text_app (a b : string) : Py.text (a +:+ b) = Py.text a ++ Py.text b.
Proof. induction a as [|x a IH]; simpl; [done|]. by rewrite <- IH. Qed.

(** The characters that count as whitespace, one by one. *)
Lemma isspace_spec c :
  Py.isspace c = true ↔
  In c [ 0x09; 0x0A; 0x0B; 0x0C; 0x0D; 0x1C; 0x1D; 0x1E; 0x1F; 0x20; 0x85; 0xA0;
         0x1680; 0x2000; 0x2001; 0x2002; 0x2003; 0x2004; 0x2005; 0x2006; 0x2007;
         0x2008; 0x2009; 0x200A; 0x2028; 0x2029; 0x202F; 0x205F; 0x3000 ]%N.
Proof.
  unfold Py.isspace.
  rewrite !orb_true_iff, !andb_true_iff, !N.leb_le, !N.eqb_eq. simpl. lia.
Qed.

Lemma counter_text_chars ws i n nl :
  counter_text ws i n nl =
    ws ++ Py.open_paren :: i ++ Py.slash :: n ++ Py.close_paren :: nl.
Proof. reflexivity. Qed.

Lemma all_chars_app P a b :
  all_chars P (a ++ b) = all_chars P a && all_chars P b.
Proof. apply forallb_app. Qed.

Lemma all_chars_cons P c s : all_chars P (c :: s) = P c && all_chars P s.
Proof. reflexivity. Qed.

Lemma skip_spaces_blank ws c r :
  blank ws -> Py.isspace c = false ->
  Py.skip_spaces (ws ++ c :: r) = c :: r.
Proof.
  unfold blank. intros Hws Hc. induction ws as [|x ws IH]; simpl.
  - by rewrite Hc.
  - rewrite all_chars_cons in Hws. apply andb_true_iff in Hws as [Hx Hws].
    rewrite Hx. by apply IH.
Qed.

Lemma skip_digits_number i c r :
  all_chars Py.isdecimal i = true -> Py.isdecimal c = false ->
  Py.skip_digits (i ++ c :: r) = c :: r.
Proof.
  intros Hi Hc. induction i as [|x i IH]; simpl.
  - by rewrite Hc.
  - rewrite all_chars_cons in Hi. apply andb_true_iff in Hi as [Hx Hi].
    rewrite Hx. by apply IH.
Qed.

Lemma digits1_number i c r :
  number i -> Py.isdecimal c = false ->
  Py.digits1 (i ++ c :: r) = Some (c :: r).
Proof.
  intros [Hne Hi] Hc. destruct i as [|x i]; [done|]. simpl.
  rewrite all_chars_cons in Hi. apply andb_true_iff in Hi as [Hx Hi]. rewrite Hx.
  by rewrite skip_digits_number.
Qed.

Lemma counter_body_shape i n nl :
  number i -> number n -> line_end nl ->
  Py.counter_body (Py.open_paren :: i ++ Py.slash :: n ++ Py.close_paren :: nl) = true.
Proof.
  intros Hi Hn Hnl. unfold Py.counter_body. simpl.
  rewrite digits1_number by done. simpl.
  rewrite digits1_number by done. simpl.
  by destruct Hnl as [-> | ->].
Qed.

Lemma chomp_shape (a nl : Py.str) :
  line_end nl -> Py.chomp (a ++ Py.close_paren :: nl) = a ++ [Py.close_paren].
Proof.
  intros Hnl. unfold Py.chomp.
  destruct a as [|x a]; simpl.
  - by destruct Hnl as [-> | ->].
  - revert x. induction a as [|y a IH]; intros x; simpl.
    + by destruct Hnl as [-> | ->].
    + f_equal. apply IH.
Qed.

Lemma counter_group_shape ws i n nl :
  blank ws -> number i -> number n -> line_end nl ->
  Py.counter_group (counter_text ws i n nl) = Some (counter_text ws i n []).
Proof.
  intros Hws Hi Hn Hnl. unfold Py.counter_group. rewrite !counter_text_chars.
  rewrite skip_spaces_blank by done. rewrite counter_body_shape by done.
  f_equal.
  replace (ws ++ Py.open_paren :: i ++ Py.slash :: n ++ Py.close_paren :: nl)
    with ((ws ++ Py.open_paren :: i ++ Py.slash :: n) ++ Py.close_paren :: nl)
    by (by rewrite <- !app_assoc, <- !app_comm_cons, <- app_assoc).
  rewrite chomp_shape by done.
  by rewrite <- !app_assoc, <- !app_comm_cons, <- app_assoc.
Qed.

Lemma skip_digits_chars s c :
  c ∈ s -> Py.isdecimal c = true ∨ c ∈ Py.skip_digits s.
Proof.
  induction s as [|x s IH]; simpl; [by right|].
  destruct (Py.isdecimal x) eqn:E.
  - rewrite elem_of_cons. intros [-> | H]; [by left|by apply IH].
  - by right.
Qed.

Lemma digits1_chars s s' c :
  Py.digits1 s = Some s' -> c ∈ s -> Py.isdecimal c = true ∨ c ∈ s'.
Proof.
  destruct s as [|x s]; simpl; [done|].
  destruct (Py.isdecimal x) eqn:E; [|done]. intros [= <-].
  rewrite elem_of_cons. intros [-> | H]; [by left|by apply skip_digits_chars].
Qed.

Lemma lit_inv c s s' : Py.lit c s = Some s' -> s = c :: s'.
Proof.
  destruct s as [|x s]; simpl; [done|].
  destruct (N.eqb_spec c x); [|done]. by intros [= <-]; subst.
Qed.

Lemma counter_body_no_open t :
  Py.counter_body t = true -> ∃ r, t = Py.open_paren :: r ∧ Py.open_paren ∉ r.
Proof.
  unfold Py.counter_body.
  destruct (Py.lit Py.open_paren t) as [s1|] eqn:E1; [|done]. apply lit_inv in E1 as ->.
  destruct (Py.digits1 s1) as [s2|] eqn:E2; [|done].
  destruct (Py.lit Py.slash s2) as [s3|] eqn:E3; [|done]. apply lit_inv in E3 as ->.
  destruct (Py.digits1 s3) as [s4|] eqn:E4; [|done].
  destruct (Py.lit Py.close_paren s4) as [s5|] eqn:E5; [|done]. apply lit_inv in E5 as ->.
  intros He. exists s1. split; [done|]. intros Hin.
  destruct (digits1_chars _ _ _ E2 Hin) as [Hd | Hin2]; [done|].
  apply elem_of_cons in Hin2 as [Hx | Hin3]; [done|].
  destruct (digits1_chars _ _ _ E4 Hin3) as [Hd | Hin4]; [done|].
  apply elem_of_cons in Hin4 as [Hx | Hin5]; [done|].
  destruct s5 as [|y [|z s5]]; simpl in *; try done.
  - by apply elem_of_nil in Hin5.
  - apply N.eqb_eq in He as ->. apply elem_of_cons in Hin5 as [Hx | Hin5]; [done|].
    by apply elem_of_nil in Hin5.
Qed.

Lemma skip_spaces_app a b :
  Py.skip_spaces a ≠ [] -> Py.skip_spaces (a ++ b) = Py.skip_spaces a ++ b.
Proof.
  induction a as [|x a IH]; simpl; [done|].
  destruct (Py.isspace x); [apply IH|done].
Qed.

Lemma rstrip_cons c s :
  Py.rstrip (c :: s) =
  match Py.rstrip s with
  | [] => if Py.isspace c then [] else [c]
  | r => c :: r
  end.
Proof. reflexivity. Qed.

Lemma rstrip_fixed_cons c a :
  Py.rstrip (c :: a) = c :: a -> Py.rstrip a = a.
Proof.
  rewrite rstrip_cons. destruct (Py.rstrip a) as [|y r] eqn:E.
  - destruct (Py.isspace c); [done|]. by intros [= <-].
  - by intros [= <-].
Qed.

Lemma skip_spaces_not_blank a :
  Py.rstrip a = a -> a ≠ [] -> Py.skip_spaces a ≠ [].
Proof.
  induction a as [|x a IH]; [done|]. intros Hr _. simpl.
  destruct (Py.isspace x) eqn:E; [|done].
  apply IH; [by eapply rstrip_fixed_cons|].
  intros ->. rewrite rstrip_cons in Hr. simpl in Hr. by rewrite E in Hr.
Qed.

Lemma counter_group_inside a ws i n nl :
  Py.rstrip a = a -> a ≠ [] ->
  Py.counter_group (a ++ counter_text ws i n nl) = None.
Proof.
  intros Hr Hne. unfold Py.counter_group.
  destruct (Py.counter_body _) eqn:E; [|done]. exfalso.
  rewrite skip_spaces_app in E by by apply skip_spaces_not_blank.
  apply counter_body_no_open in E as (r & Heq & Hno).
  pose proof (skip_spaces_not_blank a Hr Hne) as Hs.
  destruct (Py.skip_spaces a) as [|x s]; [done|].
  rewrite <- app_comm_cons in Heq.
  injection Heq as -> <-. apply Hno.
  rewrite counter_text_chars. rewrite !elem_of_app, elem_of_cons. auto.
Qed.

Lemma match_counter_unfold text :
  Py.match_counter text =
  match Py.counter_group text with
  | Some g2 => Some ([], g2)
  | None =>
      match text with
      | [] => None
      | c :: rest =>
          if N.eqb c Py.newline then None
          else match Py.match_counter rest with
               | Some (g1, g2) => Some (c :: g1, g2)
               | None => None
               end
      end
  end.
Proof. by destruct text. Qed.

Lemma match_counter_shape name ws i n nl :
  one_line name -> Py.rstrip name = name ->
  blank ws -> number i -> number n -> line_end nl ->
  Py.match_counter (name ++ counter_text ws i n nl) = Some (name, counter_text ws i n []).
Proof.
  intros Hl Hr Hws Hi Hn Hnl. induction name as [|c name IH].
  - rewrite app_nil_l, match_counter_unfold. by rewrite counter_group_shape.
  - assert (Hnone : Py.counter_group ((c :: name) ++ counter_text ws i n nl) = None)
      by by apply counter_group_inside.
    rewrite match_counter_unfold, Hnone. rewrite <- app_comm_cons.
    unfold one_line in Hl. rewrite all_chars_cons in Hl.
    apply andb_true_iff in Hl as [Hc Hl].
    apply negb_true_iff in Hc. rewrite Hc.
    rewrite IH; [done|done|by eapply rstrip_fixed_cons].
Qed.

Lemma skip_spaces_split s : ∃ ws, s = ws ++ Py.skip_spaces s ∧ blank ws.
Proof.
  induction s as [|x s (ws & Hs & Hws)]; [by exists []|]. simpl.
  destruct (Py.isspace x) eqn:E.
  - exists (x :: ws). split; [by rewrite <- app_comm_cons, <- Hs|].
    unfold blank. rewrite all_chars_cons. by rewrite E.
  - by exists [].
Qed.

Lemma skip_digits_split s :
  ∃ ds, s = ds ++ Py.skip_digits s ∧ all_chars Py.isdecimal ds = true.
Proof.
  induction s as [|x s (ds & Hs & Hds)]; [by exists []|]. simpl.
  destruct (Py.isdecimal x) eqn:E.
  - exists (x :: ds). split; [by rewrite <- app_comm_cons, <- Hs|].
    rewrite all_chars_cons. by rewrite E.
  - by exists [].
Qed.

Lemma digits1_split s s' : Py.digits1 s = Some s' -> ∃ ds, s = ds ++ s' ∧ number ds.
Proof.
  destruct s as [|x s]; simpl; [done|].
  destruct (Py.isdecimal x) eqn:E; [|done]. intros [= <-].
  destruct (skip_digits_split s) as (ds & Hs & Hds).
  exists (x :: ds). split; [by rewrite <- app_comm_cons, <- Hs|].
  split; [done|]. rewrite all_chars_cons. by rewrite E.
Qed.

Lemma at_end_line_end s : Py.at_end s = true -> line_end s.
Proof.
  destruct s as [|x [|y s]]; simpl; try done.
  - by left.
  - intros H. apply N.eqb_eq in H as ->. by right.
Qed.

Lemma counter_body_split t :
  Py.counter_body t = true ->
  ∃ i n nl, t = Py.open_paren :: i ++ Py.slash :: n ++ Py.close_paren :: nl ∧
            number i ∧ number n ∧ line_end nl.
Proof.
  unfold Py.counter_body.
  destruct (Py.lit Py.open_paren t) as [s1|] eqn:E1; [|done]. apply lit_inv in E1 as ->.
  destruct (Py.digits1 s1) as [s2|] eqn:E2; [|done].
  destruct (Py.lit Py.slash s2) as [s3|] eqn:E3; [|done]. apply lit_inv in E3 as ->.
  destruct (Py.digits1 s3) as [s4|] eqn:E4; [|done].
  destruct (Py.lit Py.close_paren s4) as [s5|] eqn:E5; [|done]. apply lit_inv in E5 as ->.
  intros He.
  apply digits1_split in E2 as (i & -> & Hi). apply digits1_split in E4 as (n & -> & Hn).
  exists i, n, s5. repeat split; try done; try apply Hi; try apply Hn.
  by apply at_end_line_end.
Qed.

Lemma counter_group_split s g :
  Py.counter_group s = Some g ->
  ∃ ws i n nl, s = counter_text ws i n nl ∧ blank ws ∧ number i ∧ number n ∧ line_end nl.
Proof.
  unfold Py.counter_group. destruct (Py.counter_body _) eqn:E; [|done]. intros _.
  apply counter_body_split in E as (i & n & nl & Ht & Hi & Hn & Hnl).
  destruct (skip_spaces_split s) as (ws & Hs & Hws).
  exists ws, i, n, nl. split; [|done]. rewrite counter_text_chars. by rewrite <- Ht.
Qed.

Lemma match_counter_complete text g1 g2 :
  Py.match_counter text = Some (g1, g2) -> ends_with_counter text.
Proof.
  revert g1 g2. induction text as [|c text IH]; intros g1 g2; rewrite match_counter_unfold.
  - destruct (Py.counter_group []) eqn:E; [|done]. intros _.
    apply counter_group_split in E as (ws & i & n & nl & Hs & H).
    by exists [], ws, i, n, nl.
  - destruct (Py.counter_group (c :: text)) eqn:E.
    + intros _. apply counter_group_split in E as (ws & i & n & nl & Hs & H).
      by exists [], ws, i, n, nl.
    + destruct (N.eqb c Py.newline) eqn:Ec; [done|].
      destruct (Py.match_counter text) as [[h1 h2]|] eqn:Em; [|done]. intros _.
      destruct (IH _ _ eq_refl) as (name & ws & i & n & nl & -> & Hl & H).
      exists (c :: name), ws, i, n, nl. split; [done|]. split; [|done].
      unfold one_line in *. rewrite all_chars_cons. by rewrite Ec.
Qed.

(** A str is its [rstrip] followed by the whitespace that [rstrip] drops. *)
Lemma rstrip_split s :
  ∃ sp, s = Py.rstrip s ++ sp ∧ blank sp ∧ Py.rstrip (Py.rstrip s) = Py.rstrip s.
Proof.
  induction s as [|x s (sp & Hs & Hsp & Hrr)]; [by exists []|]. rewrite rstrip_cons.
  destruct (Py.rstrip s) as [|y r] eqn:E.
  - simpl in Hs. subst s. destruct (Py.isspace x) eqn:Ex.
    + exists (x :: sp). split; [done|]. split; [|done].
      unfold blank. rewrite all_chars_cons. by rewrite Ex.
    + exists sp. split; [done|]. split; [done|]. simpl. by rewrite Ex.
  - exists sp. split; [by rewrite <- app_comm_cons, <- Hs|]. split; [done|].
    rewrite rstrip_cons. by rewrite Hrr.
Qed.

(** Every text that ends with a counter can be cut so that the name does
    not end with whitespace. *)
Lemma ends_with_counter_normal text :
  ends_with_counter text ->
  ∃ name ws i n nl,
    text = name ++ counter_text ws i n nl ∧
    one_line name ∧ Py.rstrip name = name ∧ blank ws ∧ number i ∧ number n ∧ line_end nl.
Proof.
  intros (name & ws & i & n & nl & -> & Hl & Hws & Hi & Hn & Hnl).
  destruct (rstrip_split name) as (sp & Hs & Hsp & Hrr).
  exists (Py.rstrip name), (sp ++ ws), i, n, nl.
  split. { rewrite !counter_text_chars.
           rewrite <- (app_assoc sp ws), (app_assoc (Py.rstrip name) sp). by rewrite <- Hs. }
  split. { unfold one_line in *. rewrite Hs, all_chars_app in Hl.
           by apply andb_true_iff in Hl as [? _]. }
  split; [done|]. split; [|done].
  unfold blank in *. rewrite all_chars_app. by rewrite Hsp, Hws.
Qed.

Lemma match_counter_sound text :
  ends_with_counter text -> is_Some (Py.match_counter text).
Proof.
  intros H. apply ends_with_counter_normal in H
    as (name & ws & i & n & nl & -> & Hl & Hr & Hws & Hi & Hn & Hnl).
  rewrite match_counter_shape by done. by eexists.
Qed.

(** *** What [strip] does, in terms of the characters alone *)

Lemma lstrip_blank lead core :
  blank lead -> (∀ c, head core = Some c → Py.isspace c = false) ->
  Py.lstrip (lead ++ core) = core.
Proof.
  unfold blank. intros Hl Hc. induction lead as [|x lead IH]; simpl.
  - destruct core as [|c core]; [done|]. simpl. by rewrite (Hc c).
  - rewrite all_chars_cons in Hl. apply andb_true_iff in Hl as [-> Hl]. by apply IH.
Qed.

Lemma rstrip_blank trail : blank trail -> Py.rstrip trail = [].
Proof.
  unfold blank. induction trail as [|z tr IH]; [done|]. intros Ht.
  rewrite all_chars_cons in Ht. apply andb_true_iff in Ht as [Hz Ht].
  rewrite rstrip_cons, IH by done. by rewrite Hz.
Qed.

Lemma rstrip_last s :
  s ≠ [] -> (∀ c, last s = Some c → Py.isspace c = false) -> Py.rstrip s = s.
Proof.
  induction s as [|x s IH]; [done|]. intros _ Hl. rewrite rstrip_cons.
  destruct s as [|y s].
  - simpl. by rewrite (Hl x).
  - rewrite IH; [done|done|]. intros c Hc. apply Hl. by rewrite last_cons, Hc.
Qed.

Lemma rstrip_app_blank s trail :
  s ≠ [] -> Py.rstrip s = s -> blank trail -> Py.rstrip (s ++ trail) = s.
Proof.
  intros Hne Hs Ht. induction s as [|x s IH]; [done|].
  rewrite <- app_comm_cons, rstrip_cons.
  destruct s as [|y s].
  - simpl. rewrite rstrip_blank by done. rewrite rstrip_cons in Hs. simpl in Hs.
    by destruct (Py.isspace x).
  - rewrite IH; [done|done|by eapply rstrip_fixed_cons].
Qed.

(** [strip] drops the whitespace around a core that is trimmed. *)
Lemma strip_trimmed lead core trail :
  blank lead -> trimmed core -> blank trail -> core ≠ [] ->
  Py.strip (lead ++ core ++ trail) = core.
Proof.
  intros Hl [Hh Hla] Ht Hne. unfold Py.strip.
  assert (Hlc : lead ++ core ≠ []) by (intros H; by apply app_eq_nil in H as [_ ?]).
  rewrite app_assoc, rstrip_app_blank; [|done| |done].
  - by apply lstrip_blank; [|exact Hh].
  - apply rstrip_last; [done|].
    intros c Hc. apply Hla. rewrite last_app in Hc.
    destruct (last core) eqn:E; [done|]. by apply last_None in E.
Qed.

(** A str that [rstrip] leaves alone is whitespace and then a trimmed
    core, which is empty only when the str is. *)
Lemma trimmed_split s :
  Py.rstrip s = s ->
  ∃ lead core, s = lead ++ core ∧ blank lead ∧ trimmed core ∧ (core = [] → lead = []).
Proof.
  induction s as [|x s IH]; intros Hr.
  - exists [], []. repeat split; done.
  - destruct (Py.isspace x) eqn:Ex.
    + destruct (IH (rstrip_fixed_cons _ _ Hr)) as (lead & core & -> & Hl & Ht & Hc).
      exists (x :: lead), core. split; [done|]. split.
      { unfold blank. rewrite all_chars_cons. by rewrite Ex. }
      split; [done|]. intros ->. specialize (Hc eq_refl). subst lead.
      rewrite rstrip_cons in Hr. simpl in Hr. by rewrite Ex in Hr.
    + exists [], (x :: s). split; [done|]. split; [done|]. split; [|done].
      split; [by intros c [= <-]|].
      intros c Hc. destruct (Py.isspace c) eqn:E; [|done]. exfalso.
      clear IH Ex. revert x Hr Hc. induction s as [|y s IHs]; intros x Hr Hc.
      * injection Hc as ->. rewrite rstrip_cons in Hr. simpl in Hr.
        by rewrite E in Hr.
      * apply (IHs y); [by eapply rstrip_fixed_cons|].
        rewrite last_cons in Hc.
        destruct (last (y :: s)) eqn:El; [done|]. by apply last_None in El.
Qed.

(** *** What the formats print *)

Lemma round_half_even_nearest q :
  (Qabs (q - inject_Z (Py.round_half_even q)) <= 1 # 2)%Q.
Proof.
  destruct q as [n d]. unfold Py.round_half_even, Qle, Qabs, Qminus, Qplus, Qopp, inject_Z.
  simpl.
  pose proof (Z.div_mod n (Zpos d) ltac:(lia)) as Hdm.
  pose proof (Z.mod_pos_bound n (Zpos d) ltac:(lia)) as Hb.
  set (fl := n / Zpos d) in *. set (r := n mod Zpos d) in *.
  destruct (Z.compare_spec (2 * r) (Zpos d)); [destruct (Z.even fl)| |]; nia.
Qed.

(** The rounded value has the sign of the number. *)
Lemma round_half_even_sign q :
  (Qnum q < 0 → Py.round_half_even q <= 0) ∧ (0 <= Qnum q → 0 <= Py.round_half_even q).
Proof.
  destruct q as [n d]. unfold Py.round_half_even. simpl.
  pose proof (Z.div_mod n (Zpos d) ltac:(lia)) as Hdm.
  pose proof (Z.mod_pos_bound n (Zpos d) ltac:(lia)) as Hb.
  set (fl := n / Zpos d) in *. set (r := n mod Zpos d) in *.
  split; intros Hn.
  - destruct (Z.compare_spec (2 * r) (Zpos d)); [destruct (Z.even fl) eqn:Ev| |]; nia.
  - destruct (Z.compare_spec (2 * r) (Zpos d)); [destruct (Z.even fl)| |]; nia.
Qed.

Lemma split_point_digits u rest :
  split_point (NilEmpty.string_of_uint u +:+ rest) =
    (NilEmpty.string_of_uint u +:+ (split_point rest).1, (split_point rest).2).
Proof.
  induction u; simpl; rewrite ?IHu; try done.
  change (split_point rest = ((split_point rest).1, (split_point rest).2)).
  by destruct (split_point rest).
Qed.

(** The numeral of an int that is not negative: digits that read back as
    the int. *)
Lemma str_of_int_digits z :
  0 <= z ->
  ∃ u, Py.str_of_int z = NilEmpty.string_of_uint u ∧ u ≠ Decimal.Nil ∧
       digits_value (Py.str_of_int z) = Some z.
Proof.
  intros Hz. unfold Py.str_of_int, digits_value.
  pose proof (DecimalZ.of_to z) as Hof.
  destruct z as [|p|p]; [| |lia]; simpl in *.
  - exists (Decimal.D0 Decimal.Nil). done.
  - pose proof (Unsigned.to_uint_nonnil p) as Hnn.
    exists (Pos.to_uint p). unfold NilZero.string_of_uint.
    destruct (Pos.to_uint p) eqn:E; try done;
      (split; [done|]; split; [done|]);
      rewrite <- E; rewrite <- E in Hof;
      (replace (NilEmpty.string_of_uint (Pos.to_uint p))
         with (NilZero.string_of_uint (Pos.to_uint p))
         by (by rewrite E));
      rewrite NilZero.usu by (by rewrite E); simpl; by rewrite Hof.
Qed.

Lemma append_nil_r (s : string) : s +:+ "" = s.
Proof. induction s as [|c s IH]; [done|]. by rewrite <- IH at 2. Qed.

Lemma digits_no_sign u rest (A B : string → bool * string) s :
  u ≠ Decimal.Nil -> s = NilEmpty.string_of_uint u +:+ rest ->
  match s with
  | String c r => if Ascii.eqb c "-" then (true, r) else (false, s)
  | EmptyString => (false, s)
  end = (false, s).
Proof. intros Hu ->. by destruct u. Qed.

Lemma fixed_value_int (neg : bool) u a :
  u ≠ Decimal.Nil ->
  digits_value (NilEmpty.string_of_uint u) = Some a ->
  fixed_value ((if neg then "-" else "") +:+ NilEmpty.string_of_uint u) =
    Some (inject_Z (if neg then - a else a), 0%nat).
Proof.
  intros Hu Ha. unfold fixed_value.
  pose proof (split_point_digits u "") as Hsp. rewrite append_nil_r in Hsp.
  destruct neg.
  - change ("-" +:+ ?s) with (String "-" s). cbv beta iota.
    change (Ascii.eqb "-" "-") with true. cbv beta iota.
    rewrite Hsp. cbn [fst snd split_point]. rewrite append_nil_r, Ha. done.
  - change ("" +:+ ?s) with s.
    rewrite (digits_no_sign u "" (fun _ => (true, "")) (fun _ => (true, "")))
      by (by rewrite ?append_nil_r).
    rewrite Hsp. cbn [fst snd split_point]. rewrite append_nil_r, Ha. done.
Qed.

Lemma fixed_value_point (neg : bool) u f a b :
  u ≠ Decimal.Nil ->
  digits_value (NilEmpty.string_of_uint u) = Some a ->
  digits_value f = Some b ->
  fixed_value ((if neg then "-" else "") +:+ NilEmpty.string_of_uint u +:+ "." +:+ f) =
    Some (let v := (inject_Z a + (b # Pos.of_nat (10 ^ String.length f)))%Q in
          if neg then (- v)%Q else v, String.length f).
Proof.
  intros Hu Ha Hb. unfold fixed_value.
  pose proof (split_point_digits u ("." +:+ f)) as Hsp.
  change (split_point ("." +:+ f)) with ("", Some f) in Hsp. cbn [fst snd] in Hsp.
  rewrite append_nil_r in Hsp.
  destruct neg.
  - change ("-" +:+ ?s) with (String "-" s). cbv beta iota.
    change (Ascii.eqb "-" "-") with true. cbv beta iota.
    rewrite Hsp, Ha, Hb. done.
  - change ("" +:+ ?s) with s.
    rewrite (digits_no_sign u ("." +:+ f) (fun _ => (true, "")) (fun _ => (true, "")))
      by done.
    rewrite Hsp, Ha, Hb. done.
Qed.

(** The text of a number to no decimals reads back as the number rounded
    to the nearest int. *)
Lemma fixed_value_0f kb :
  fixed_value (Py.format_0f kb) = Some (inject_Z (Py.round_half_even kb), 0%nat).
Proof.
  unfold Py.format_0f, Py.sign_of.
  destruct (round_half_even_sign kb) as [Hneg Hpos].
  destruct (str_of_int_digits (Z.abs (Py.round_half_even kb)) ltac:(lia))
    as (u & Hu & Hnil & Hval).
  rewrite Hu in *.
  rewrite (fixed_value_int (Qnum kb <? 0) u _ Hnil Hval).
  destruct (Qnum kb <? 0) eqn:E; do 3 f_equal.
  - apply Z.ltb_lt in E. specialize (Hneg E). lia.
  - apply Z.ltb_ge in E. specialize (Hpos E). lia.
Qed.

Lemma one_digit b : 0 <= b < 10 -> String.length (Py.str_of_int b) = 1%nat.
Proof.
  intros Hb.
  assert (H : b = 0 ∨ b = 1 ∨ b = 2 ∨ b = 3 ∨ b = 4 ∨ b = 5 ∨ b = 6 ∨ b = 7 ∨ b = 8 ∨ b = 9)
    by lia.
  repeat destruct H as [-> | H]; try subst b; reflexivity.
Qed.

(** The text of a number to one decimal reads back as the number rounded
    to the nearest tenth. *)
Lemma fixed_value_1f kb :
  ∃ v, fixed_value (Py.format_1f kb) = Some (v, 1%nat) ∧
       (v == Py.round_half_even (kb * (10 # 1)) # 10)%Q.
Proof.
  unfold Py.format_1f, Py.sign_of.
  destruct (round_half_even_sign (kb * (10 # 1))) as [Hneg Hpos].
  set (n := Py.round_half_even (kb * (10 # 1))) in *.
  assert (Hsign : Qnum (kb * (10 # 1)) = Qnum kb * 10) by (by destruct kb).
  rewrite Hsign in Hneg, Hpos.
  pose proof (Z.div_mod (Z.abs n) 10 ltac:(lia)) as Hdm.
  pose proof (Z.mod_pos_bound (Z.abs n) 10 ltac:(lia)) as Hmb.
  assert (Hq : 0 <= Z.abs n / 10) by (apply Z.div_pos; lia).
  destruct (str_of_int_digits (Z.abs n / 10) Hq) as (u & Hu & Hnil & Hval).
  destruct (str_of_int_digits (Z.abs n mod 10) ltac:(lia)) as (u' & _ & _ & Hval').
  pose proof (one_digit (Z.abs n mod 10) Hmb) as Hlen.
  cbv zeta. rewrite Hu in *.
  rewrite (fixed_value_point (Qnum kb <? 0) u _ _ _ Hnil Hval Hval'). rewrite Hlen.
  eexists. split; [reflexivity|]. cbv zeta.
  change (Pos.of_nat (10 ^ 1)) with 10%positive.
  destruct (Qnum kb <? 0) eqn:E.
  - apply Z.ltb_lt in E. unfold Qeq, Qopp, Qplus, inject_Z. simpl. lia.
  - apply Z.ltb_ge in E. unfold Qeq, Qplus, inject_Z. simpl. lia.
Qed.

Lemma tenth_nearest kb v :
  (v == Py.round_half_even (kb * (10 # 1)) # 10)%Q -> (Qabs (kb - v) <= 1 # 20)%Q.
Proof.
  intros Hv. pose proof (round_half_even_nearest (kb * (10 # 1))) as Hr.
  set (n := Py.round_half_even (kb * (10 # 1))) in *.
  rewrite Hv. apply Qabs_Qle_condition in Hr as [Hr1 Hr2].
  apply Qabs_Qle_condition. destruct kb as [p q].
  unfold Qle, Qminus, Qplus, Qopp, Qmult, inject_Z in *. simpl in *. split; lia.
Qed.

(** C10, as stated, fails for [MainWindow]: for "a.jpg (1/2)" the size
    is followed by two spaces, not one; a text of two lines that ends with
    " (1/2)" gets the size appended, not inserted; and "a(1/2)", whose
    counter has no space before it, gets the size inserted. *)
Lemma tk_status_line_differs_from_plain_insertion :
  Tk.status_line "a.jpg (1/2)" (Some (12 # 1)) = "a.jpg [12 KB]  (1/2)" ∧
  Tk.status_line (Py.text "a" ++ [Py.newline] ++ Py.text "b (1/2)") (Some (12 # 1)) =
    Py.text "a" ++ [Py.newline] ++ Py.text "b (1/2) [12 KB]" ∧
  Tk.status_line "a(1/2)" (Some (12 # 1)) = "a [12 KB] (1/2)".
Proof. vm_compute. done. Qed.

(** C10, amended.  Without a size both front-ends show the text as
    given.  [DearPyGuiView] appends " [N.N KB]".  [MainWindow]: when the
    text is a one-line name, then whitespace (possibly none), then "(i/n)"
    with i and n decimal numbers, possibly followed by one line feed, the
    status is the name without the whitespace around it, " [N KB]", a
    space, and the whitespace and counter as they were (when there is no
    name, the whitespace that starts the text counts with the counter);
    any other text gets " [N KB]" appended.  Every text that ends with
    such a counter can be cut that way.  " [N KB]" and " [N.N KB]" read
    back as the size rounded to the nearest int and to the nearest
    tenth. *)
Theorem update_status_formats :
  (∀ text, Tk.status_line text None = text ∧ App.status_line text None = text) ∧
  (∀ text kb,
     App.status_line text (Some kb) = text ++ Py.text (" [" +:+ Py.format_1f kb +:+ " KB]")) ∧
  (∀ lead core ws i n nl kb,
     blank lead → trimmed core → (core = [] → lead = []) → one_line (lead ++ core) →
     blank ws → number i → number n → line_end nl →
     Tk.status_line (lead ++ core ++ counter_text ws i n nl) (Some kb) =
       core ++ Py.text (" [" +:+ Py.format_0f kb +:+ " KB]") ++ Py.text " " ++
       counter_text ws i n []) ∧
  (∀ text kb,
     ¬ ends_with_counter text →
     Tk.status_line text (Some kb) = text ++ Py.text (" [" +:+ Py.format_0f kb +:+ " KB]")) ∧
  (∀ text,
     ends_with_counter text →
     ∃ lead core ws i n nl,
       text = lead ++ core ++ counter_text ws i n nl ∧
       blank lead ∧ trimmed core ∧ (core = [] → lead = []) ∧ one_line (lead ++ core) ∧
       blank ws ∧ number i ∧ number n ∧ line_end nl) ∧
  (∀ kb, ∃ v0 v1,
     fixed_value (Py.format_0f kb) = Some (v0, 0%nat) ∧ (Qabs (kb - v0) <= 1 # 2)%Q ∧
     fixed_value (Py.format_1f kb) = Some (v1, 1%nat) ∧ (Qabs (kb - v1) <= 1 # 20)%Q).
Proof.
  split; [done|]. split; [done|]. split; [|split; [|split]].
  - intros lead core ws i n nl kb Hlead Hcore Hnil Hl Hws Hi Hn Hnl.
    unfold Tk.status_line. rewrite app_assoc.
    assert (Hr : Py.rstrip (lead ++ core) = lead ++ core).
    { destruct core as [|c core]; [by rewrite (Hnil eq_refl)|].
      apply rstrip_last; [by destruct lead|].
      intros x Hx. apply Hcore. rewrite last_app in Hx.
      destruct (last (c :: core)) eqn:E; [done|]. by apply last_None in E. }
    rewrite match_counter_shape by done. cbv zeta.
    assert (Hs : Py.strip (lead ++ core) = core).
    { destruct core as [|c core]; [by rewrite (Hnil eq_refl)|].
      rewrite <- (app_nil_r (c :: core)) at 1. by apply strip_trimmed. }
    by rewrite Hs.
  - intros text kb Hno. unfold Tk.status_line.
    destruct (Py.match_counter text) as [[g1 g2]|] eqn:E; [|done].
    destruct Hno. by eapply match_counter_complete.
  - intros text H. apply ends_with_counter_normal in H
      as (name & ws & i & n & nl & -> & Hl & Hr & Hws & Hi & Hn & Hnl).
    destruct (trimmed_split name Hr) as (lead & core & -> & Hlead & Hcore & Hnil).
    exists lead, core, ws, i, n, nl. by rewrite <- app_assoc.
  - intros kb. destruct (fixed_value_1f kb) as (v1 & Hv1 & Heq).
    exists (inject_Z (Py.round_half_even kb)), v1.
    split; [apply fixed_value_0f|]. split; [apply round_half_even_nearest|].
    split; [done|]. by apply tenth_nearest.
Qed.

Lemma update_status_formats_witness :
  Tk.status_line (Py.text " " ++ Py.text "photo (1).jpg" ++ counter_text " " "3" "10" [])
    (Some (1234 # 100)) = "photo (1).jpg [12 KB]  (3/10)" ∧
  Tk.status_line "No images" (Some (5 # 2)) = "No images [2 KB]".
Proof.
  destruct update_status_formats as (_ & _ & Hins & Happ & _). split.
  - rewrite (Hins " " "photo (1).jpg" " " "3" "10" [] (1234 # 100)).
    + vm_compute. reflexivity.
    + vm_compute. reflexivity.
    + split; intros c; vm_compute; intros [= <-]; reflexivity.
    + discriminate.
    + vm_compute. reflexivity.
    + vm_compute. reflexivity.
    + split; [discriminate | vm_compute; reflexivity].
    + split; [discriminate | vm_compute; reflexivity].
    + left. reflexivity.
  - rewrite (Happ "No images" (5 # 2)).
    + vm_compute. reflexivity.
    + intros H. apply match_counter_sound in H. revert H. vm_compute.
      intros [x Hx]. discriminate Hx.
Defined.

(** Whitespace and digits are those of Unicode: a no-break space before
    the counter and Arabic-Indic digits in it are matched like a space and
    ASCII digits, and an ideographic space around the name is stripped. *)
Example status_line_beyond_ascii :
  Tk.status_line ([0x61; 0xA0] ++ Py.text "(1/2)")%N (Some (12 # 1)) =
    (Py.text "a [12 KB] " ++ [0xA0] ++ Py.text "(1/2)")%N ∧
  Tk.status_line (Py.text "a (" ++ [0x661] ++ Py.text "/" ++ [0x662] ++ Py.text ")")%N
      (Some (12 # 1)) =
    (Py.text "a [12 KB]  (" ++ [0x661] ++ Py.text "/" ++ [0x662] ++ Py.text ")")%N ∧
  Tk.status_line ([0x3000; 0x61; 0x3000] ++ Py.text "(1/2)")%N (Some (12 # 1)) =
    (Py.text "a [12 KB] " ++ [0x3000] ++ Py.text "(1/2)")%N ∧
  Tk.status_line (Py.text "a (" ++ [0xB2] ++ Py.text "/2)")%N (Some (12 # 1)) =
    (Py.text "a (" ++ [0xB2] ++ Py.text "/2) [12 KB]")%N.
Proof. vm_compute. done. Qed.

(** The formats on numbers that lie halfway: ties go to the even digit,
    and a negative number that rounds to zero keeps its sign. *)
Example formats_round_half_even :
  Py.format_0f (5 # 2) = "2" ∧ Py.format_0f (7 # 2) = "4" ∧
  Py.format_1f (1 # 4) = "0.2" ∧ Py.format_1f (3 # 4) = "0.8" ∧
  Py.format_1f (1234 # 100) = "12.3" ∧ Py.format_1f (- (1 # 100)) = "-0.0".
Proof. vm_compute. done. Qed.

(** *** The category configuration dialog (C3) *)

Ltac str_ne :=
  let H := fresh in
  intros H; injection H as H; cbv [String.append] in H; discriminate H.

Ltac int_ne :=
  let H := fresh in intros H; injection H as H; lia.

Lemma dialog_tags_NoDup idx on_result w : NoDup (dialog_tags (dialog_of idx on_result w)).
Proof.
  unfold dialog_tags, dialog_of. simpl.
  repeat (apply NoDup_cons; split;
          [ rewrite ?not_elem_of_cons; repeat split;
            first [ apply not_elem_of_nil | discriminate | int_ne | str_ne ] | ]).
  apply NoDup_nil_2.
Qed.

Lemma tags_ne d (i j : nat) a b :
  NoDup (dialog_tags d) ->
  dialog_tags d !! i = Some a -> dialog_tags d !! j = Some b -> i ≠ j -> a ≠ b.
Proof. intros Hd Hi Hj Hne ->. apply Hne. by eapply NoDup_lookup. Qed.

Ltac tag_index t :=
  match t with
  | cfg_window_id _ => constr:(0%nat)
  | cfg_name_id _ => constr:(1%nat)
  | dt_group1 _ => constr:(2%nat)
  | cfg_folder_id _ => constr:(3%nat)
  | dt_browse _ => constr:(4%nat)
  | dt_group2 _ => constr:(5%nat)
  | cfg_ok_id _ => constr:(6%nat)
  | dt_cancel _ => constr:(7%nat)
  | dt_delete _ => constr:(8%nat)
  end.

Ltac distinct :=
  match goal with
  | H : NoDup (dialog_tags ?d) |- ?a ≠ ?b =>
      let i := tag_index a in
      let j := tag_index b in
      exact (tags_ne d i j a b H eq_refl eq_refl ltac:(lia))
  end.

Ltac lookup_dialog :=
  match goal with
  | |- context [ <[?k := ?x]> ?m !! ?k ] => rewrite (lookup_insert_eq m k x)
  | |- context [ <[?k := ?x]> ?m !! ?j ] => rewrite (lookup_insert_ne m k j x) by distinct
  | H : ?m !! ?k = _ |- context [ ?m !! ?k ] => rewrite H
  end.

Lemma rstrip_nil_iff s : Py.rstrip s = [] ↔ all_chars Py.isspace s = true.
Proof.
  induction s as [|c s IH]; [done|]. rewrite rstrip_cons, all_chars_cons.
  destruct (Py.rstrip s) as [|y r] eqn:E.
  - destruct (Py.isspace c); simpl; [tauto|]. split; done.
  - split; [done|]. rewrite andb_true_iff. intros [_ H]. by apply IH in H.
Qed.

Lemma lstrip_nil_iff s : Py.lstrip s = [] ↔ all_chars Py.isspace s = true.
Proof.
  induction s as [|c s IH]; [done|]. cbn [Py.lstrip]. rewrite all_chars_cons.
  destruct (Py.isspace c); simpl; [done|]. split; done.
Qed.

Lemma rstrip_keeps_blank s :
  all_chars Py.isspace (Py.rstrip s) = all_chars Py.isspace s.
Proof.
  induction s as [|c s IH]; [done|]. rewrite rstrip_cons, all_chars_cons.
  destruct (Py.rstrip s) as [|y r] eqn:E.
  - rewrite <- IH. destruct (Py.isspace c) eqn:Ec; [done|]. simpl. by rewrite Ec.
  - rewrite all_chars_cons. by rewrite IH.
Qed.

(** A str is empty once stripped exactly when all its characters are
    whitespace. *)
Lemma truthy_strip s : Py.truthy (Py.strip s) = negb (all_chars Py.isspace s).
Proof.
  unfold Py.strip. rewrite <- (rstrip_keeps_blank s).
  destruct (all_chars Py.isspace (Py.rstrip s)) eqn:E.
  - apply lstrip_nil_iff in E. by rewrite E.
  - destruct (Py.lstrip (Py.rstrip s)) eqn:El; [|done].
    apply lstrip_nil_iff in El. congruence.
Qed.

(** The two fields are read back and the Save button follows them. *)
Lemma update_ok_state_open d nm pth w nit fit okit :
  NoDup (dialog_tags d) ->
  items (dpg w) !! cfg_name_id (dt_scope d) = Some nit -> value nit = StrValue nm ->
  items (dpg w) !! cfg_folder_id (dt_scope d) = Some fit -> value fit = StrValue pth ->
  items (dpg w) !! cfg_ok_id (dt_scope d) = Some okit ->
  _update_ok_state (dt_scope d) w =
    Done (set_dpg (set_items (<[cfg_ok_id (dt_scope d) :=
                                 with_enabled (save_enabled nm pth) okit]> (items (dpg w)))
                     (dpg w)) w).
Proof.
  intros Hd Hn Hnv Hf Hfv Hok. unfold _update_ok_state, get_str.
  rewrite Hn, Hnv, Hf, Hfv. unfold dpg_call, update_item. rewrite Hok.
  unfold save_enabled. by rewrite !truthy_strip.
Qed.

Lemma visible_of t c it :
  items c !! t = Some it -> show it = true ->
  Forall (fun a => ∃ ait, items c !! a = Some ait ∧ show ait = true) (ancestors it) ->
  visible t c = true.
Proof.
  intros Hit Hs Ha. unfold visible. rewrite Hit, Hs. simpl.
  apply forallb_forall. intros a Hin. rewrite Forall_forall in Ha.
  apply list_elem_of_In in Hin. destruct (Ha a Hin) as (ait & -> & ->). done.
Qed.

Section Steps.
Variable d : DialogTags.
Variable env : Behaviour.

Lemma visible_name nm pth w : dialog_open d nm pth w ->
  visible (cfg_name_id (dt_scope d)) (dpg w) = true.
Proof.
  intros [Hd Hv Hm (wit & Hw & [])  (nit & Hn & []) _ _ _ _ _ _ _].
  eapply visible_of; [done|done|]. rewrite io_ancestors0.
  repeat constructor. by exists wit.
Qed.

Lemma visible_in_group1 nm pth w t it : dialog_open d nm pth w ->
  items (dpg w) !! t = Some it -> show it = true ->
  ancestors it = [dt_group1 d; cfg_window_id (dt_scope d)] ->
  visible t (dpg w) = true.
Proof.
  intros [Hd Hv Hm (wit & Hw & []) _ (git & Hg & []) _ _ _ _ _ _] Hit Hs Ha.
  eapply visible_of; [done|done|]. rewrite Ha.
  repeat constructor; by eexists.
Qed.

Lemma visible_in_group2 nm pth w t it : dialog_open d nm pth w ->
  items (dpg w) !! t = Some it -> show it = true ->
  ancestors it = [dt_group2 d; cfg_window_id (dt_scope d)] ->
  visible t (dpg w) = true.
Proof.
  intros [Hd Hv Hm (wit & Hw & []) _ _ _ _ (git & Hg & []) _ _ _] Hit Hs Ha.
  eapply visible_of; [done|done|]. rewrite Ha.
  repeat constructor; by eexists.
Qed.

(** Changing the value of one field and the state of the Save button
    keeps the dialog open, with the new value in the field. *)
Lemma dialog_open_retype_name nm pth s w w' nit okit :
  dialog_open d nm pth w ->
  items (dpg w) !! cfg_name_id (dt_scope d) = Some nit ->
  items (dpg w) !! cfg_ok_id (dt_scope d) = Some okit ->
  self w' = self w ->
  items (dpg w') =
    <[cfg_ok_id (dt_scope d) := with_enabled (save_enabled s pth) okit]>
      (<[cfg_name_id (dt_scope d) := with_value (StrValue s) nit]> (items (dpg w))) ->
  dialog_open d s pth w'.
Proof.
  intros [Hd Hv Hm (wit & Hw & Hwo) (nit' & Hn & Hno) (g1 & Hg1 & Hg1o) (fit & Hf & Hfo)
          (bit & Hb & Hbo) (g2 & Hg2 & Hg2o) (okit' & Hok & Hoko) (cit & Hc & Hco)
          (dit & Hdl & Hdo)] Hn' Hok' Hself Hitems.
  assert (nit' = nit) as -> by congruence. assert (okit' = okit) as -> by congruence.
  split; try done; rewrite ?Hself, ?Hitems; try done.
  - exists wit. by repeat lookup_dialog.
  - eexists. repeat lookup_dialog. split; [done|]. destruct Hno. by split.
  - exists g1. by repeat lookup_dialog.
  - exists fit. by repeat lookup_dialog.
  - exists bit. by repeat lookup_dialog.
  - exists g2. by repeat lookup_dialog.
  - eexists. repeat lookup_dialog. split; [done|]. destruct Hoko. by split.
  - exists cit. by repeat lookup_dialog.
  - exists dit. by repeat lookup_dialog.
Qed.

Lemma dialog_open_retype_folder nm pth s w w' fit okit :
  dialog_open d nm pth w ->
  items (dpg w) !! cfg_folder_id (dt_scope d) = Some fit ->
  items (dpg w) !! cfg_ok_id (dt_scope d) = Some okit ->
  self w' = self w ->
  items (dpg w') =
    <[cfg_ok_id (dt_scope d) := with_enabled (save_enabled nm s) okit]>
      (<[cfg_folder_id (dt_scope d) := with_value (StrValue s) fit]> (items (dpg w))) ->
  dialog_open d nm s w'.
Proof.
  intros [Hd Hv Hm (wit & Hw & Hwo) (nit & Hn & Hno) (g1 & Hg1 & Hg1o) (fit' & Hf & Hfo)
          (bit & Hb & Hbo) (g2 & Hg2 & Hg2o) (okit' & Hok & Hoko) (cit & Hc & Hco)
          (dit & Hdl & Hdo)] Hf' Hok' Hself Hitems.
  assert (fit' = fit) as -> by congruence. assert (okit' = okit) as -> by congruence.
  split; try done; rewrite ?Hself, ?Hitems; try done.
  - exists wit. by repeat lookup_dialog.
  - exists nit. by repeat lookup_dialog.
  - exists g1. by repeat lookup_dialog.
  - eexists. repeat lookup_dialog. split; [done|]. destruct Hfo. by split.
  - exists bit. by repeat lookup_dialog.
  - exists g2. by repeat lookup_dialog.
  - eexists. repeat lookup_dialog. split; [done|]. destruct Hoko. by split.
  - exists cit. by repeat lookup_dialog.
  - exists dit. by repeat lookup_dialog.
Qed.


Lemma step_type_name nm pth s w :
  dialog_open d nm pth w ->
  dialog_open d s pth (dialog_event env d (type_name s) w) ∧
  log (dialog_event env d (type_name s) w) = log w ∧
  directory_answers (dialog_event env d (type_name s) w) = directory_answers w.
Proof.
  intros Hopen. pose proof (visible_name _ _ _ Hopen) as Hvis.
  pose proof Hopen as
    [Hd Hv Hm _ (nit & Hn & Hno) _ (fit & Hf & Hfo) _ _ (okit & Hok & Hoko) _ _].
  unfold dialog_event, ui_type. rewrite Hn, Hvis.
  destruct Hno as [Hk He Hs Ha Hc Hval]. rewrite He, Hk, Hc.
  rewrite bool_decide_eq_true_2 by done. simpl.
  unfold dispatch. simpl.
  erewrite (update_ok_state_open d s pth); simpl;
    [ | done | apply lookup_insert_eq | done
      | rewrite lookup_insert_ne by distinct; exact Hf | apply Hfo
      | rewrite lookup_insert_ne by distinct; exact Hok ].
  simpl. split; [|done].
  eapply dialog_open_retype_name; [exact Hopen|exact Hn|exact Hok|done|done].
Qed.

Lemma step_type_folder nm pth s w :
  dialog_open d nm pth w ->
  dialog_open d nm s (dialog_event env d (type_folder s) w) ∧
  log (dialog_event env d (type_folder s) w) = log w ∧
  directory_answers (dialog_event env d (type_folder s) w) = directory_answers w.
Proof.
  intros Hopen.
  pose proof Hopen as
    [Hd Hv Hm _ (nit & Hn & Hno) _ (fit & Hf & Hfo) _ _ (okit & Hok & Hoko) _ _].
  destruct Hfo as [Hk He Hs Ha Hc Hval].
  pose proof (visible_in_group1 _ _ _ _ _ Hopen Hf Hs Ha) as Hvis.
  unfold dialog_event, ui_type. rewrite Hf, Hvis. rewrite He, Hk, Hc.
  rewrite bool_decide_eq_true_2 by done. simpl.
  unfold dispatch. simpl.
  erewrite (update_ok_state_open d nm s); simpl;
    [ | done | rewrite lookup_insert_ne by distinct; exact Hn | apply Hno
      | apply lookup_insert_eq | done
      | rewrite lookup_insert_ne by distinct; exact Hok ].
  simpl. split; [|done].
  eapply dialog_open_retype_folder; [exact Hopen|exact Hf|exact Hok|done|done].
Qed.

Lemma step_click_browse nm pth w :
  dialog_open d nm pth w ->
  dialog_open d nm (picked (directory_answers w) pth)
    (dialog_event env d click_browse w) ∧
  calls (log (dialog_event env d click_browse w)) = calls (log w) ∧
  directory_answers (dialog_event env d click_browse w) = tail (directory_answers w).
Proof.
  intros Hopen.
  pose proof Hopen as
    [Hd Hv Hm Hwin (nit & Hn & Hno) Hg1 (fit & Hf & Hfo) (bit & Hb & Hbo) Hg2
     (okit & Hok & Hoko) Hcan Hdel].
  destruct Hbo as [He Hs Ha Hc].
  pose proof (visible_in_group1 _ _ _ _ _ Hopen Hb Hs Ha) as Hvis.
  unfold dialog_event, ui_click. rewrite Hb, Hvis, He, Hc. simpl.
  unfold dispatch. simpl. unfold _on_browse, askdirectory.
  destruct (directory_answers w) as [|a rest] eqn:Hans; simpl.
  - rewrite Hans. simpl. split; [|by rewrite calls_app, app_nil_r].
    destruct Hopen. by split.
  - rewrite Hans. destruct (Py.truthy a) eqn:Ha'.
    + unfold and_then, dpg_call, update_item. simpl. rewrite Hf. simpl.
      erewrite (update_ok_state_open d nm a); simpl;
        [ | done | rewrite lookup_insert_ne by distinct; exact Hn | apply Hno
          | apply lookup_insert_eq | done
          | rewrite lookup_insert_ne by distinct; exact Hok ].
      simpl. split; [|by rewrite calls_app, app_nil_r].
      eapply dialog_open_retype_folder; [exact Hopen|exact Hf|exact Hok|done|done].
    + simpl. split; [|by rewrite calls_app, app_nil_r].
      destruct Hopen. by split.
Qed.

(** Deleting the window of the dialog closes it, in every context that
    holds the items of the dialog as they are. *)
Lemma delete_window_closes nm pth w c :
  dialog_open d nm pth w ->
  (∀ t, t ∈ dialog_tags d → items c !! t = items (dpg w) !! t) ->
  ∃ c', delete_item (cfg_window_id (dt_scope d)) false c = Some c' ∧
        ∀ t, t ∈ dialog_tags d → items c' !! t = None.
Proof.
  intros [Hd Hv Hm (wit & Hw & Hwo) (nit & Hn & Hno) (g1 & Hg1 & Hg1o) (fit & Hf & Hfo)
          (bit & Hb & Hbo) (g2 & Hg2 & Hg2o) (okit & Hok & Hoko) (cit & Hc & Hco)
          (dit & Hdl & Hdo)] Hsame.
  assert (Hin : ∀ t, t ∈ dialog_tags d ↔
            t = cfg_window_id (dt_scope d) ∨ t = cfg_name_id (dt_scope d) ∨
            t = dt_group1 d ∨ t = cfg_folder_id (dt_scope d) ∨ t = dt_browse d ∨
            t = dt_group2 d ∨ t = cfg_ok_id (dt_scope d) ∨ t = dt_cancel d ∨
            t = dt_delete d).
  { intros t. unfold dialog_tags. rewrite !elem_of_cons, elem_of_nil. tauto. }
  unfold delete_item. rewrite (Hsame (cfg_window_id (dt_scope d))), Hw by (apply Hin; tauto).
  eexists. split; [reflexivity|]. simpl.
  assert (Hgone : ∀ t it, t ∈ dialog_tags d → items (dpg w) !! t = Some it →
            cfg_window_id (dt_scope d) ∈ ancestors it →
            delete (cfg_window_id (dt_scope d))
              (filter (λ e, ¬ below (cfg_window_id (dt_scope d)) e) (items c)) !! t = None).
  { intros t' it Ht Hit Hanc. apply lookup_delete_None. right.
    apply map_lookup_filter_None. right. intros it' Hit'. simpl.
    rewrite (Hsame t' Ht) in Hit'.
    assert (it' = it) as -> by congruence. unfold below. simpl. tauto. }
  intros t Ht. pose proof Ht as Ht'. apply Hin in Ht'.
  destruct Ht' as [->|[->|[->|[->|[->|[->|[->|[->| ->]]]]]]]].
  - apply lookup_delete_eq.
  - eapply Hgone; [done|done|]. destruct Hno as [_ _ _ -> _ _]. rewrite !elem_of_cons; auto.
  - eapply Hgone; [done|done|]. destruct Hg1o as [_ ->]. rewrite !elem_of_cons; auto.
  - eapply Hgone; [done|done|]. destruct Hfo as [_ _ _ -> _ _]. rewrite !elem_of_cons; auto.
  - eapply Hgone; [done|done|]. destruct Hbo as [_ _ -> _]. rewrite !elem_of_cons; auto.
  - eapply Hgone; [done|done|]. destruct Hg2o as [_ ->]. rewrite !elem_of_cons; auto.
  - eapply Hgone; [done|done|]. destruct Hoko as [_ _ -> _]. rewrite !elem_of_cons; auto.
  - eapply Hgone; [done|done|]. destruct Hco as [_ _ -> _]. rewrite !elem_of_cons; auto.
  - eapply Hgone; [done|done|]. destruct Hdo as [_ _ -> _]. rewrite !elem_of_cons; auto.
Qed.

Hypothesis Henv : returns_quietly env (cfg_callback (dt_scope d)) (dialog_tags d).

(** A terminal action: the callback is called with [r] and returns, the
    modal flag is cleared, the window goes. *)
Lemma terminal_action nm pth w r :
  dialog_open d nm pth w ->
  ∃ w', (invoke env (cfg_callback (dt_scope d)) (ResultArg r) >>
         _set_modal_state (cfg_view (dt_scope d)) false >>
         dpg_call (delete_item (cfg_window_id (dt_scope d)) false)) w = Done w' ∧
        calls (log w') = calls (log w) ++ [Call (cfg_callback (dt_scope d)) (ResultArg r)] ∧
        _modal_open (self w') = false ∧ dialog_closed d w'.
Proof.
  intros Hopen.
  destruct (Henv (ResultArg r) (record (Call (cfg_callback (dt_scope d)) (ResultArg r)) w))
    as (w1 & Hrun & Hsame & Hcalls).
  destruct (delete_window_closes _ _ _ (dpg w1) Hopen Hsame) as (c & Hc & Hgone).
  destruct Hopen as [Hd Hv _ _ _ _ _ _ _ _ _ _].
  unfold and_then, invoke, _set_modal_state. rewrite Hrun, Hv.
  unfold set_modal_open, update_self, pure, dpg_call. simpl. rewrite Hc.
  eexists. split; [reflexivity|]. simpl. rewrite Hcalls.
  unfold record. simpl. rewrite calls_app. done.
Qed.

Lemma step_click_save_enabled nm pth w :
  dialog_open d nm pth w -> save_enabled nm pth = true ->
  let w' := dialog_event env d click_save w in
  calls (log w') = calls (log w) ++ [Call (cfg_callback (dt_scope d))
                       (ResultArg {| action := "save"; idx := cfg_idx (dt_scope d);
                                     name := Some nm; path := Some pth |})] ∧
  _modal_open (self w') = false ∧ dialog_closed d w'.
Proof.
  intros Hopen Hen.
  pose proof Hopen as
    [Hd Hv Hm Hwin (nit & Hn & Hno) Hg1 (fit & Hf & Hfo) _ Hg2
     (okit & Hok & Hoko) Hcan Hdel].
  destruct Hoko as [He Hs Ha Hc].
  pose proof (visible_in_group2 _ _ _ _ _ Hopen Hok Hs Ha) as Hvis.
  unfold dialog_event, ui_click. rewrite Hok, Hvis, He, Hen, Hc. simpl.
  unfold dispatch. simpl. unfold _on_ok.
  assert (Hgn : get_str (cfg_name_id (dt_scope d)) w = Some nm).
  { unfold get_str. rewrite Hn. by destruct Hno as [_ _ _ _ _ ->]. }
  assert (Hgf : get_str (cfg_folder_id (dt_scope d)) w = Some pth).
  { unfold get_str. rewrite Hf. by destruct Hfo as [_ _ _ _ _ ->]. }
  destruct (terminal_action nm pth w
              {| action := "save"; idx := cfg_idx (dt_scope d);
                 name := Some nm; path := Some pth |} Hopen) as (w' & Hrun & Hlog & Hmod & Hcl).
  unfold and_then in *. rewrite Hgn, Hgf. rewrite Hrun. done.
Qed.

Lemma step_click_save_disabled nm pth w :
  dialog_open d nm pth w -> save_enabled nm pth = false ->
  dialog_event env d click_save w = w.
Proof.
  intros [_ _ _ _ _ _ _ _ _ (okit & Hok & [He _ _ _]) _ _] Hen.
  unfold dialog_event, ui_click. rewrite Hok, He, Hen. by rewrite andb_false_r.
Qed.

Lemma step_click_cancel nm pth w :
  dialog_open d nm pth w ->
  let w' := dialog_event env d click_cancel w in
  calls (log w') = calls (log w) ++ [Call (cfg_callback (dt_scope d))
                       (ResultArg {| action := "cancel"; idx := cfg_idx (dt_scope d);
                                     name := None; path := None |})] ∧
  _modal_open (self w') = false ∧ dialog_closed d w'.
Proof.
  intros Hopen.
  pose proof Hopen as [_ _ _ _ _ _ _ _ _ _ (cit & Hc & [He Hs Ha Hcb]) _].
  pose proof (visible_in_group2 _ _ _ _ _ Hopen Hc Hs Ha) as Hvis.
  unfold dialog_event, ui_click. rewrite Hc, Hvis, He, Hcb. simpl.
  unfold dispatch. simpl. unfold _on_cancel.
  destruct (terminal_action nm pth w
              {| action := "cancel"; idx := cfg_idx (dt_scope d);
                 name := None; path := None |} Hopen) as (w' & Hrun & Hlog & Hmod & Hcl).
  rewrite Hrun. done.
Qed.

Lemma step_click_delete nm pth w :
  dialog_open d nm pth w ->
  let w' := dialog_event env d click_delete w in
  calls (log w') = calls (log w) ++ [Call (cfg_callback (dt_scope d))
                       (ResultArg {| action := "delete"; idx := cfg_idx (dt_scope d);
                                     name := None; path := None |})] ∧
  _modal_open (self w') = false ∧ dialog_closed d w'.
Proof.
  intros Hopen.
  pose proof Hopen as [_ _ _ _ _ _ _ _ _ _ _ (cit & Hc & [He Hs Ha Hcb])].
  pose proof (visible_in_group2 _ _ _ _ _ Hopen Hc Hs Ha) as Hvis.
  unfold dialog_event, ui_click. rewrite Hc, Hvis, He, Hcb. simpl.
  unfold dispatch. simpl. unfold _on_delete.
  destruct (terminal_action nm pth w
              {| action := "delete"; idx := cfg_idx (dt_scope d);
                 name := None; path := None |} Hopen) as (w' & Hrun & Hlog & Hmod & Hcl).
  rewrite Hrun. done.
Qed.

(** Once the dialog is gone no event on its widgets does anything. *)
Lemma closed_event ev w : dialog_closed d w -> dialog_event env d ev w = w.
Proof.
  intros Hcl. unfold dialog_closed, dialog_tags in Hcl.
  destruct ev; unfold dialog_event, ui_type, ui_click; rewrite Hcl; try done;
    set_solver.
Qed.

Lemma closed_run evs w : dialog_closed d w -> run_dialog env d evs w = w.
Proof.
  intros Hcl. induction evs as [|ev evs IH]; [done|].
  unfold run_dialog in *. simpl. by rewrite closed_event.
Qed.

Lemma run_dialog_cons ev evs w :
  run_dialog env d (ev :: evs) w = run_dialog env d evs (dialog_event env d ev w).
Proof. reflexivity. Qed.

(** While the user has taken no terminal action the dialog stays open
    and no callback is called, whatever the callbacks would do. *)
Lemma run_dialog_undecided evs : ∀ nm pth w,
  dialog_open d nm pth w ->
  reported (cfg_idx (dt_scope d)) nm pth (directory_answers w) evs = None ->
  calls (log (run_dialog env d evs w)) = calls (log w) ∧
  ∃ nm' pth', dialog_open d nm' pth' (run_dialog env d evs w).
Proof.
  induction evs as [|ev evs IH]; intros nm pth w Hopen Hrep.
  - simpl. split; [done|]. by exists nm, pth.
  - rewrite run_dialog_cons. destruct ev; cbn [reported] in Hrep; try done.
    + destruct (step_type_name nm pth s w Hopen) as (Ho & Hl & Ha).
      rewrite <- Ha in Hrep. destruct (IH s pth _ Ho Hrep) as [Hc Hd].
      split; [by rewrite Hc, Hl|done].
    + destruct (step_type_folder nm pth s w Hopen) as (Ho & Hl & Ha).
      rewrite <- Ha in Hrep. destruct (IH nm s _ Ho Hrep) as [Hc Hd].
      split; [by rewrite Hc, Hl|done].
    + destruct (step_click_browse nm pth w Hopen) as (Ho & Hl & Ha).
      assert (Hrep' : reported (cfg_idx (dt_scope d)) nm
                        (picked (directory_answers w) pth)
                        (directory_answers (dialog_event env d click_browse w)) evs = None).
      { rewrite Ha. by destruct (directory_answers w). }
      destruct (IH nm _ _ Ho Hrep') as [Hc Hd]. split; [by rewrite Hc, Hl|done].
    + destruct (save_enabled nm pth) eqn:Hen; [done|].
      rewrite (step_click_save_disabled nm pth) by done. by apply (IH nm pth).
Qed.

(** The events of the user against the dialog as the specification words
    it. *)
Lemma run_dialog_reported evs : ∀ nm pth w,
  dialog_open d nm pth w ->
  match reported (cfg_idx (dt_scope d)) nm pth (directory_answers w) evs with
  | Some r =>
      calls (log (run_dialog env d evs w)) =
        calls (log w) ++ [Call (cfg_callback (dt_scope d)) (ResultArg r)] ∧
      _modal_open (self (run_dialog env d evs w)) = false ∧
      dialog_closed d (run_dialog env d evs w)
  | None =>
      calls (log (run_dialog env d evs w)) = calls (log w) ∧
      ∃ nm' pth', dialog_open d nm' pth' (run_dialog env d evs w)
  end.
Proof.
  induction evs as [|ev evs IH]; intros nm pth w Hopen.
  - simpl. split; [done|]. by exists nm, pth.
  - rewrite run_dialog_cons. destruct ev; cbn [reported].
    + destruct (step_type_name nm pth s w Hopen) as (Ho & Hl & Ha).
      specialize (IH s pth _ Ho). rewrite Ha, Hl in IH. exact IH.
    + destruct (step_type_folder nm pth s w Hopen) as (Ho & Hl & Ha).
      specialize (IH nm s _ Ho). rewrite Ha, Hl in IH. exact IH.
    + destruct (step_click_browse nm pth w Hopen) as (Ho & Hl & Ha).
      specialize (IH nm _ _ Ho). rewrite Ha, Hl in IH.
      destruct (directory_answers w) as [|a rest]; exact IH.
    + destruct (save_enabled nm pth) eqn:Hen.
      * destruct (step_click_save_enabled nm pth w Hopen Hen) as (Hl & Hm & Hcl).
        rewrite closed_run by done. rewrite Hl. done.
      * rewrite (step_click_save_disabled nm pth) by done. by apply IH.
    + destruct (step_click_cancel nm pth w Hopen) as (Hl & Hm & Hcl).
      rewrite closed_run by done. rewrite Hl. done.
    + destruct (step_click_delete nm pth w Hopen) as (Hl & Hm & Hcl).
      rewrite closed_run by done. rewrite Hl. done.
Qed.

End Steps.

Lemma reported_well_formed i evs : ∀ nm pth answers r,
  reported i nm pth answers evs = Some r -> well_formed_result i r.
Proof.
  induction evs as [|ev evs IH]; intros nm pth answers r; simpl; [done|].
  destruct ev; try (by apply IH).
  - destruct answers; apply IH.
  - destruct (save_enabled nm pth) eqn:E; [|apply IH].
    intros [= <-]. split; [done|]. left. split; [done|]. exists nm, pth.
    unfold save_enabled in E. apply andb_true_iff in E as [E1 E2].
    apply negb_true_iff in E1, E2. unfold blank. repeat split; try done; congruence.
  - intros [= <-]. split; [done|]. right; left. done.
  - intros [= <-]. split; [done|]. right; right. done.
Qed.

Ltac any_ne :=
  solve [ discriminate | int_ne | str_ne
        | let H := fresh in intros H; symmetry in H; revert H; str_ne ].

Ltac lookup_any :=
  match goal with
  | |- context [ <[?k := ?x]> ?m !! ?k ] => rewrite (lookup_insert_eq m k x)
  | |- context [ <[?k := ?x]> ?m !! ?j ] => rewrite (lookup_insert_ne m k j x) by any_ne
  | H : ?m !! ?k = _ |- context [ ?m !! ?k ] => rewrite H
  end.

Lemma configure_category_opens idx initial on_result w :
  instance_set w = true ->
  fresh (dpg w) ->
  dialog_tags_free (dialog_of idx on_result w) w ->
  ∃ w1, configure_category idx initial on_result w = Done w1 ∧
        dialog_open (dialog_of idx on_result w)
          (get_or_empty initial "name") (get_or_empty initial "path") w1 ∧
        log w1 = log w ∧ directory_answers w1 = directory_answers w.
Proof.
  intros Hi Hf (Hw & Hn & Hfo & Hok).
  pose proof (dialog_tags_NoDup idx on_result w) as Hnd.
  unfold dialog_of in *. simpl in *.
  destruct w as [c v ins tm u4 da lg]. simpl in *. subst ins.
  destruct c as [its regs khs n vp]. simpl in *.
  assert (H0 : its !! TInt n = None) by (apply (fresh_int _ n Hf); simpl; lia).
  assert (H1 : its !! TInt (n + 1)%N = None) by (apply (fresh_int _ _ Hf); simpl; lia).
  assert (H2 : its !! TInt (n + 1 + 1)%N = None) by (apply (fresh_int _ _ Hf); simpl; lia).
  assert (H3 : its !! TInt (n + 1 + 1 + 1)%N = None) by (apply (fresh_int _ _ Hf); simpl; lia).
  assert (H4 : its !! TInt (n + 1 + 1 + 1 + 1)%N = None) by (apply (fresh_int _ _ Hf); simpl; lia).
  unfold configure_category, uuid4. simpl.
  unfold and_then, add, add_auto, dpg_call, add_item, generate_uuid, skip. simpl.
  repeat (lookup_any; simpl).
  unfold _center_window, dpg_call, update_item. simpl. destruct vp as [vw vh].
  repeat (lookup_any; simpl).
  unfold _update_ok_state, get_str, dpg_call, update_item. simpl.
  repeat (lookup_any; simpl).
  eexists. split; [reflexivity|]. split; [|done].
  replace (n + 1 + 1)%N with (n + 2)%N in * by lia.
  replace (n + 2 + 1)%N with (n + 3)%N in * by lia.
  replace (n + 3 + 1)%N with (n + 4)%N in * by lia.
  split; simpl; try done.
  all: eexists; repeat lookup_any; (split; [reflexivity|]); split; try done.
  simpl. unfold save_enabled. by rewrite !truthy_strip.
Qed.

(** C3, as stated, fails when the callback raises: the handlers call
    it first and clean up afterwards, outside any [finally].  With both
    fields filled, a click on Save calls [cb], which raises: the modal flag
    stays set and the window stays; a second click calls [cb] again. *)
Lemma raising_callback_is_called_again :
  let filled := <["name" := Py.text "Holidays"]> (<["path" := Py.text "/photos"]> ∅) in
  let d := dialog_of 2 cb view_wired in
  let w1 := world_of (configure_category 2 filled cb view_wired) in
  let r := {| action := "save"; idx := 2;
              name := Some (Py.text "Holidays"); path := Some (Py.text "/photos") |} in
  calls (log (run_dialog raises d [click_save] w1)) =
    calls (log view_wired) ++ [Call cb (ResultArg r)] ∧
  _modal_open (self (run_dialog raises d [click_save] w1)) = true ∧
  is_Some (items (dpg (run_dialog raises d [click_save] w1)) !! cfg_window_id (dt_scope d)) ∧
  calls (log (run_dialog raises d [click_save; click_save] w1)) =
    calls (log view_wired) ++ [Call cb (ResultArg r); Call cb (ResultArg r)].
Proof.
  cbv zeta. split; [vm_compute; reflexivity|]. split; [vm_compute; reflexivity|].
  split; [|vm_compute; reflexivity].
  match goal with |- is_Some ?o => let v := eval vm_compute in o in
    change (is_Some v) end.
  by eexists.
Qed.

(** C3, amended.  With the view constructed and a callback [cb] that
    returns (leaving the widgets of the dialog alone and calling nothing
    back), [configure_category(idx, initial, cb)] opens the dialog without
    calling [cb] and sets the modal flag.  Whatever the user then does,
    [cb] is called as the specification words it ([reported]): not at all
    while no terminal action has happened, and once, with a well-formed
    result, from the first terminal action on; a save is reported only
    while each field holds a character that is not whitespace and carries
    the values of the fields; after the report the modal flag is false and
    the window is gone. *)
Theorem configure_category_reports_once env idx initial on_result w evs :
  instance_set w = true ->
  fresh (dpg w) ->
  dialog_tags_free (dialog_of idx on_result w) w ->
  returns_quietly env on_result (dialog_tags (dialog_of idx on_result w)) ->
  ∃ w1, configure_category idx initial on_result w = Done w1 ∧
        calls (log w1) = calls (log w) ∧
        _modal_open (self w1) = true ∧
        let d := dialog_of idx on_result w in
        let w2 := run_dialog env d evs w1 in
        match reported idx (get_or_empty initial "name") (get_or_empty initial "path")
                (directory_answers w) evs with
        | Some r =>
            well_formed_result idx r ∧
            calls (log w2) = calls (log w) ++ [Call on_result (ResultArg r)] ∧
            _modal_open (self w2) = false ∧
            items (dpg w2) !! cfg_window_id (dt_scope d) = None
        | None =>
            calls (log w2) = calls (log w) ∧
            _modal_open (self w2) = true ∧
            is_Some (items (dpg w2) !! cfg_window_id (dt_scope d))
        end.
Proof.
  intros Hi Hf Hfree Henv.
  destruct (configure_category_opens idx initial on_result w Hi Hf Hfree)
    as (w1 & Hrun & Hopen & Hlog & Hans).
  exists w1. split; [done|]. split; [by rewrite Hlog|].
  split; [by destruct Hopen|]. cbv zeta.
  pose proof (run_dialog_reported (dialog_of idx on_result w) env Henv evs _ _ w1 Hopen) as H.
  rewrite Hans, Hlog in H. simpl in H.
  destruct (reported idx _ _ (directory_answers w) evs) as [r|] eqn:Hr.
  - destruct H as (Hc & Hm & Hcl). split; [by eapply reported_well_formed|].
    split; [done|]. split; [done|]. apply Hcl. unfold dialog_tags. set_solver.
  - destruct H as (Hc & nm & pth & Ho). split; [done|].
    split; [by destruct Ho|]. destruct Ho as [_ _ _ (it & -> & _) _ _ _ _ _ _ _ _].
    by eexists.
Qed.

Lemma returns_returns_quietly h ts : returns_quietly returns h ts.
Proof. intros a w. by exists w. Qed.

Lemma configure_category_reports_once_witness :
  ∃ w1, configure_category 2 (<["name" := Py.text ""]> (<["path" := Py.text ""]> ∅)) cb
          view_wired = Done w1 ∧
        calls (log w1) = calls (log view_wired) ∧
        _modal_open (self w1) = true ∧
        let d := dialog_of 2 cb view_wired in
        let w2 := run_dialog returns d
                    [click_save; type_name "Holidays"; click_save;
                     type_folder "/photos"; click_save; click_cancel] w1 in
        match reported 2
                (get_or_empty (<["name" := Py.text ""]> (<["path" := Py.text ""]> ∅)) "name")
                (get_or_empty (<["name" := Py.text ""]> (<["path" := Py.text ""]> ∅)) "path")
                (directory_answers view_wired)
                [click_save; type_name "Holidays"; click_save;
                 type_folder "/photos"; click_save; click_cancel] with
        | Some r =>
            well_formed_result 2 r ∧
            calls (log w2) = calls (log view_wired) ++ [Call cb (ResultArg r)] ∧
            _modal_open (self w2) = false ∧
            items (dpg w2) !! cfg_window_id (dt_scope d) = None
        | None =>
            calls (log w2) = calls (log view_wired) ∧
            _modal_open (self w2) = true ∧
            is_Some (items (dpg w2) !! cfg_window_id (dt_scope d))
        end.
Proof.
  apply (configure_category_reports_once returns 2
           (<["name" := Py.text ""]> (<["path" := Py.text ""]> ∅)) cb view_wired).
  - vm_compute. reflexivity.
  - apply fresh_b_spec. vm_compute. reflexivity.
  - repeat split; vm_compute; reflexivity.
  - intros a w. exists w. repeat split; reflexivity.
Defined.

(** The example of the specification: with both fields empty the first
    click on Save reports nothing; once both are filled the second one
    reports the save, with the values of the fields.  A field of
    whitespace alone, also of no-break or ideographic spaces, counts as
    empty. *)
Example reported_save_after_filling_both_fields :
  reported 2 "" "" []
    [click_save; type_name "Holidays"; click_save;
     type_folder "/photos"; click_save; click_cancel] =
  Some {| action := "save"; idx := 2;
          name := Some (Py.text "Holidays"); path := Some (Py.text "/photos") |} ∧
  reported 2 "" "" []
    [type_name [0xA0; 0x3000]%N; type_folder "/photos"; click_save; click_cancel] =
  Some {| action := "cancel"; idx := 2; name := None; path := None |} ∧
  Py.strip ([0xA0; 0x3000; 0x20] ++ Py.text "a b" ++ [0x2003; 0x0A])%N = Py.text "a b".
Proof. vm_compute. done. Qed.

(** *** The select-folder action while a dialog is open (C5) *)

(** C5, amended.  While the modal flag is set the select-folder action
    is a no-op: [_on_select_folder] and a click on the select-folder
    button leave the world as it is, so no callback runs and no folder
    picker opens.  [configure_category], called for a constructed view,
    sets the flag, and the flag stays set, with the window open, through
    whatever the user types, browses or clicks in the dialog before the
    first terminal action (Save while it is enabled, Cancel, Delete),
    whatever the callbacks do. *)
Theorem select_folder_is_noop_while_dialog_open env idx initial on_result w evs :
  instance_set w = true ->
  fresh (dpg w) ->
  dialog_tags_free (dialog_of idx on_result w) w ->
  reported idx (get_or_empty initial "name") (get_or_empty initial "path")
    (directory_answers w) evs = None ->
  (∀ w', _modal_open (self w') = true →
         _on_select_folder env w' = Done w' ∧
         (∀ it, items (dpg w') !! TStr "select_folder_button" = Some it →
                callback it = Some bound_on_select_folder →
                ui_click env (TStr "select_folder_button") w' = w')) ∧
  ∃ w1, configure_category idx initial on_result w = Done w1 ∧
        let d := dialog_of idx on_result w in
        let w2 := run_dialog env d evs w1 in
        _modal_open (self w2) = true ∧
        is_Some (items (dpg w2) !! cfg_window_id (dt_scope d)) ∧
        calls (log w2) = calls (log w) ∧
        _on_select_folder env w2 = Done w2.
Proof.
  intros Hi Hf Hfree Hrep. split; [apply select_folder_noop_while_modal|].
  destruct (configure_category_opens idx initial on_result w Hi Hf Hfree)
    as (w1 & Hrun & Hopen & Hlog & Hans).
  exists w1. split; [done|]. cbv zeta.
  rewrite <- Hans in Hrep.
  destruct (run_dialog_undecided (dialog_of idx on_result w) env evs _ _ w1 Hopen Hrep)
    as (Hc & nm & pth & Ho).
  assert (Hm : _modal_open (self (run_dialog env (dialog_of idx on_result w) evs w1)) = true)
    by by destruct Ho.
  split; [done|]. split.
  { destruct Ho as [_ _ _ (it & -> & _) _ _ _ _ _ _ _ _]. by eexists. }
  split; [by rewrite Hc, Hlog|]. by apply on_select_folder_modal.
Qed.

Lemma select_folder_is_noop_while_dialog_open_witness :
  (∀ w', _modal_open (self w') = true →
         _on_select_folder returns w' = Done w' ∧
         (∀ it, items (dpg w') !! TStr "select_folder_button" = Some it →
                callback it = Some bound_on_select_folder →
                ui_click returns (TStr "select_folder_button") w' = w')) ∧
  ∃ w1, configure_category 0 ∅ cb view_wired = Done w1 ∧
        let d := dialog_of 0 cb view_wired in
        let w2 := run_dialog returns d
                    [type_name "Holidays"; click_browse; click_save] w1 in
        _modal_open (self w2) = true ∧
        is_Some (items (dpg w2) !! cfg_window_id (dt_scope d)) ∧
        calls (log w2) = calls (log view_wired) ∧
        _on_select_folder returns w2 = Done w2.
Proof.
  apply (select_folder_is_noop_while_dialog_open returns 0 ∅ cb view_wired
           [type_name "Holidays"; click_browse; click_save]).
  - vm_compute. reflexivity.
  - apply fresh_b_spec. vm_compute. reflexivity.
  - repeat split; vm_compute; reflexivity.
  - vm_compute. reflexivity.
Defined.

(** *** The nine buttons of both front-ends (C8) *)

(** The text that [MainWindow] gives an unconfigured button. *)
Lemma tk_text_unconfigured cats i :
  tk_text cats i = Py.text (Py.str_of_int (i + 1) +:+ ": Select a category") ↔
  entry_defined cats i = false ∨ entry_name cats i = Py.text "Select a category".
Proof.
  unfold tk_text. destruct (entry_defined cats i); [|by split; [left|]].
  rewrite !text_app.
  change (Py.text ": Select a category") with (Py.text ": " ++ Py.text "Select a category").
  rewrite (app_assoc (Py.text (Py.str_of_int (i + 1)))). split.
  - intros H. apply app_inv_head in H. by right.
  - intros [H|H]; [done|]. by rewrite H.
Qed.

(** C8, as stated, fails in [MainWindow], where the text alone tells a
    defined button from an unconfigured one: a defined entry named "Select
    a category" gets the very button that an unconfigured slot gets. *)
Lemma tk_defined_entry_can_look_unconfigured :
  let named := [ <["name" := Py.text "Select a category"]> (<["path" := Py.text "/x"]> ∅) ] in
  entry_defined named 0 = true ∧
  Tk.cat_buttons (Tk.window_of (Tk.set_categories named Tk.__init__)) !! 0%nat =
    Tk.cat_buttons (Tk.window_of (Tk.set_categories [] Tk.__init__)) !! 0%nat ∧
  (Tk.text <$> Tk.cat_buttons (Tk.window_of (Tk.set_categories named Tk.__init__)) !! 0%nat) =
    Some (Py.text "1: Select a category").
Proof. vm_compute. done. Qed.

(** C8, amended.  For every list of entries [set_categories] leaves
    exactly nine buttons, one per slot 0..8.  In [DearPyGuiView] each slot
    maps to its own button, in the defined theme iff the entry exists with
    name and path non-empty, and the container holds no other button.  In
    [MainWindow] the grid has nine buttons; button [i] shows "i+1: " and
    the name when the entry is defined and "i+1: Select a category"
    otherwise, so that it reads as unconfigured iff the entry is not
    defined or is named "Select a category". *)
Theorem set_categories_builds_nine_buttons
    (categories : list Category) (w : World) (m : Tk.MainWindow) :
  fresh (dpg w) ->
  kind <$> items (dpg w) !! TAG_CATEGORIES_CONTAINER = Some mvGroup ->
  Tk.current_columns m ≠ 0 ->
  (∃ w', set_categories categories w = Done w' ∧
     (∀ i, 0 <= i < 9 →
        ∃ t it, _category_button_ids (self w') !! i = Some t ∧
                items (dpg w') !! t = Some it ∧
                category_button categories i it) ∧
     (∀ i, is_Some (_category_button_ids (self w') !! i) → 0 <= i < 9) ∧
     (∀ i j t, _category_button_ids (self w') !! i = Some t →
               _category_button_ids (self w') !! j = Some t → i = j) ∧
     (∀ t it, items (dpg w') !! t = Some it → kind it = mvButton →
              TAG_CATEGORIES_CONTAINER ∈ ancestors it →
              ∃ i, _category_button_ids (self w') !! i = Some t)) ∧
  (∃ m', Tk.set_categories categories m = Tk.Done m' ∧
     length (Tk.cat_buttons m') = 9%nat ∧
     ∀ i, 0 <= i < 9 →
        ∃ b, Tk.cat_buttons m' !! Z.to_nat i = Some b ∧
             Tk.text b =
               (if entry_defined categories i
                then Py.text (Py.str_of_int (i + 1) +:+ ": ") ++ entry_name categories i
                else Py.text (Py.str_of_int (i + 1) +:+ ": Select a category")) ∧
             (Tk.text b = Py.text (Py.str_of_int (i + 1) +:+ ": Select a category") ↔
              entry_defined categories i = false ∨
              entry_name categories i = Py.text "Select a category")).
Proof.
  intros Hf Hc Hcols. split.
  2:{ destruct (tk_set_categories categories m Hcols) as (m' & Hrun & Hlen & Hb).
      exists m'. split; [done|]. split; [done|]. intros i Hi.
      destruct (Hb i Hi) as (b & Hl & Ht). exists b. split; [done|].
      split; [exact Ht|]. rewrite Ht. apply tk_text_unconfigured. }
  destruct (items (dpg w) !! TAG_CATEGORIES_CONTAINER) as [cit|] eqn:Hcit; [|done].
  injection Hc as Hk.
  destruct (set_categories_inv categories w cit Hf Hcit Hk)
    as (w' & Hrun & [_ _ Hd Hb Hi Ho _ _ _]).
  exists w'. split; [done|]. split; [|split; [|split]].
  - intros i Hr. destruct (Hd i Hr) as [t Ht].
    destruct (Hb i t Ht) as (_ & it & Hit & Hcb). by exists t, it.
  - intros i [t Ht]. by destruct (Hb i t Ht) as [? _].
  - exact Hi.
  - exact Ho.
Qed.

Lemma set_categories_builds_nine_buttons_witness :
  (∃ w', set_categories one_defined started = Done w' ∧
     (∀ i, 0 <= i < 9 →
        ∃ t it, _category_button_ids (self w') !! i = Some t ∧
                items (dpg w') !! t = Some it ∧
                category_button one_defined i it) ∧
     (∀ i, is_Some (_category_button_ids (self w') !! i) → 0 <= i < 9) ∧
     (∀ i j t, _category_button_ids (self w') !! i = Some t →
               _category_button_ids (self w') !! j = Some t → i = j) ∧
     (∀ t it, items (dpg w') !! t = Some it → kind it = mvButton →
              TAG_CATEGORIES_CONTAINER ∈ ancestors it →
              ∃ i, _category_button_ids (self w') !! i = Some t)) ∧
  (∃ m', Tk.set_categories one_defined Tk.__init__ = Tk.Done m' ∧
     length (Tk.cat_buttons m') = 9%nat ∧
     ∀ i, 0 <= i < 9 →
        ∃ b, Tk.cat_buttons m' !! Z.to_nat i = Some b ∧
             Tk.text b =
               (if entry_defined one_defined i
                then Py.text (Py.str_of_int (i + 1) +:+ ": ") ++ entry_name one_defined i
                else Py.text (Py.str_of_int (i + 1) +:+ ": Select a category")) ∧
             (Tk.text b = Py.text (Py.str_of_int (i + 1) +:+ ": Select a category") ↔
              entry_defined one_defined i = false ∨
              entry_name one_defined i = Py.text "Select a category")).
Proof.
  apply (set_categories_builds_nine_buttons one_defined started Tk.__init__).
  - apply fresh_b_spec. vm_compute. reflexivity.
  - vm_compute. reflexivity.
  - vm_compute. discriminate.
Defined.

(** The two examples of the specification: no entry gives nine buttons in
    the plain theme; one defined entry gives button 0 in the defined theme
    and the eight others in the plain one. *)
Example set_categories_examples :
  (∀ i, 0 <= i < 9 → entry_defined [] i = false) ∧
  entry_defined one_defined 0 = true ∧
  (∀ i, 1 <= i < 9 → entry_defined one_defined i = false) ∧
  List.map (fun i => button_theme_of i (world_of (set_categories [] started)))
    [0; 1; 2; 3; 4; 5; 6; 7; 8] = List.repeat (Some th_category) 9 ∧
  List.map (fun i => button_theme_of i one_defined_grid) [0; 1; 2; 3; 4; 5; 6; 7; 8] =
    Some th_category_defined :: List.repeat (Some th_category) 8.
Proof.
  split; [intros i _; unfold entry_defined; by rewrite lookup_nil|].
  split; [reflexivity|]. split.
  - intros i Hi. unfold entry_defined, one_defined.
    destruct (Z.to_nat i) as [|k] eqn:E; [lia|]. done.
  - vm_compute. done.
Qed.

(* ===================================================================== *)
(** ** Further properties of the code *)
(* ===================================================================== *)

Import AppRest SpecRest.

(** *** Buttons and keys of [DearPyGuiView] *)

Lemma forallb_pointwise {A} (f g : A -> bool) l :
  (∀ a, f a = g a) -> forallb f l = forallb g l.
Proof. intros H. induction l as [|a l IH]; simpl; [done|]. by rewrite H, IH. Qed.

(** Changing an item without touching [show] or [ancestors] leaves on
    screen what was on screen. *)
Lemma visible_update t t' it' (f : Item -> Item) c :
  items c !! t' = Some it' ->
  show (f it') = show it' -> ancestors (f it') = ancestors it' ->
  visible t (set_items (<[t' := f it']> (items c)) c) = visible t c.
Proof.
  intros Hit Hs Ha. unfold visible. simpl.
  assert (Hshow : ∀ a, match <[t' := f it']> (items c) !! a with
                       | Some ait => show ait | None => false end =
                       match items c !! a with
                       | Some ait => show ait | None => false end).
  { intros a. destruct (decide (a = t')) as [->|Hne].
    - by rewrite lookup_insert_eq, Hit.
    - by rewrite lookup_insert_ne. }
  destruct (decide (t = t')) as [->|Hne].
  - rewrite lookup_insert_eq, Hit, Hs, Ha. f_equal.
    apply forallb_pointwise, Hshow.
  - rewrite lookup_insert_ne by done. destruct (items c !! t) as [it|]; [|done].
    f_equal. apply forallb_pointwise, Hshow.
Qed.

Lemma returns_transparent : transparent returns.
Proof. intros h a w. reflexivity. Qed.

(** A click on a button bound to one of the internal handlers runs the
    callback registered under the key of that handler, if there is one. *)
Lemma click_runs_registered env w t c key :
  bound_to t w = Some c ->
  (∀ u, run_closure env c u = call_registered env key) ->
  ui_click env t w = world_of (call_registered env key w).
Proof.
  unfold bound_to, ui_click. intros Hb Hrun.
  destruct (items (dpg w) !! t) as [it|]; [|done].
  destruct (visible t (dpg w) && enabled it); [|done].
  rewrite Hb. unfold dispatch. by rewrite Hrun.
Qed.

Lemma call_registered_log env key h w :
  transparent env -> _callbacks (self w) !! key = Some h ->
  log (world_of (call_registered env key w)) = log w ++ [Call h NoArgs].
Proof.
  intros Henv Hk. unfold call_registered. rewrite Hk. unfold invoke.
  by rewrite Henv.
Qed.

Lemma call_registered_none env key w :
  _callbacks (self w) !! key = None -> call_registered env key w = Done w.
Proof. intros Hk. unfold call_registered. by rewrite Hk. Qed.

(** X1.  A click on the next (prev) button of [DearPyGuiView] runs
    [_on_next] ([_on_prev]): it does nothing while no callback is
    registered, and after [on_next(h)] ([on_prev(h)]) it calls [h] once,
    without arguments.  A later registration replaces the earlier one, and
    registering one of the two leaves the other alone. *)
Theorem nav_buttons_call_the_registered_callback env w :
  transparent env ->
  bound_to TAG_NEXT_BUTTON w = Some bound_on_next ->
  bound_to TAG_PREV_BUTTON w = Some bound_on_prev ->
  (_callbacks (self w) !! "next" = None → ui_click env TAG_NEXT_BUTTON w = w) ∧
  (_callbacks (self w) !! "prev" = None → ui_click env TAG_PREV_BUTTON w = w) ∧
  (∀ h, log (ui_click env TAG_NEXT_BUTTON (world_of (on_next h w))) =
        log w ++ [Call h NoArgs]) ∧
  (∀ h, log (ui_click env TAG_PREV_BUTTON (world_of (on_prev h w))) =
        log w ++ [Call h NoArgs]) ∧
  (∀ h h', log (ui_click env TAG_NEXT_BUTTON
                  (world_of (on_next h (world_of (on_next h' w))))) =
           log w ++ [Call h NoArgs]) ∧
  (∀ h h', log (ui_click env TAG_NEXT_BUTTON
                  (world_of (on_prev h' (world_of (on_next h w))))) =
           log w ++ [Call h NoArgs]).
Proof.
  intros Henv Hn Hp.
  split; [|split; [|split; [|split; [|split]]]].
  - intros Hk. rewrite (click_runs_registered env w _ _ "next" Hn) by done.
    by rewrite call_registered_none.
  - intros Hk. rewrite (click_runs_registered env w _ _ "prev" Hp) by done.
    by rewrite call_registered_none.
  - intros h. rewrite (click_runs_registered env _ _ bound_on_next "next") by done.
    erewrite call_registered_log; [done|done|]. simpl. apply lookup_insert_eq.
  - intros h. rewrite (click_runs_registered env _ _ bound_on_prev "prev") by done.
    erewrite call_registered_log; [done|done|]. simpl. apply lookup_insert_eq.
  - intros h h'. rewrite (click_runs_registered env _ _ bound_on_next "next") by done.
    erewrite call_registered_log; [done|done|]. simpl. apply lookup_insert_eq.
  - intros h h'. rewrite (click_runs_registered env _ _ bound_on_next "next") by done.
    erewrite call_registered_log; [done|done|]. simpl.
    rewrite lookup_insert_ne by done. apply lookup_insert_eq.
Qed.

Lemma nav_buttons_call_the_registered_callback_witness :
  (_callbacks (self view_ready) !! "next" = None →
     ui_click returns TAG_NEXT_BUTTON view_ready = view_ready) ∧
  (_callbacks (self view_ready) !! "prev" = None →
     ui_click returns TAG_PREV_BUTTON view_ready = view_ready) ∧
  (∀ h, log (ui_click returns TAG_NEXT_BUTTON (world_of (on_next h view_ready))) =
        log view_ready ++ [Call h NoArgs]) ∧
  (∀ h, log (ui_click returns TAG_PREV_BUTTON (world_of (on_prev h view_ready))) =
        log view_ready ++ [Call h NoArgs]) ∧
  (∀ h h', log (ui_click returns TAG_NEXT_BUTTON
                  (world_of (on_next h (world_of (on_next h' view_ready))))) =
           log view_ready ++ [Call h NoArgs]) ∧
  (∀ h h', log (ui_click returns TAG_NEXT_BUTTON
                  (world_of (on_prev h' (world_of (on_next h view_ready))))) =
           log view_ready ++ [Call h NoArgs]).
Proof.
  apply (nav_buttons_call_the_registered_callback returns view_ready).
  - exact returns_transparent.
  - vm_compute. reflexivity.
  - vm_compute. reflexivity.
Defined.

(** A click on an item without a callback does nothing. *)
Lemma click_without_callback env t w :
  pressable t w = true -> bound_to t w = None -> ui_click env t w = w.
Proof.
  unfold pressable, bound_to, ui_click.
  destruct (items (dpg w) !! t) as [it|]; [|done]. by intros -> ->.
Qed.

(** X2.  [__init__] builds the reset button without a callback, so
    a click on it does nothing; [add_reset_button(h)] stores [h] and binds
    [_on_reset] to the button, after which a click calls [h] once. *)
Theorem reset_button_is_wired_by_add_reset_button env w h :
  transparent env ->
  pressable TAG_RESET_BUTTON w = true ->
  (pressable TAG_RESET_BUTTON started = true ∧
   bound_to TAG_RESET_BUTTON started = None ∧
   ui_click env TAG_RESET_BUTTON started = started) ∧
  (bound_to TAG_RESET_BUTTON w = None → ui_click env TAG_RESET_BUTTON w = w) ∧
  ∃ w1, add_reset_button h w = Done w1 ∧
        log (ui_click env TAG_RESET_BUTTON w1) = log w ++ [Call h NoArgs].
Proof.
  intros Henv Hp. split; [|split].
  - assert (Hs : pressable TAG_RESET_BUTTON started = true) by (vm_compute; reflexivity).
    assert (Hb : bound_to TAG_RESET_BUTTON started = None) by (vm_compute; reflexivity).
    split; [done|]. split; [done|]. by apply click_without_callback.
  - by apply click_without_callback.
  - unfold pressable in Hp.
    destruct (items (dpg w) !! TAG_RESET_BUTTON) as [it|] eqn:Hit; [|done].
    unfold add_reset_button, and_then, update_self, pure, dpg_call, update_item.
    simpl. fold TAG_RESET_BUTTON. rewrite Hit. eexists. split; [reflexivity|].
    rewrite (click_runs_registered env _ _ bound_on_reset "reset").
    + erewrite call_registered_log; [done|done|]. simpl. apply lookup_insert_eq.
    + unfold bound_to. simpl. rewrite lookup_insert_eq.
      rewrite (visible_update _ _ it) by done. simpl. by rewrite Hp.
    + done.
Qed.

Lemma reset_button_is_wired_by_add_reset_button_witness :
  (pressable TAG_RESET_BUTTON started = true ∧
   bound_to TAG_RESET_BUTTON started = None ∧
   ui_click returns TAG_RESET_BUTTON started = started) ∧
  (bound_to TAG_RESET_BUTTON view_ready = None →
     ui_click returns TAG_RESET_BUTTON view_ready = view_ready) ∧
  ∃ w1, add_reset_button pick view_ready = Done w1 ∧
        log (ui_click returns TAG_RESET_BUTTON w1) =
        log view_ready ++ [Call pick NoArgs].
Proof.
  apply (reset_button_is_wired_by_add_reset_button returns view_ready pick).
  - exact returns_transparent.
  - vm_compute. reflexivity.
Defined.

(** A pulse of a navigation button returns; it binds the feedback theme,
    marks the key of the button in [_feedback_timers] and starts one
    timer.  Nothing else changes, and no timer is cancelled. *)
Lemma show_nav_button_feedback_spec which w t it thf :
  _nav_button_ids (self w) !! which = Some t ->
  items (dpg w) !! t = Some it ->
  nav_theme which true = Some thf ->
  ∃ w', _show_nav_button_feedback which w = Done w' ∧
        log w' = log w ∧
        _callbacks (self w') = _callbacks (self w) ∧
        _modal_open (self w') = _modal_open (self w) ∧
        _nav_button_ids (self w') = _nav_button_ids (self w) ∧
        items (dpg w') = <[t := with_theme thf it]> (items (dpg w)) ∧
        timers w' = timers w ++ [{| t_fn := restore_nav which t; t_state := pending |}] ∧
        _feedback_timers (self w') =
          <[key_str ("nav_" +:+ which) := slot_True]> (_feedback_timers (self w)).
Proof.
  intros Hid Hit Hth. unfold _show_nav_button_feedback. rewrite Hid.
  unfold bind_nav_theme. rewrite Hth.
  unfold and_then, update_self, pure, dpg_call, update_item, start_timer.
  destruct (_feedback_timers (self w) !! key_str ("nav_" +:+ which)) as [sl|] eqn:Hsl;
    simpl; rewrite Hit; simpl; eexists; (split; [reflexivity|]); simpl;
    repeat split; try done.
  by rewrite insert_insert_eq.
Qed.

(** X3.  [_handle_keyboard_prev] and [_handle_keyboard_next] do not
    look at the modal flag: while it is set the Left and Right keys
    still call the prev and next callbacks, whereas every number key is
    swallowed. *)
Theorem arrow_keys_are_not_gated_by_the_modal_flag env w prv nxt hp hn :
  transparent env ->
  key_handlers (dpg w) = shortcut_handlers ->
  _nav_button_ids (self w) !! "prev" = Some prv -> is_Some (items (dpg w) !! prv) ->
  _nav_button_ids (self w) !! "next" = Some nxt -> is_Some (items (dpg w) !! nxt) ->
  _callbacks (self w) !! "prev" = Some hp ->
  _callbacks (self w) !! "next" = Some hn ->
  _modal_open (self w) = true ->
  log (ui_key_press env mvKey_Left w) = log w ++ [Call hp NoArgs] ∧
  log (ui_key_press env mvKey_Right w) = log w ++ [Call hn NoArgs] ∧
  ∀ i, ui_key_press env (mvKey_1_plus i) w = w.
Proof.
  intros Henv Hkh Hp [pit Hpit] Hn [nit Hnit] Hcp Hcn Hmod.
  split; [|split].
  - destruct (show_nav_button_feedback_spec "prev" w prv pit th_prev_feedback Hp Hpit eq_refl)
      as (w' & Hrun & Hlog & Hcb & _).
    assert (Hone : log (dispatch env bound_keyboard_prev None w) = log w ++ [Call hp NoArgs]).
    { unfold dispatch. simpl. unfold _handle_keyboard_prev.
      rewrite (and_then_Done _ _ _ _ Hrun). unfold _on_prev.
      erewrite call_registered_log; [by rewrite Hlog|done|by rewrite Hcb]. }
    unfold ui_key_press. rewrite Hkh. exact Hone.
  - destruct (show_nav_button_feedback_spec "next" w nxt nit th_next_feedback Hn Hnit eq_refl)
      as (w' & Hrun & Hlog & Hcb & _).
    assert (Hone : log (dispatch env bound_keyboard_next None w) = log w ++ [Call hn NoArgs]).
    { unfold dispatch. simpl. unfold _handle_keyboard_next.
      rewrite (and_then_Done _ _ _ _ Hrun). unfold _on_next.
      erewrite call_registered_log; [by rewrite Hlog|done|by rewrite Hcb]. }
    unfold ui_key_press. rewrite Hkh. exact Hone.
  - intros i. by apply dpg_number_key_modal.
Qed.

Lemma arrow_keys_are_not_gated_by_the_modal_flag_witness :
  log (ui_key_press returns mvKey_Left dialog_over_navigation) =
    log dialog_over_navigation ++ [Call go_prev NoArgs] ∧
  log (ui_key_press returns mvKey_Right dialog_over_navigation) =
    log dialog_over_navigation ++ [Call go_next NoArgs] ∧
  ∀ i, ui_key_press returns (mvKey_1_plus i) dialog_over_navigation =
       dialog_over_navigation.
Proof.
  apply (arrow_keys_are_not_gated_by_the_modal_flag returns dialog_over_navigation
           TAG_PREV_BUTTON TAG_NEXT_BUTTON go_prev go_next).
  - exact returns_transparent.
  - vm_compute. reflexivity.
  - vm_compute. reflexivity.
  - vm_compute. eexists. reflexivity.
  - vm_compute. reflexivity.
  - vm_compute. eexists. reflexivity.
  - vm_compute. reflexivity.
  - vm_compute. reflexivity.
  - vm_compute. reflexivity.
Defined.

Lemma bind_keyboard_shortcuts_first w :
  _keyboard_handlers_registered (self w) = false ->
  bind_keyboard_shortcuts w =
  Done (set_dpg (add_key_press_handlers shortcut_handlers (dpg w))
          (set_self (set_keyboard_registered true (self w)) w)).
Proof. intros Hr. unfold bind_keyboard_shortcuts. by rewrite Hr. Qed.

Lemma bind_keyboard_shortcuts_again w :
  _keyboard_handlers_registered (self w) = true -> bind_keyboard_shortcuts w = Done w.
Proof. intros Hr. unfold bind_keyboard_shortcuts. by rewrite Hr. Qed.

(** X4.  [bind_keyboard_shortcuts] is guarded by
    [_keyboard_handlers_registered]: the first call adds the eleven key
    handlers, a second call changes nothing, and a number key then calls
    the bound click callback once, not twice. *)
Theorem bind_keyboard_shortcuts_registers_once env w idx t hs :
  transparent env ->
  _keyboard_handlers_registered (self w) = false ->
  key_handlers (dpg w) = [] ->
  _modal_open (self w) = false ->
  0 <= idx < 9 ->
  _category_button_ids (self w) !! idx = Some t -> is_Some (items (dpg w) !! t) ->
  _category_callbacks (self w) !! idx = Some hs ->
  let w1 := world_of (bind_keyboard_shortcuts w) in
  bind_keyboard_shortcuts w1 = Done w1 ∧
  key_handlers (dpg w1) = shortcut_handlers ∧
  log (ui_key_press env (mvKey_1_plus idx) (world_of (bind_keyboard_shortcuts w1))) =
    log w ++ [Call (h_click hs) (IdxArg idx)].
Proof.
  intros Henv Hr Hkh Hmod Hidx Hid [it Hit] Hcb. cbv zeta.
  rewrite (bind_keyboard_shortcuts_first w Hr). simpl.
  rewrite bind_keyboard_shortcuts_again by done. simpl.
  split; [done|]. split; [by rewrite Hkh|].
  by rewrite (dpg_number_key env idx t _ it hs) by (try done; simpl; by rewrite Hkh).
Qed.

Lemma bind_keyboard_shortcuts_registers_once_witness :
  let w1 := world_of (bind_keyboard_shortcuts view_without_shortcuts) in
  bind_keyboard_shortcuts w1 = Done w1 ∧
  key_handlers (dpg w1) = shortcut_handlers ∧
  log (ui_key_press returns (mvKey_1_plus 0) (world_of (bind_keyboard_shortcuts w1))) =
    log view_without_shortcuts ++ [Call (h_click {| h_click := f1; h_right := g1 |}) (IdxArg 0)].
Proof.
  apply (bind_keyboard_shortcuts_registers_once returns view_without_shortcuts 0
           (TInt 1005) {| h_click := f1; h_right := g1 |}).
  - exact returns_transparent.
  - vm_compute. reflexivity.
  - vm_compute. reflexivity.
  - vm_compute. reflexivity.
  - lia.
  - vm_compute. reflexivity.
  - vm_compute. eexists. reflexivity.
  - vm_compute. reflexivity.
Defined.

(** *** The pulse of a navigation button *)

Lemma timer_fires_pending t w fn :
  timers w !! t = Some {| t_fn := fn; t_state := pending |} ->
  timer_fires t w =
  world_of (run_timer_fn fn
              (set_timers (<[t := {| t_fn := fn; t_state := finished |}]> (timers w)) w)).
Proof. intros Ht. unfold timer_fires. by rewrite Ht. Qed.

Lemma restore_theme_nav_marked which t w it th :
  _feedback_timers (self w) !! key_str ("nav_" +:+ which) = Some slot_True ->
  items (dpg w) !! t = Some it ->
  nav_theme which false = Some th ->
  restore_theme_nav which t w =
  Done (set_self
          (set_feedback_timers
             (delete (key_str ("nav_" +:+ which)) (_feedback_timers (self w))) (self w))
          (set_dpg (set_items (<[t := with_theme th it]> (items (dpg w))) (dpg w)) w)).
Proof.
  intros Hsl Hit Hth. unfold restore_theme_nav. rewrite Hsl.
  unfold bind_nav_theme. rewrite Hth.
  unfold and_then, dpg_call, update_item, update_self, pure. by rewrite Hit.
Qed.

Lemma restore_theme_nav_unmarked which t w :
  _feedback_timers (self w) !! key_str ("nav_" +:+ which) = None ->
  restore_theme_nav which t w = Done w.
Proof. intros Hsl. unfold restore_theme_nav. by rewrite Hsl. Qed.

Lemma nav_theme_cases which :
  which = "prev" ∨ which = "next" ->
  ∃ thf th, nav_theme which true = Some thf ∧ nav_theme which false = Some th.
Proof. intros [-> | ->]; by eexists _, _. Qed.

(** X5.  [_show_nav_button_feedback(which)] for "prev" or "next"
    binds the feedback theme of the button and starts one timer; when
    that timer fires the button is back in its resting theme, the key
    ['nav_' + which] is gone from [_feedback_timers], and no callback was
    called. *)
Theorem nav_pulse_ends_in_the_resting_theme which w t :
  which = "prev" ∨ which = "next" ->
  _nav_button_ids (self w) !! which = Some t ->
  is_Some (items (dpg w) !! t) ->
  let n := length (timers w) in
  let w1 := world_of (_show_nav_button_feedback which w) in
  let w2 := timer_fires n w1 in
  theme <$> items (dpg w1) !! t = Some (nav_theme which true) ∧
  timers w1 = timers w ++ [{| t_fn := restore_nav which t; t_state := pending |}] ∧
  theme <$> items (dpg w2) !! t = Some (nav_theme which false) ∧
  _feedback_timers (self w2) !! key_str ("nav_" +:+ which) = None ∧
  t_state <$> timers w2 !! n = Some finished ∧
  log w2 = log w.
Proof.
  intros Hwhich Hid [it Hit]. cbv zeta.
  destruct (nav_theme_cases which Hwhich) as (thf & th & Hthf & Hth).
  destruct (show_nav_button_feedback_spec which w t it thf Hid Hit Hthf)
    as (w1 & Hrun & Hlog & _ & _ & _ & Hitems & Htm & Hsl).
  rewrite Hrun. simpl.
  assert (Hn : timers w1 !! length (timers w) =
               Some {| t_fn := restore_nav which t; t_state := pending |}).
  { rewrite Htm. by rewrite list_lookup_middle. }
  rewrite (timer_fires_pending _ _ _ Hn). simpl.
  erewrite (restore_theme_nav_marked which t _ (with_theme thf it) th); simpl; try done.
  - rewrite Hitems, Hthf, Hth, !lookup_insert_eq, lookup_delete_eq. simpl.
    repeat split; try done.
    rewrite list_lookup_insert_eq; [done|]. rewrite Htm, length_app. simpl. lia.
  - rewrite Hsl. apply lookup_insert_eq.
  - rewrite Hitems. apply lookup_insert_eq.
Qed.

Lemma nav_pulse_ends_in_the_resting_theme_witness :
  let n := length (timers view_ready) in
  let w1 := world_of (_show_nav_button_feedback "prev" view_ready) in
  let w2 := timer_fires n w1 in
  theme <$> items (dpg w1) !! TAG_PREV_BUTTON = Some (nav_theme "prev" true) ∧
  timers w1 = timers view_ready ++
              [{| t_fn := restore_nav "prev" TAG_PREV_BUTTON; t_state := pending |}] ∧
  theme <$> items (dpg w2) !! TAG_PREV_BUTTON = Some (nav_theme "prev" false) ∧
  _feedback_timers (self w2) !! key_str ("nav_" +:+ "prev") = None ∧
  t_state <$> timers w2 !! n = Some finished ∧
  log w2 = log view_ready.
Proof.
  apply (nav_pulse_ends_in_the_resting_theme "prev" view_ready TAG_PREV_BUTTON).
  - by left.
  - vm_compute. reflexivity.
  - vm_compute. eexists. reflexivity.
Defined.

(** X6.  Unlike the pulse of a category button, the pulse of a
    navigation button cancels nothing: after two pulses in a row both
    timers are pending.  The first to fire restores the resting theme and
    removes the key, so the second pulse ends early; the second timer
    then finds no key and changes nothing but its own state. *)
Theorem second_nav_pulse_is_cut_short_by_the_first_timer which w t :
  which = "prev" ∨ which = "next" ->
  _nav_button_ids (self w) !! which = Some t ->
  is_Some (items (dpg w) !! t) ->
  let n := length (timers w) in
  let w2 := world_of (_show_nav_button_feedback which
                        (world_of (_show_nav_button_feedback which w))) in
  let w3 := timer_fires n w2 in
  let w4 := timer_fires (S n) w3 in
  timers w2 = timers w ++ [{| t_fn := restore_nav which t; t_state := pending |};
                           {| t_fn := restore_nav which t; t_state := pending |}] ∧
  theme <$> items (dpg w2) !! t = Some (nav_theme which true) ∧
  theme <$> items (dpg w3) !! t = Some (nav_theme which false) ∧
  t_state <$> timers w3 !! S n = Some pending ∧
  dpg w4 = dpg w3 ∧ self w4 = self w3 ∧
  t_state <$> timers w4 !! S n = Some finished.
Proof.
  intros Hwhich Hid [it Hit]. cbv zeta.
  destruct (nav_theme_cases which Hwhich) as (thf & th & Hthf & Hth).
  destruct (show_nav_button_feedback_spec which w t it thf Hid Hit Hthf)
    as (w1 & Hrun & _ & _ & _ & Hids & Hitems & Htm & Hsl).
  rewrite Hrun. simpl.
  assert (Hit1 : items (dpg w1) !! t = Some (with_theme thf it))
    by (rewrite Hitems; apply lookup_insert_eq).
  rewrite <- Hids in Hid.
  destruct (show_nav_button_feedback_spec which w1 t _ thf Hid Hit1 Hthf)
    as (w2 & Hrun2 & _ & _ & _ & _ & Hitems2 & Htm2 & Hsl2).
  rewrite Hrun2. simpl.
  assert (Htm2' : timers w2 =
            timers w ++ [{| t_fn := restore_nav which t; t_state := pending |};
                         {| t_fn := restore_nav which t; t_state := pending |}]).
  { rewrite Htm2, Htm, <- app_assoc. done. }
  assert (Hn : timers w2 !! length (timers w) =
               Some {| t_fn := restore_nav which t; t_state := pending |}).
  { rewrite Htm2'. by rewrite list_lookup_middle. }
  rewrite (timer_fires_pending _ _ _ Hn). simpl.
  erewrite (restore_theme_nav_marked which t _ (with_theme thf (with_theme thf it)) th);
    simpl; try done; cycle 1.
  { rewrite Hsl2. apply lookup_insert_eq. }
  { rewrite Hitems2. apply lookup_insert_eq. }
  assert (Hlen : length (timers w2) = S (S (length (timers w))))
    by (rewrite Htm2', length_app; simpl; lia).
  assert (Hsn : <[length (timers w) :=
                    {| t_fn := restore_nav which t; t_state := finished |}]> (timers w2)
                !! S (length (timers w)) =
                Some {| t_fn := restore_nav which t; t_state := pending |}).
  { rewrite list_lookup_insert_ne by lia. rewrite Htm2'.
    rewrite lookup_app_r by lia. by replace (S _ - _)%nat with 1%nat by lia. }
  rewrite (timer_fires_pending (S (length (timers w))) _ (restore_nav which t)) by exact Hsn.
  simpl. rewrite restore_theme_nav_unmarked by (simpl; apply lookup_delete_eq).
  simpl. rewrite Hitems2, Hthf, Hth, !lookup_insert_eq. simpl.
  repeat split; try done.
  - by rewrite Hsn.
  - rewrite list_lookup_insert_eq; [done|]. rewrite length_insert. lia.
Qed.

Lemma second_nav_pulse_is_cut_short_by_the_first_timer_witness :
  let n := length (timers view_ready) in
  let w2 := world_of (_show_nav_button_feedback "next"
                        (world_of (_show_nav_button_feedback "next" view_ready))) in
  let w3 := timer_fires n w2 in
  let w4 := timer_fires (S n) w3 in
  timers w2 = timers view_ready ++
                [{| t_fn := restore_nav "next" TAG_NEXT_BUTTON; t_state := pending |};
                 {| t_fn := restore_nav "next" TAG_NEXT_BUTTON; t_state := pending |}] ∧
  theme <$> items (dpg w2) !! TAG_NEXT_BUTTON = Some (nav_theme "next" true) ∧
  theme <$> items (dpg w3) !! TAG_NEXT_BUTTON = Some (nav_theme "next" false) ∧
  t_state <$> timers w3 !! S n = Some pending ∧
  dpg w4 = dpg w3 ∧ self w4 = self w3 ∧
  t_state <$> timers w4 !! S n = Some finished.
Proof.
  apply (second_nav_pulse_is_cut_short_by_the_first_timer "next" view_ready TAG_NEXT_BUTTON).
  - by right.
  - vm_compute. reflexivity.
  - vm_compute. eexists. reflexivity.
Defined.

(** *** Bindings of the category buttons *)

Lemma wired_b_spec idx t w : wired_b idx t w = true -> wired idx t w.
Proof.
  unfold wired_b. rewrite !andb_true_iff. intros [[Hid Hit] Hvis].
  apply bool_decide_eq_true in Hid.
  destruct (items (dpg w) !! t) as [it|] eqn:E; [|done].
  rewrite !andb_true_iff in Hit. destruct Hit as [[[Hen Hcb] Hud] Hr].
  apply bool_decide_eq_true in Hcb, Hud.
  destruct (handler_registry it) as [r|] eqn:Er; [|done].
  destruct (registries (dpg w) !! r) as [[|h [|]]|] eqn:Ereg; try done.
  rewrite !andb_true_iff in Hr. destruct Hr as [[Hb Hc] Hu].
  apply bool_decide_eq_true in Hb, Hc, Hu.
  split; [done| |done]. exists it, r. repeat split; try done.
  rewrite Ereg. destruct h; simpl in *; by subst.
Qed.

Lemma wired_bind_category idx t w j f g :
  wired idx t w -> wired idx t (world_of (bind_category j f g w)).
Proof. intros [H1 H2 H3]. by split. Qed.

(** X7.  [DearPyGuiView.bind_category] keeps one pair of callbacks
    per slot: binding another slot leaves the clicks on this one as they
    were, and binding the same slot again replaces the pair. *)
Theorem dearpygui_bindings_are_kept_per_index env w i j t f g f' g' :
  transparent env ->
  wired i t w ->
  i ≠ j ->
  let w1 := world_of (bind_category j f' g' (world_of (bind_category i f g w))) in
  let w2 := world_of (bind_category i f' g' (world_of (bind_category i f g w))) in
  log (ui_click env t w1) = log w ++ [Call f (IdxArg i)] ∧
  log (ui_right_click env t w1) = log w ++ [Call g (IdxArg i)] ∧
  log (ui_click env t w2) = log w ++ [Call f' (IdxArg i)] ∧
  log (ui_right_click env t w2) = log w ++ [Call g' (IdxArg i)].
Proof.
  intros Henv Hw Hij. cbv zeta.
  split; [|split; [|split]].
  - rewrite (dpg_left_click env i t _ {| h_click := f; h_right := g |}); try done.
    + by do 2 apply wired_bind_category.
    + simpl. rewrite lookup_insert_ne by done. apply lookup_insert_eq.
  - rewrite (dpg_right_click env i t _ {| h_click := f; h_right := g |}); try done.
    + by do 2 apply wired_bind_category.
    + simpl. rewrite lookup_insert_ne by done. apply lookup_insert_eq.
  - rewrite (dpg_left_click env i t _ {| h_click := f'; h_right := g' |}); try done.
    + by do 2 apply wired_bind_category.
    + simpl. apply lookup_insert_eq.
  - rewrite (dpg_right_click env i t _ {| h_click := f'; h_right := g' |}); try done.
    + by do 2 apply wired_bind_category.
    + simpl. apply lookup_insert_eq.
Qed.

Lemma dearpygui_bindings_are_kept_per_index_witness :
  let w1 := world_of (bind_category 1 f2 g2 (world_of (bind_category 0 f1 g1 view_ready))) in
  let w2 := world_of (bind_category 0 f2 g2 (world_of (bind_category 0 f1 g1 view_ready))) in
  log (ui_click returns (TInt 1005) w1) = log view_ready ++ [Call f1 (IdxArg 0)] ∧
  log (ui_right_click returns (TInt 1005) w1) = log view_ready ++ [Call g1 (IdxArg 0)] ∧
  log (ui_click returns (TInt 1005) w2) = log view_ready ++ [Call f2 (IdxArg 0)] ∧
  log (ui_right_click returns (TInt 1005) w2) = log view_ready ++ [Call g2 (IdxArg 0)].
Proof.
  apply (dearpygui_bindings_are_kept_per_index returns view_ready 0 1 (TInt 1005)
           f1 g1 f2 g2).
  - exact returns_transparent.
  - apply wired_b_spec. vm_compute. reflexivity.
  - lia.
Defined.

(** *** What a procedure leaves alone *)

Section Leaves.
Context {A : Type} (part : World -> A).
Hypothesis part_dpg : ∀ c w, part (set_dpg c w) = part w.

Lemma leaves_skip : leaves part skip.
Proof. by intros w. Qed.

Lemma leaves_and_then p q : leaves part p -> leaves part q -> leaves part (p >> q).
Proof.
  intros Hp Hq w. unfold and_then. specialize (Hp w).
  destruct (p w) as [w1|w1]; simpl in *; [|done]. by rewrite Hq.
Qed.

Lemma leaves_dpg_call f : leaves part (dpg_call f).
Proof. intros w. unfold dpg_call. destruct (f (dpg w)); simpl; [apply part_dpg|done]. Qed.

Lemma leaves_update_self f :
  (∀ w, part (set_self (f (self w)) w) = part w) -> leaves part (update_self f).
Proof. intros H w. apply H. Qed.

Lemma leaves_for_each {B} (xs : list B) body :
  (∀ x, leaves part (body x)) -> leaves part (for_each xs body).
Proof.
  intros H. induction xs as [|x xs IH]; simpl; [apply leaves_skip|].
  by apply leaves_and_then.
Qed.

Lemma leaves_dep (P : World -> Proc) :
  (∀ w0, leaves part (P w0)) -> leaves part (fun w => P w w).
Proof. intros H w. apply H. Qed.

Lemma leaves_create_category_button idx cat parent :
  (∀ f w, part (set_self (set_category_button_ids f (self w)) w) = part w) ->
  leaves part (_create_category_button idx cat parent).
Proof.
  intros Hids w. unfold _create_category_button, generate_uuid.
  cbv beta iota zeta.
  apply leaves_and_then;
    [apply leaves_and_then; [apply leaves_and_then; [apply leaves_and_then|]|]|].
  - apply leaves_dpg_call.
  - apply leaves_dpg_call.
  - apply leaves_update_self. intros w'. apply Hids.
  - destruct (Py.truthy _); [|apply leaves_skip].
    intros w'. destruct (add_item None _ _ (dpg w')) as [[tip c2]|]; [|done].
    apply leaves_dpg_call.
  - intros w'. destruct (add_item_handler_registry _ (dpg w')) as [h c2].
    apply leaves_dpg_call.
Qed.

Lemma leaves_grid_rows cats :
  (∀ f w, part (set_self (set_category_button_ids f (self w)) w) = part w) ->
  leaves part
    (for_each [0; 1; 2] (fun row =>
       fun w =>
         let '(n, c1) := generate_uuid (dpg w) in
         let group_id := TStr (Py.str_of_int (Z.of_N n)) in
         (dpg_call (fun _ => snd <$>
            add_item (Some group_id) (Some TAG_CATEGORIES_CONTAINER)
              (new_item mvGroup) c1) >>
          for_each [0; 1; 2] (fun col =>
            let idx := row * 3 + col in
            _create_category_button idx (category_at cats idx) group_id)) w)).
Proof.
  intros Hids. apply leaves_for_each. intros r w. unfold generate_uuid.
  cbv beta iota zeta.
  apply leaves_and_then; [apply leaves_dpg_call|].
  apply leaves_for_each. intros col. by apply leaves_create_category_button.
Qed.

Lemma leaves_set_categories cats :
  (∀ f w, part (set_self (set_category_button_ids f (self w)) w) = part w) ->
  (∀ f w, part (set_self (set_category_callbacks f (self w)) w) = part w) ->
  leaves part (set_categories cats).
Proof.
  intros Hids Hcbs. unfold set_categories.
  apply leaves_and_then; [apply leaves_and_then; [apply leaves_and_then|]|].
  - intros w. destruct (does_item_exist _ _); [apply leaves_dpg_call|done].
  - apply leaves_update_self. intros w. apply Hcbs.
  - apply leaves_update_self. intros w. apply Hids.
  - by apply leaves_grid_rows.
Qed.

Lemma leaves_show_button_feedback idx :
  (∀ ts w, part (set_timers ts w) = part w) ->
  (∀ f w, part (set_self (set_feedback_timers f (self w)) w) = part w) ->
  leaves part (_show_button_feedback idx).
Proof.
  intros Htm Hfb w. unfold _show_button_feedback.
  destruct (_category_button_ids (self w) !! idx) as [b|]; [|done].
  apply leaves_and_then; [apply leaves_and_then|].
  - intros w'. unfold update_self, pure.
    destruct (_feedback_timers (self w') !! key_idx idx) as [[|k|]|];
      cbn [world_of]; rewrite ?Hfb, ?Htm; done.
  - apply leaves_dpg_call.
  - intros w'. unfold start_timer, update_self, pure. cbn [world_of].
    by rewrite Hfb, Htm.
Qed.

End Leaves.

(** The deletion at the head of [set_categories] is guarded and so
    returns in every world. *)
Lemma set_categories_head_returns w :
  ∃ c, (if does_item_exist TAG_CATEGORIES_CONTAINER (dpg w)
        then dpg_call (delete_item TAG_CATEGORIES_CONTAINER true) w
        else Done w) = Done (set_dpg c w).
Proof.
  unfold does_item_exist, dpg_call, delete_item.
  destruct (items (dpg w) !! TAG_CATEGORIES_CONTAINER) as [it|] eqn:E.
  - rewrite bool_decide_eq_true_2 by by eexists. by eexists.
  - rewrite bool_decide_eq_false_2 by (by intros [? ?]).
    exists (dpg w). by destruct w.
Qed.

Lemma set_categories_clears_callbacks cats w :
  _category_callbacks (self (world_of (set_categories cats w))) = ∅.
Proof.
  unfold set_categories. set (loop := for_each _ _).
  assert (Hloop : leaves (fun w => _category_callbacks (self w)) loop)
    by by apply (leaves_grid_rows (fun w => _category_callbacks (self w))).
  destruct (set_categories_head_returns w) as [c Hc].
  unfold and_then at 1 2 3. rewrite Hc. simpl. by rewrite Hloop.
Qed.

(** X8.  [set_categories] clears [_category_callbacks] in every
    world, whether it returns or raises: afterwards a click, a right click
    and a number key on any slot call no callback, whatever the callbacks
    would do. *)
Theorem set_categories_drops_every_binding env cats w idx :
  let w' := world_of (set_categories cats w) in
  _category_callbacks (self w') = ∅ ∧
  log (world_of (_on_category_click env idx w')) = log w ∧
  log (world_of (_on_category_right_click env idx w')) = log w ∧
  log (world_of (_handle_keyboard_category env idx w')) = log w.
Proof.
  cbv zeta. pose proof (set_categories_clears_callbacks cats w) as Hcb.
  assert (Hlog : log (world_of (set_categories cats w)) = log w)
    by by apply (leaves_set_categories log).
  set (w' := world_of (set_categories cats w)) in *.
  assert (Hclick : ∀ w1, _category_callbacks (self w1) = ∅ ->
            log (world_of (_on_category_click env idx w1)) = log w1).
  { intros w1 H1. unfold _on_category_click, and_then.
    pose proof (leaves_show_button_feedback log ltac:(done) idx ltac:(done) ltac:(done) w1) as Hl.
    pose proof (leaves_show_button_feedback (fun w => _category_callbacks (self w))
                  ltac:(done) idx ltac:(done) ltac:(done) w1) as Hc.
    destruct (_show_button_feedback idx w1) as [w2|w2]; simpl in *; [|done].
    by rewrite Hc, H1, lookup_empty. }
  split; [done|]. split; [|split].
  - by rewrite Hclick.
  - unfold _on_category_right_click. by rewrite Hcb, lookup_empty.
  - unfold _handle_keyboard_category.
    destruct (_modal_open (self w')); [done|]. unfold and_then.
    pose proof (leaves_show_button_feedback log ltac:(done) idx ltac:(done) ltac:(done) w') as Hl.
    pose proof (leaves_show_button_feedback (fun w => _category_callbacks (self w))
                  ltac:(done) idx ltac:(done) ltac:(done) w') as Hc.
    destruct (_show_button_feedback idx w') as [w2|w2]; simpl in *; [|by rewrite Hl].
    rewrite Hclick by by rewrite Hc. by rewrite Hl.
Qed.

(** X9.  The deletion at the head of [set_categories] is guarded by
    [does_item_exist], the creation of the first row is not: without the
    container the call raises, after it has emptied the callbacks and the
    button ids, and adds no item. *)
Theorem set_categories_raises_without_the_container cats w :
  items (dpg w) !! TAG_CATEGORIES_CONTAINER = None ->
  ∃ w', set_categories cats w = Raised w' ∧
        _category_callbacks (self w') = ∅ ∧
        _category_button_ids (self w') = ∅ ∧
        items (dpg w') = items (dpg w) ∧ log w' = log w.
Proof.
  intros Hc.
  assert (Hrow : ∀ w2, items (dpg w2) !! TAG_CATEGORIES_CONTAINER = None ->
                       row cats 0 w2 = Raised w2).
  { intros w2 H2. unfold row, generate_uuid. cbv beta iota zeta.
    unfold and_then, dpg_call, add_item. cbv beta iota zeta.
    destruct (items (set_next_uuid _ _) !! TStr _); [done|].
    simpl. by rewrite H2. }
  rewrite set_categories_rows.
  unfold and_then at 1 2 3 4, does_item_exist.
  rewrite Hc. rewrite bool_decide_eq_false_2 by (by intros [? ?]).
  unfold update_self, pure. rewrite Hrow by done.
  eexists. split; [reflexivity|]. done.
Qed.

Lemma set_categories_raises_without_the_container_witness :
  ∃ w', set_categories one_defined fresh_process = Raised w' ∧
        _category_callbacks (self w') = ∅ ∧
        _category_button_ids (self w') = ∅ ∧
        items (dpg w') = items (dpg fresh_process) ∧ log w' = log fresh_process.
Proof.
  apply (set_categories_raises_without_the_container one_defined fresh_process).
  vm_compute. reflexivity.
Defined.

(** *** The timers of the category pulses *)

Lemma cancel_length k ts : length (cancel k ts) = length ts.
Proof.
  unfold cancel. destruct (ts !! k) as [tm|]; [|done].
  destruct (t_state tm); [|done|done]. apply length_insert.
Qed.

(** A timer that is pending after [cancel k] was pending before, and is
    not [k]. *)
Lemma cancel_lookup_pending k ts t fn :
  cancel k ts !! t = Some {| t_fn := fn; t_state := pending |} ->
  ts !! t = Some {| t_fn := fn; t_state := pending |} ∧ t ≠ k.
Proof.
  unfold cancel. destruct (ts !! k) as [tm|] eqn:Ek.
  - destruct (t_state tm) eqn:Es.
    + intros H. destruct (decide (t = k)) as [->|Hne].
      * rewrite list_lookup_insert_eq in H by by eapply lookup_lt_Some. done.
      * by rewrite list_lookup_insert_ne in H.
    + intros H. split; [done|]. intros ->. rewrite Ek in H.
      injection H as ->. done.
    + intros H. split; [done|]. intros ->. rewrite Ek in H.
      injection H as ->. done.
  - intros H. split; [done|]. intros ->. by rewrite Ek in H.
Qed.

Lemma after_cancel_length slot ts : length (after_cancel slot ts) = length ts.
Proof. destruct slot as [[| |]|]; simpl; try done. apply cancel_length. Qed.

Lemma after_cancel_pending slot ts t fn :
  after_cancel slot ts !! t = Some {| t_fn := fn; t_state := pending |} ->
  ts !! t = Some {| t_fn := fn; t_state := pending |} ∧ slot ≠ Some (slot_Timer t).
Proof.
  destruct slot as [[|k|]|]; simpl; try (by intros H; split).
  intros H. apply cancel_lookup_pending in H as [H Hne]. split; [done|].
  intros [= ->]. done.
Qed.

(** What [_show_button_feedback] does on a button that exists. *)
Lemma show_button_feedback_exact idx w t it :
  _category_button_ids (self w) !! idx = Some t ->
  items (dpg w) !! t = Some it ->
  ∃ w', _show_button_feedback idx w = Done w' ∧
        timers w' = after_cancel (_feedback_timers (self w) !! key_idx idx) (timers w) ++
                    [{| t_fn := restore_category t idx; t_state := pending |}] ∧
        _feedback_timers (self w') =
          <[key_idx idx := slot_Timer (length (timers w))]> (_feedback_timers (self w)) ∧
        items (dpg w') = <[t := with_theme th_category_feedback it]> (items (dpg w)) ∧
        _category_button_ids (self w') = _category_button_ids (self w) ∧
        _category_callbacks (self w') = _category_callbacks (self w) ∧
        _modal_open (self w') = _modal_open (self w) ∧
        log w' = log w.
Proof.
  intros Hid Hit. unfold _show_button_feedback. rewrite Hid.
  unfold and_then, update_self, pure, dpg_call, update_item, start_timer.
  destruct (_feedback_timers (self w) !! key_idx idx) as [[|k|]|] eqn:Hsl; simpl;
    rewrite Hit; simpl; eexists; (split; [reflexivity|]); simpl;
    rewrite ?insert_insert_eq, ?cancel_length; done.
Qed.

Lemma and_then_assoc (p q r : Proc) w : ((p >> q) >> r) w = (p >> (q >> r)) w.
Proof. unfold and_then. by destruct (p w). Qed.

(** The second half of [_show_button_feedback], from a world in which no
    pulse of the button is pending. *)
Lemma tracked_pulse_tail idx b w1 :
  (∀ t b', timers w1 !! t ≠
           Some {| t_fn := restore_category b' idx; t_state := pending |}) ->
  (∀ t b' i, i ≠ idx →
     timers w1 !! t = Some {| t_fn := restore_category b' i; t_state := pending |} →
     _feedback_timers (self w1) !! key_idx i = Some (slot_Timer t)) ->
  pulses_tracked
    (world_of
       ((dpg_call (update_item b (with_theme th_category_feedback)) >>
         (fun w =>
            let '(t, w1) := start_timer (restore_category b idx) w in
            update_self (fun v =>
              set_feedback_timers
                (<[key_idx idx := slot_Timer t]> (_feedback_timers v)) v) w1)) w1)).
Proof.
  intros Hnone Hothers. unfold and_then, dpg_call, update_item.
  destruct (items (dpg w1) !! b) as [it|].
  - unfold start_timer, update_self, pure. simpl.
    intros t b' i H. simpl in H |- *.
    destruct (decide (t = length (timers w1))) as [->|Hne].
    + rewrite list_lookup_middle in H by done. injection H as <- <-.
      apply lookup_insert_eq.
    + assert (Hold : timers w1 !! t =
                     Some {| t_fn := restore_category b' i; t_state := pending |}).
      { apply lookup_app_Some in H as [H|[Hge H]]; [done|].
        destruct (t - length (timers w1))%nat as [|n] eqn:E; [lia|].
        by destruct n. }
      destruct (decide (i = idx)) as [->|Hi]; [by apply Hnone in Hold|].
      rewrite lookup_insert_ne by congruence. by eapply Hothers.
  - simpl. intros t b' i H.
    destruct (decide (i = idx)) as [->|Hi]; [by apply Hnone in H|].
    by eapply Hothers.
Qed.

Lemma tracked_show_button_feedback idx w :
  pulses_tracked w -> pulses_tracked (world_of (_show_button_feedback idx w)).
Proof.
  intros Htr. unfold _show_button_feedback.
  destruct (_category_button_ids (self w) !! idx) as [b|] eqn:Hid; [|done].
  rewrite and_then_assoc. unfold and_then at 1. cbv beta.
  destruct (_feedback_timers (self w) !! key_idx idx) as [[|k|]|] eqn:Hsl.
  - apply (tracked_pulse_tail idx b
             (set_self (set_feedback_timers
                (<[key_idx idx := slot_None]> (_feedback_timers (self w))) (self w)) w)).
    + simpl. intros t b' H. apply Htr in H. by rewrite H in Hsl.
    + simpl. intros t b' i Hi H. rewrite lookup_insert_ne by congruence. by eapply Htr.
  - apply (tracked_pulse_tail idx b
             (set_self (set_feedback_timers
                (<[key_idx idx := slot_None]> (_feedback_timers (self w))) (self w))
                (set_timers (cancel k (timers w)) w))).
    + simpl. intros t b' H. apply cancel_lookup_pending in H as [H Hne].
      apply Htr in H. rewrite H in Hsl. by injection Hsl.
    + simpl. intros t b' i Hi H. rewrite lookup_insert_ne by congruence.
      apply cancel_lookup_pending in H as [H _]. by eapply Htr.
  - apply (tracked_pulse_tail idx b
             (set_self (set_feedback_timers
                (<[key_idx idx := slot_None]> (_feedback_timers (self w))) (self w)) w)).
    + simpl. intros t b' H. apply Htr in H. by rewrite H in Hsl.
    + simpl. intros t b' i Hi H. rewrite lookup_insert_ne by congruence. by eapply Htr.
  - apply (tracked_pulse_tail idx b w).
    + intros t b' H. apply Htr in H. by rewrite H in Hsl.
    + intros t b' i Hi H. by eapply Htr.
Qed.

(** The second half of [_show_nav_button_feedback]. *)
Lemma tracked_nav_pulse_tail which b w1 :
  pulses_tracked w1 ->
  pulses_tracked
    (world_of
       ((bind_nav_theme which true b >>
         (update_self (fun v =>
            set_feedback_timers
              (<[key_str ("nav_" +:+ which) := slot_True]> (_feedback_timers v)) v) >>
          pure (fun w => snd (start_timer (restore_nav which b) w)))) w1)).
Proof.
  intros Htr. unfold and_then at 1.
  assert (Hbind : (∃ w2, bind_nav_theme which true b w1 = Done w2 ∧
                         timers w2 = timers w1 ∧ self w2 = self w1)
                  ∨ bind_nav_theme which true b w1 = Raised w1).
  { unfold bind_nav_theme. destruct (nav_theme which true); [|by left; eexists].
    unfold dpg_call, update_item. destruct (items (dpg w1) !! b).
    - left. by eexists.
    - by right. }
  destruct Hbind as [(w2 & -> & Htm2 & Hs2) | ->]; [|done].
  unfold and_then, update_self, pure, start_timer. simpl.
  intros t b' i H. simpl in H |- *. rewrite Hs2, lookup_insert_ne by done.
  rewrite Htm2 in H.
  apply lookup_app_Some in H as [H|[Hge H]]; [by apply Htr in H|].
  destruct (t - length (timers w1))%nat as [|n] eqn:E; [done|by destruct n].
Qed.

Lemma tracked_show_nav_button_feedback which w :
  pulses_tracked w -> pulses_tracked (world_of (_show_nav_button_feedback which w)).
Proof.
  intros Htr. unfold _show_nav_button_feedback.
  destruct (_nav_button_ids (self w) !! which) as [b|]; [|done].
  cbv zeta. rewrite !and_then_assoc. unfold and_then at 1. cbv beta.
  destruct (_feedback_timers (self w) !! key_str ("nav_" +:+ which)) as [sl|].
  - apply (tracked_nav_pulse_tail which b
             (set_self (set_feedback_timers
                (<[key_str ("nav_" +:+ which) := slot_None]> (_feedback_timers (self w)))
                (self w)) w)).
    intros t b' i H. simpl. rewrite lookup_insert_ne by done. by eapply Htr.
  - by apply (tracked_nav_pulse_tail which b w).
Qed.

Lemma tracked_set_categories cats w :
  pulses_tracked w -> pulses_tracked (world_of (set_categories cats w)).
Proof.
  intros Htr t b i H.
  assert (Htm : timers (world_of (set_categories cats w)) = timers w)
    by by apply (leaves_set_categories timers).
  assert (Hfb : _feedback_timers (self (world_of (set_categories cats w))) =
                _feedback_timers (self w))
    by by apply (leaves_set_categories (fun w => _feedback_timers (self w))).
  rewrite Hfb. rewrite Htm in H. by apply Htr in H.
Qed.

Lemma tracked_timer_fires t w :
  pulses_tracked w -> pulses_tracked (timer_fires t w).
Proof.
  intros Htr. unfold timer_fires.
  destruct (timers w !! t) as [[fn st]|] eqn:Ht; [|done].
  destruct st; [|done|done]. simpl.
  set (w1 := set_timers _ w).
  assert (Hold : ∀ t' fn', timers w1 !! t' = Some {| t_fn := fn'; t_state := pending |} ->
                 timers w !! t' = Some {| t_fn := fn'; t_state := pending |} ∧ t' ≠ t).
  { intros t' fn' H. subst w1. simpl in H.
    destruct (decide (t' = t)) as [->|Hne].
    - rewrite list_lookup_insert_eq in H by by eapply lookup_lt_Some. done.
    - by rewrite list_lookup_insert_ne in H. }
  destruct fn as [b idx | which b]; simpl.
  - unfold restore_theme_category, and_then.
    assert (Hstep : ∃ w2,
      (match items (dpg w1) !! b with
       | Some it => dpg_call (update_item b (with_theme (restored_theme (label it)))) w1
       | None => Done w1
       end) = Done w2 ∧ timers w2 = timers w1 ∧ self w2 = self w1).
    { unfold dpg_call, update_item.
      destruct (items (dpg w1) !! b) as [it|]; by eexists. }
    destruct Hstep as (w2 & -> & Htm2 & Hs2). unfold update_self, pure. simpl.
    intros t' b' i H. simpl in H |- *. rewrite Htm2 in H. apply Hold in H as [H Hne].
    rewrite Hs2. simpl.
    destruct (decide (i = idx)) as [->|Hi].
    + apply Htr in H. apply Htr in Ht. rewrite H in Ht. by injection Ht.
    + rewrite lookup_delete_ne by congruence. by apply Htr in H.
  - unfold restore_theme_nav.
    assert (Hw1 : pulses_tracked w1).
    { intros t' b' i H. apply Hold in H as [H _]. by apply Htr in H. }
    destruct (_feedback_timers (self w1) !! key_str _) as [[|k|]|];
      [exact Hw1| | |exact Hw1].
    + unfold bind_nav_theme, and_then.
      destruct (nav_theme which false); simpl.
      * unfold dpg_call, update_item. destruct (items (dpg w1) !! b) as [it|]; [|done].
        simpl. intros t' b' i H. simpl in H |- *.
        rewrite lookup_delete_ne by done. by apply Hw1 in H.
      * intros t' b' i H. simpl in H |- *.
        rewrite lookup_delete_ne by done. by apply Hw1 in H.
    + unfold bind_nav_theme, and_then.
      destruct (nav_theme which false); simpl.
      * unfold dpg_call, update_item. destruct (items (dpg w1) !! b) as [it|]; [|done].
        simpl. intros t' b' i H. simpl in H |- *.
        rewrite lookup_delete_ne by done. by apply Hw1 in H.
      * intros t' b' i H. simpl in H |- *.
        rewrite lookup_delete_ne by done. by apply Hw1 in H.
Qed.

Lemma tracked_run_pulses evs : ∀ w,
  pulses_tracked w -> pulses_tracked (run_pulses evs w).
Proof.
  induction evs as [|ev evs IH]; intros w Htr; [done|].
  simpl. apply IH. destruct ev; simpl.
  - by apply tracked_show_button_feedback.
  - by apply tracked_show_nav_button_feedback.
  - by apply tracked_set_categories.
  - by apply tracked_timer_fires.
Qed.

(** The pending timers of a button, spelled out. *)
Lemma pending_for_In idx w t :
  In t (pending_for idx w) ↔
  ∃ b, timers w !! t = Some {| t_fn := restore_category b idx; t_state := pending |}.
Proof.
  unfold pending_for, pending_timers. rewrite !filter_In, in_seq. split.
  - intros [[_ Hp] Hf]. destruct (timers w !! t) as [[fn st]|]; [|done].
    simpl in Hp. apply bool_decide_eq_true in Hp. subst st.
    destruct fn as [b i|]; [|done]. apply bool_decide_eq_true in Hf. subst i.
    by exists b.
  - intros [b H]. rewrite H. simpl. repeat split; try lia.
    + apply lookup_lt_Some in H. lia.
    + by rewrite bool_decide_eq_true_2.
Qed.

Lemma pending_for_NoDup idx w : List.NoDup (pending_for idx w).
Proof.
  unfold pending_for, pending_timers.
  apply List.NoDup_filter, List.NoDup_filter, List.seq_NoDup.
Qed.

Lemma at_most_one {A} (l : list A) :
  List.NoDup l -> (∀ x y, In x l → In y l → x = y) -> (length l <= 1)%nat.
Proof.
  intros Hnd Heq. destruct l as [|x [|y l]]; simpl; try lia.
  exfalso. inversion Hnd as [|? ? Hx _]; subst. apply Hx.
  rewrite (Heq x y); simpl; auto.
Qed.

Lemma exactly_one {A} (l : list A) x :
  List.NoDup l -> (∀ y, In y l ↔ y = x) -> l = [x].
Proof.
  intros Hnd Hin.
  assert (Hlen : (length l <= 1)%nat).
  { apply at_most_one; [done|]. intros a b Ha Hb.
    apply Hin in Ha, Hb. congruence. }
  destruct l as [|y [|z l]]; simpl in Hlen; try lia.
  - assert (In x []) by by apply Hin. done.
  - f_equal. apply Hin. by left.
Qed.

(** X10.  Over any sequence of pulses of category buttons, pulses
    of navigation buttons, rebuilds of the grid and timers running out,
    every pending restore of a category button is the timer that
    [_feedback_timers] holds for its slot; so no slot ever has two pending
    timers. *)
Theorem at_most_one_pending_timer_per_button evs w idx :
  pulses_tracked w ->
  pulses_tracked (run_pulses evs w) ∧
  (length (pending_for idx (run_pulses evs w)) <= 1)%nat.
Proof.
  intros Htr. pose proof (tracked_run_pulses evs w Htr) as H.
  split; [done|]. apply at_most_one; [apply pending_for_NoDup|].
  intros x y Hx Hy. apply pending_for_In in Hx as [bx Hx], Hy as [by' Hy].
  apply H in Hx, Hy. rewrite Hx in Hy. by injection Hy.
Qed.

Lemma at_most_one_pending_timer_per_button_witness :
  pulses_tracked
    (run_pulses [pulse 0; pulse 3; pulse 0; rebuild one_defined; fire 0; pulse 0;
                 nav_pulse "prev"; fire 2] view_ready) ∧
  (length (pending_for 0
     (run_pulses [pulse 0; pulse 3; pulse 0; rebuild one_defined; fire 0; pulse 0;
                  nav_pulse "prev"; fire 2] view_ready)) <= 1)%nat.
Proof.
  apply (at_most_one_pending_timer_per_button
           [pulse 0; pulse 3; pulse 0; rebuild one_defined; fire 0; pulse 0;
            nav_pulse "prev"; fire 2] view_ready 0).
  intros t b i H. vm_compute in H. destruct t; discriminate.
Defined.

Lemma cancel_last l fn :
  cancel (length l) (l ++ [{| t_fn := fn; t_state := pending |}]) =
  l ++ [{| t_fn := fn; t_state := cancelled |}].
Proof.
  unfold cancel. rewrite list_lookup_middle by done. simpl.
  rewrite insert_app_r_alt by lia. by rewrite Nat.sub_diag.
Qed.

(** The timers of a world after one pulse of button [idx], and after two
    in a row. *)
Lemma pending_after_pulses idx w ac (tail : list Timer) k :
  pulses_tracked w ->
  ac = after_cancel (_feedback_timers (self w) !! key_idx idx) (timers w) ->
  (∀ y b, tail !! y = Some {| t_fn := restore_category b idx; t_state := pending |} ↔
          y = k ∧ ∃ b0, tail !! k = Some {| t_fn := restore_category b0 idx; t_state := pending |}
                        ∧ b = b0) ->
  is_Some (tail !! k) ->
  (∃ b0, tail !! k = Some {| t_fn := restore_category b0 idx; t_state := pending |}) ->
  ∀ w', timers w' = ac ++ tail ->
        pending_for idx w' = [(length (timers w) + k)%nat].
Proof.
  intros Htr -> Htail Hk [b0 Hb0] w' Htm.
  apply exactly_one; [apply pending_for_NoDup|].
  intros y. rewrite pending_for_In, Htm. split.
  - intros [b H]. apply lookup_app_Some in H as [H|[Hge H]].
    + apply after_cancel_pending in H as [H Hne]. apply Htr in H. done.
    + rewrite after_cancel_length in *. apply Htail in H as [H _]. lia.
  - intros ->. exists b0. rewrite lookup_app_r; rewrite after_cancel_length; [|lia].
    by replace (length (timers w) + k - length (timers w))%nat with k by lia.
Qed.

(** X11.  [_handle_keyboard_category] calls [_show_button_feedback]
    and then [_on_category_click], which calls it again: a number key
    starts two timers, the first of which is cancelled at once, where a
    click starts one.  Either way one timer is pending for the slot. *)
Theorem number_key_pulses_the_button_twice env w idx t :
  keeps_timers env ->
  pulses_tracked w ->
  _modal_open (self w) = false ->
  _category_button_ids (self w) !! idx = Some t ->
  is_Some (items (dpg w) !! t) ->
  let n := length (timers w) in
  let by_key := world_of (_handle_keyboard_category env idx w) in
  let by_click := world_of (_on_category_click env idx w) in
  length (timers by_click) = S n ∧
  pending_for idx by_click = [n] ∧
  length (timers by_key) = S (S n) ∧
  timers by_key !! n = Some {| t_fn := restore_category t idx; t_state := cancelled |} ∧
  pending_for idx by_key = [S n].
Proof.
  intros Henv Htr Hmod Hid [it Hit]. cbv zeta.
  (* what the callback of the slot, if any, leaves of the timers *)
  assert (Hcall : ∀ w1, timers (world_of
            (match _category_callbacks (self w1) !! idx with
             | Some hs => invoke env (h_click hs) (IdxArg idx) w1
             | None => Done w1
             end)) = timers w1).
  { intros w1. destruct (_category_callbacks (self w1) !! idx); [|done].
    unfold invoke. by rewrite Henv. }
  destruct (show_button_feedback_exact idx w t it Hid Hit)
    as (w1 & Hrun1 & Htm1 & Hfb1 & Hit1 & Hid1 & _).
  assert (Hit1' : items (dpg w1) !! t = Some (with_theme th_category_feedback it))
    by (rewrite Hit1; apply lookup_insert_eq).
  rewrite <- Hid1 in Hid.
  destruct (show_button_feedback_exact idx w1 t _ Hid Hit1')
    as (w2 & Hrun2 & Htm2 & _).
  rewrite Hfb1, lookup_insert_eq in Htm2. simpl in Htm2.
  rewrite Htm1 in Htm2.
  set (ac := after_cancel (_feedback_timers (self w) !! key_idx idx) (timers w)) in *.
  assert (Hac : length ac = length (timers w)) by apply after_cancel_length.
  assert (Hc : cancel (length (timers w))
                 (ac ++ [{| t_fn := restore_category t idx; t_state := pending |}]) =
               ac ++ [{| t_fn := restore_category t idx; t_state := cancelled |}])
    by (rewrite <- Hac; apply cancel_last).
  (* the click *)
  assert (Hclick : timers (world_of (_on_category_click env idx w)) =
                   ac ++ [{| t_fn := restore_category t idx; t_state := pending |}]).
  { unfold _on_category_click. rewrite (and_then_Done _ _ _ _ Hrun1).
    by rewrite Hcall. }
  (* the key *)
  assert (Hkey : timers (world_of (_handle_keyboard_category env idx w)) =
                 ac ++ [{| t_fn := restore_category t idx; t_state := cancelled |};
                        {| t_fn := restore_category t idx; t_state := pending |}]).
  { unfold _handle_keyboard_category. rewrite Hmod.
    rewrite (and_then_Done _ _ _ _ Hrun1).
    unfold _on_category_click. rewrite (and_then_Done _ _ _ _ Hrun2).
    rewrite Hcall, Htm2, Hc, <- app_assoc. done. }
  split; [|split; [|split; [|split]]].
  - rewrite Hclick, length_app, Hac. simpl. lia.
  - etransitivity; [|by rewrite <- (Nat.add_0_r (length (timers w)))].
    apply (pending_after_pulses idx w ac
             [{| t_fn := restore_category t idx; t_state := pending |}] 0%nat);
      try done.
    + intros y b. split.
      * destruct y as [|y]; [|done]. intros [= <-]. split; [done|]. by eexists.
      * intros [-> (b0 & [= <-] & ->)]. done.
    + by eexists.
  - rewrite Hkey, length_app, Hac. simpl. lia.
  - rewrite Hkey. rewrite lookup_app_r by lia. by rewrite Hac, Nat.sub_diag.
  - etransitivity; [|by rewrite <- (Nat.add_1_r (length (timers w)))].
    apply (pending_after_pulses idx w ac
             [{| t_fn := restore_category t idx; t_state := cancelled |};
              {| t_fn := restore_category t idx; t_state := pending |}] 1%nat);
      try done.
    + intros y b. split.
      * destruct y as [|[|y]]; [done| |done]. intros [= <-]. split; [done|]. by eexists.
      * intros [-> (b0 & [= <-] & ->)]. done.
    + by eexists.
Qed.

Lemma number_key_pulses_the_button_twice_witness :
  let n := length (timers view_two_bound) in
  let by_key := world_of (_handle_keyboard_category returns 0 view_two_bound) in
  let by_click := world_of (_on_category_click returns 0 view_two_bound) in
  length (timers by_click) = S n ∧
  pending_for 0 by_click = [n] ∧
  length (timers by_key) = S (S n) ∧
  timers by_key !! n =
    Some {| t_fn := restore_category (TInt 1005) 0; t_state := cancelled |} ∧
  pending_for 0 by_key = [S n].
Proof.
  apply (number_key_pulses_the_button_twice returns view_two_bound 0 (TInt 1005)).
  - intros h a w. reflexivity.
  - intros t b i H. vm_compute in H. destruct t; discriminate.
  - vm_compute. reflexivity.
  - vm_compute. reflexivity.
  - vm_compute. eexists. reflexivity.
Defined.

(** *** The folder display *)

Lemma with_value_id it : with_value (value it) it = it.
Proof. by destruct it. Qed.

Lemma with_label_id it : with_label (label it) it = it.
Proof. by destruct it. Qed.

Lemma set_items_id c : set_items (items c) c = c.
Proof. by destruct c. Qed.

Lemma set_dpg_id w : set_dpg (dpg w) w = w.
Proof. by destruct w. Qed.

Lemma folder_tags_differ : TStr "selected_folder_path" ≠ TStr "select_folder_button".
Proof. intros [=]. Qed.

(** What [set_selected_folder_path] leaves behind when both items exist:
    the text reads [shown], the button is labelled [lbl]. *)
Lemma set_selected_folder_path_run normpath p w txt btn :
  items (dpg w) !! TStr "selected_folder_path" = Some txt ->
  items (dpg w) !! TStr "select_folder_button" = Some btn ->
  set_selected_folder_path normpath p w =
  Done (set_dpg
          (set_items
             (<[TStr "select_folder_button" :=
                  with_label (if Py.truthy p then "Change Source Folder"
                              else "Select Source Folder") btn]>
                (<[TStr "selected_folder_path" :=
                     with_value (StrValue (if Py.truthy p then normpath p
                                           else "No folder selected")) txt]>
                   (items (dpg w))))
             (dpg w)) w).
Proof.
  intros Ht Hb. pose proof folder_tags_differ as Hne.
  unfold set_selected_folder_path, update_select_folder_button.
  destruct (Py.truthy p); simpl;
    unfold and_then, dpg_call, update_item, does_item_exist; rewrite Ht; simpl;
    rewrite lookup_insert_ne by done; rewrite Hb;
    rewrite bool_decide_eq_true_2 by (by eexists); simpl; done.
Qed.

(** X12.  [set_selected_folder_path(p)] with a non-empty [p] shows
    the normalised path and labels the button "Change Source Folder";
    with the empty path it shows "No folder selected" and the label
    "Select Source Folder".  No other item and nothing of the view
    changes, and clearing after choosing gives back the world in which
    nothing was chosen. *)
Theorem set_selected_folder_path_shows_the_folder normpath w txt btn (p : Py.str) :
  items (dpg w) !! TStr "selected_folder_path" = Some txt ->
  items (dpg w) !! TStr "select_folder_button" = Some btn ->
  p ≠ "" ->
  let chosen := world_of (set_selected_folder_path normpath p w) in
  let cleared := world_of (set_selected_folder_path normpath "" chosen) in
  value <$> items (dpg chosen) !! TStr "selected_folder_path" =
    Some (StrValue (normpath p)) ∧
  label <$> items (dpg chosen) !! TStr "select_folder_button" =
    Some (Py.text "Change Source Folder") ∧
  value <$> items (dpg cleared) !! TStr "selected_folder_path" =
    Some (StrValue "No folder selected") ∧
  label <$> items (dpg cleared) !! TStr "select_folder_button" =
    Some (Py.text "Select Source Folder") ∧
  (∀ t, t ≠ TStr "selected_folder_path" → t ≠ TStr "select_folder_button" →
        items (dpg chosen) !! t = items (dpg w) !! t) ∧
  self chosen = self w ∧ log chosen = log w ∧
  (value txt = StrValue "No folder selected" → label btn = Py.text "Select Source Folder" →
   cleared = w).
Proof.
  intros Ht Hb Hp. cbv zeta. pose proof folder_tags_differ as Hne.
  rewrite (set_selected_folder_path_run normpath p w txt btn Ht Hb).
  assert (Htp : Py.truthy p = true) by by destruct p.
  rewrite Htp. simpl.
  erewrite (set_selected_folder_path_run normpath "" _ _ _); simpl;
    [|rewrite lookup_insert_ne by done; apply lookup_insert_eq
     |apply lookup_insert_eq].
  simpl. rewrite !lookup_insert_eq. rewrite lookup_insert_ne by done.
  rewrite !lookup_insert_eq. simpl.
  split; [done|]. split; [done|].
  split; [by rewrite (lookup_insert_ne _ _ _ _ (not_eq_sym Hne)), lookup_insert_eq|].
  split; [done|].
  split; [|split; [done|split; [done|]]].
  - intros t H1 H2. by rewrite !lookup_insert_ne.
  - intros Hv Hl.
    assert (Hitems :
      <[TStr "select_folder_button" :=
          with_label "Select Source Folder" (with_label "Change Source Folder" btn)]>
        (<[TStr "selected_folder_path" :=
             with_value (StrValue "No folder selected")
               (with_value (StrValue (normpath p)) txt)]>
           (<[TStr "select_folder_button" := with_label "Change Source Folder" btn]>
              (<[TStr "selected_folder_path" :=
                   with_value (StrValue (normpath p)) txt]> (items (dpg w))))) =
      items (dpg w)).
    { apply map_eq. intros k.
      destruct (decide (k = TStr "select_folder_button")) as [->|Hk1].
      - rewrite lookup_insert_eq, Hb. f_equal. rewrite <- Hl. by destruct btn.
      - rewrite lookup_insert_ne by done.
        destruct (decide (k = TStr "selected_folder_path")) as [->|Hk2].
        + rewrite lookup_insert_eq, Ht. f_equal. rewrite <- Hv. by destruct txt.
        + by rewrite !lookup_insert_ne. }
    rewrite Hitems. destruct w as [c ? ? ? ? ? ?]. simpl. by destruct c.
Qed.

Lemma set_selected_folder_path_shows_the_folder_witness :
  let chosen := world_of (set_selected_folder_path (fun s => s) "/photos" started) in
  let cleared := world_of (set_selected_folder_path (fun s => s) "" chosen) in
  value <$> items (dpg chosen) !! TStr "selected_folder_path" =
    Some (StrValue "/photos") ∧
  label <$> items (dpg chosen) !! TStr "select_folder_button" =
    Some (Py.text "Change Source Folder") ∧
  value <$> items (dpg cleared) !! TStr "selected_folder_path" =
    Some (StrValue "No folder selected") ∧
  label <$> items (dpg cleared) !! TStr "select_folder_button" =
    Some (Py.text "Select Source Folder") ∧
  (∀ t, t ≠ TStr "selected_folder_path" → t ≠ TStr "select_folder_button" →
        items (dpg chosen) !! t = items (dpg started) !! t) ∧
  self chosen = self started ∧ log chosen = log started ∧
  (value (with_value (StrValue "No folder selected") (new_item mvText)) =
     StrValue "No folder selected" →
   label (with_size 170 30
            (with_theme th_select_folder
               (with_callback bound_on_select_folder
                  (with_label "Select Source Folder" (new_item mvButton))))) =
     Py.text "Select Source Folder" →
   cleared = started).
Proof.
  pose proof (set_selected_folder_path_shows_the_folder (fun s => s) started
    (with_ancestors [TAG_TOP_CONTROLS; TStr "center_content"; TInt 1003; TAG_MAIN_WINDOW]
       (with_value (StrValue "No folder selected") (new_item mvText)))
    (with_ancestors [TAG_TOP_CONTROLS; TStr "center_content"; TInt 1003; TAG_MAIN_WINDOW]
       (with_theme th_select_folder
          (with_size 170 30
             (with_callback bound_on_select_folder
                (with_label "Select Source Folder" (new_item mvButton))))))
    "/photos") as H.
  apply H.
  - vm_compute. reflexivity.
  - vm_compute. reflexivity.
  - discriminate.
Defined.

(** *** The image area without its widget *)

(** X13.  [show_image] guards [configure_item] with
    [does_item_exist] but not [set_item_label]: without the image widget
    [show_image(None)] does nothing, while [show_image(photo)] loads the
    texture and then raises. *)
Theorem show_image_raises_without_the_display w photo tex :
  items (dpg w) !! TAG_IMAGE_DISPLAY = None ->
  items (dpg w) !! TAG_IMAGE_TEXTURE = Some tex ->
  show_image None w = Done w ∧
  show_image (Some photo) w =
    Raised (set_dpg
              (set_items (<[TAG_IMAGE_TEXTURE :=
                              with_value (TextureValue (texture_data photo)) tex]>
                            (items (dpg w))) (dpg w)) w).
Proof.
  intros Hd Ht.
  assert (Hne : TAG_IMAGE_TEXTURE ≠ TAG_IMAGE_DISPLAY) by (intros [=]).
  unfold show_image, and_then, does_item_exist, dpg_call, update_item.
  rewrite Hd, Ht. rewrite bool_decide_eq_false_2 by (by intros [? ?]).
  split; [done|]. simpl.
  rewrite lookup_insert_ne by done. rewrite Hd.
  rewrite bool_decide_eq_false_2 by (by intros [? ?]). simpl.
  rewrite lookup_insert_ne by done. by rewrite Hd.
Qed.

Lemma show_image_raises_without_the_display_witness :
  show_image None texture_only = Done texture_only ∧
  show_image (Some one_pixel) texture_only =
    Raised (set_dpg
              (set_items (<[TAG_IMAGE_TEXTURE :=
                              with_value (TextureValue (texture_data one_pixel))
                                (new_item mvDynamicTexture)]>
                            (items (dpg texture_only))) (dpg texture_only)) texture_only).
Proof.
  apply (show_image_raises_without_the_display texture_only one_pixel
           (new_item mvDynamicTexture)).
  - vm_compute. reflexivity.
  - vm_compute. reflexivity.
Defined.

(** *** The end of the process *)

(** X14.  [protocol] registers a close callback only under the name
    "WM_DELETE_WINDOW" and only when one is given.  [quit] asks the loop
    to stop and runs [destroy]: the close callback is called once and the
    context is destroyed after it returns; when the callback raises the
    context is left alive. *)
Theorem quit_runs_the_close_callback_before_the_context_goes env w h :
  transparent env ->
  (∀ w0, returned (env h NoArgs w0) = true) ->
  let registered := world_of (protocol "WM_DELETE_WINDOW" (Some h) w) in
  (∃ p, quit env (running registered) = Returned p ∧
        log (world p) = log w ++ [Call h NoArgs] ∧
        stop_requested p = true ∧ context_alive p = false) ∧
  (∃ p, quit raises (running registered) = Failed p ∧
        log (world p) = log w ++ [Call h NoArgs] ∧
        stop_requested p = true ∧ context_alive p = true) ∧
  (∀ name, name ≠ "WM_DELETE_WINDOW" → protocol name (Some h) w = Done w) ∧
  (∀ name, protocol name None w = Done w) ∧
  (_callbacks (self w) !! "close" = None →
   quit env (running w) =
   Returned {| world := w; stop_requested := true; context_alive := false |}).
Proof.
  intros Henv Hret. cbv zeta.
  split; [|split; [|split; [|split]]].
  - unfold quit, destroy, call_registered, invoke. simpl.
    rewrite lookup_insert_eq.
    pose proof (Hret (record (Call h NoArgs)
      (set_self (set_callbacks (<["close" := h]> (_callbacks (self w))) (self w)) w))) as Hr.
    pose proof (Henv h NoArgs (record (Call h NoArgs)
      (set_self (set_callbacks (<["close" := h]> (_callbacks (self w))) (self w)) w))) as Hl.
    destruct (env h NoArgs _) as [w'|w']; [|done].
    eexists. split; [reflexivity|]. simpl in *. by rewrite Hl.
  - unfold quit, destroy, call_registered, invoke, raises. simpl.
    rewrite lookup_insert_eq. eexists. split; [reflexivity|]. done.
  - intros name Hname. unfold protocol.
    apply String.eqb_neq in Hname. by rewrite Hname.
  - done.
  - intros Hc. unfold quit, destroy, call_registered. simpl. by rewrite Hc.
Qed.

Lemma quit_runs_the_close_callback_before_the_context_goes_witness :
  let registered := world_of (protocol "WM_DELETE_WINDOW" (Some pick) started) in
  (∃ p, quit returns (running registered) = Returned p ∧
        log (world p) = log started ++ [Call pick NoArgs] ∧
        stop_requested p = true ∧ context_alive p = false) ∧
  (∃ p, quit raises (running registered) = Failed p ∧
        log (world p) = log started ++ [Call pick NoArgs] ∧
        stop_requested p = true ∧ context_alive p = true) ∧
  (∀ name, name ≠ "WM_DELETE_WINDOW" → protocol name (Some pick) started = Done started) ∧
  (∀ name, protocol name None started = Done started) ∧
  (_callbacks (self started) !! "close" = None →
   quit returns (running started) =
   Returned {| world := started; stop_requested := true; context_alive := false |}).
Proof.
  apply (quit_runs_the_close_callback_before_the_context_goes returns started pick).
  - exact returns_transparent.
  - intros w0. reflexivity.
Defined.

(** *** Dialogs *)

(** X15.  [_center_window] moves only the given window.  The
    position is never negative; when the window fits the viewport the
    margins on both sides differ by at most one pixel, and when it does
    not fit the window sits at the edge. *)
Theorem center_window_keeps_the_window_on_screen w t it width height :
  items (dpg w) !! t = Some it ->
  let vp_width := (viewport_client (dpg w)).1 in
  let vp_height := (viewport_client (dpg w)).2 in
  ∃ w' x y,
    _center_window t width height w = Done w' ∧
    items (dpg w') !! t = Some (with_pos x y it) ∧
    (∀ t', t' ≠ t → items (dpg w') !! t' = items (dpg w) !! t') ∧
    0 <= x ∧ 0 <= y ∧
    (width <= vp_width → 0 <= vp_width - (x + width + x) <= 1) ∧
    (height <= vp_height → 0 <= vp_height - (y + height + y) <= 1) ∧
    (vp_width < width → x = 0) ∧
    (vp_height < height → y = 0).
Proof.
  intros Hit. cbv zeta. unfold _center_window.
  destruct (viewport_client (dpg w)) as [vw vh]. simpl.
  unfold dpg_call, update_item. rewrite Hit.
  eexists _, _, _. split; [reflexivity|]. simpl.
  split; [apply lookup_insert_eq|].
  split; [intros t' Hne; by rewrite lookup_insert_ne|].
  pose proof (Z.div_mod (vw - width) 2 ltac:(lia)).
  pose proof (Z.mod_pos_bound (vw - width) 2 ltac:(lia)).
  pose proof (Z.div_mod (vh - height) 2 ltac:(lia)).
  pose proof (Z.mod_pos_bound (vh - height) 2 ltac:(lia)).
  repeat split; lia.
Qed.

Lemma center_window_keeps_the_window_on_screen_witness :
  let vp_width := (viewport_client (dpg started)).1 in
  let vp_height := (viewport_client (dpg started)).2 in
  ∃ w' x y,
    _center_window TAG_MAIN_WINDOW 315 200 started = Done w' ∧
    items (dpg w') !! TAG_MAIN_WINDOW =
      Some (with_pos x y
              (with_pos 0 0 (with_size DEFAULT_WIDTH DEFAULT_HEIGHT (new_item mvWindow)))) ∧
    (∀ t', t' ≠ TAG_MAIN_WINDOW → items (dpg w') !! t' = items (dpg started) !! t') ∧
    0 <= x ∧ 0 <= y ∧
    (315 <= vp_width → 0 <= vp_width - (x + 315 + x) <= 1) ∧
    (200 <= vp_height → 0 <= vp_height - (y + 200 + y) <= 1) ∧
    (vp_width < 315 → x = 0) ∧
    (vp_height < 200 → y = 0).
Proof.
  apply (center_window_keeps_the_window_on_screen started TAG_MAIN_WINDOW
           (with_pos 0 0 (with_size DEFAULT_WIDTH DEFAULT_HEIGHT (new_item mvWindow)))
           315 200).
  vm_compute. reflexivity.
Defined.

Lemma well_rooted_b_spec c : well_rooted_b c = true -> well_rooted c.
Proof.
  unfold well_rooted_b, well_rooted. rewrite forallb_forall.
  intros H t it a Hit Ha.
  specialize (H (t, it)). rewrite <- list_elem_of_In, elem_of_map_to_list in H.
  specialize (H Hit). simpl in H. rewrite forallb_forall in H.
  specialize (H a). rewrite <- list_elem_of_In in H.
  by apply bool_decide_eq_true in H.
Qed.

(** A click that reaches a button runs the callable bound to it. *)
Lemma ui_click_bound env t w c (p : Proc) :
  bound_to t w = Some c ->
  (∀ u, run_closure env c u = p) ->
  ui_click env t w = world_of (p w).
Proof.
  unfold bound_to, ui_click. intros Hb Hrun.
  destruct (items (dpg w) !! t) as [it|]; [|done].
  destruct (visible t (dpg w) && enabled it); [|done].
  rewrite Hb. unfold dispatch. by rewrite Hrun.
Qed.

(** Deleting a window takes away what was built below it and nothing
    else. *)
Lemma delete_subtree (m m' : gmap Tag Item) win :
  (∀ k x, m' !! k = Some x → m !! k = Some x ∨ k = win ∨ win ∈ ancestors x) ->
  (∀ k x, m !! k = Some x → m' !! k = Some x ∧ k ≠ win ∧ win ∉ ancestors x) ->
  delete win (filter (fun e => ¬ below win e) m') = m.
Proof.
  intros H1 H2. apply map_eq. intros k. apply option_eq. intros x.
  rewrite lookup_delete_Some, map_lookup_filter_Some. unfold below. simpl. split.
  - intros (Hne & Hm' & Hb). by destruct (H1 k x Hm') as [|[|]].
  - intros Hm. by destruct (H2 _ _ Hm) as (? & ? & ?).
Qed.

(** A tag that is free in a well-rooted registry has nothing below it. *)
Lemma free_tag_has_nothing_below c t k x :
  well_rooted c -> items c !! t = None -> items c !! k = Some x ->
  k ≠ t ∧ t ∉ ancestors x.
Proof.
  intros Hwr Hfree Hk. split.
  - intros ->. by rewrite Hfree in Hk.
  - intros Hin. destruct (Hwr k x t Hk Hin) as [y Hy]. by rewrite Hfree in Hy.
Qed.

(** The close button of a dialog is the third item built after the
    window. *)
Ltac exists_ok :=
  match goal with
  | |- ∃ w1 ok, @?P w1 ok =>
      match goal with
      | w : World |- _ =>
          cut (∃ w1, P w1 (TInt (next_uuid (dpg w) + 2)));
          [ intros [w1 H]; exists w1, (TInt (next_uuid (dpg w) + 2)); exact H
          | cbv beta ]
      end
  end.

(** X16.  [_show_message_dialog] opens a modal window with the
    given title whose OK button is bound to [_close_dialog], and leaves
    the view and the log alone; a click on OK deletes exactly what the
    call has built, so the items are again those from before. *)
Theorem message_dialog_closes_without_a_trace env title message w :
  fresh (dpg w) ->
  well_rooted (dpg w) ->
  ∃ w1 ok, _show_message_dialog title message w = Done w1 ∧
        (∃ win, items (dpg w1) !! message_window w = Some win ∧
                modal win = true ∧ show win = true ∧ label win = title) ∧
        bound_to ok w1 = Some (message_close (message_window w)) ∧
        self w1 = self w ∧ log w1 = log w ∧
        items (dpg (ui_click env ok w1)) = items (dpg w) ∧
        self (ui_click env ok w1) = self w ∧
        log (ui_click env ok w1) = log w.
Proof.
  intros Hf Hwr. exists_ok. unfold message_window.
  destruct w as [c v ins tm u4 da lg]. destruct c as [its regs khs n vp]. simpl in *.
  assert (H0 : its !! TStr (Py.str_of_int (Z.of_N n)) = None)
    by (apply (fresh_str _ n Hf); simpl; lia).
  assert (H1 : its !! TInt (n + 1)%N = None) by (apply (fresh_int _ _ Hf); simpl; lia).
  assert (H2 : its !! TInt (n + 1 + 1)%N = None) by (apply (fresh_int _ _ Hf); simpl; lia).
  replace (n + 2)%N with (n + 1 + 1)%N by lia.
  unfold _show_message_dialog, generate_uuid. simpl.
  unfold and_then, add, add_auto, dpg_call, add_item, generate_uuid, skip. simpl.
  repeat (lookup_any; simpl).
  unfold _center_window, dpg_call, update_item. simpl. destruct vp as [vw vh].
  repeat (lookup_any; simpl).
  eexists. split; [reflexivity|]. simpl.
  split; [eexists; split; [apply lookup_insert_eq|done]|].
  match goal with
  | |- bound_to ?t ?w1 = _ ∧ _ =>
      assert (Hb : bound_to t w1 =
                   Some (message_close (TStr (Py.str_of_int (Z.of_N n)))))
  end.
  2: { split; [exact Hb|]. split; [done|]. split; [done|].
       rewrite (ui_click_bound env _ _ _
                  (message_close_body (TStr (Py.str_of_int (Z.of_N n)))) Hb) by done.
       unfold message_close_body, dpg_call, delete_item. simpl.
       rewrite lookup_insert_eq. simpl. split; [|done].
       apply delete_subtree.
       - intros k x. rewrite !lookup_insert_Some.
         intros [[<- <-]|[_ [[<- <-]|[_ [[<- <-]|[_ [[<- <-]|[_ H]]]]]]]]; simpl; auto;
           right; right; set_solver.
       - intros k x Hk.
         destruct (free_tag_has_nothing_below _ _ k x Hwr H0 Hk) as [Hne Hnb].
         split; [|done].
         rewrite lookup_insert_ne by done.
         rewrite lookup_insert_ne by (intros <-; by rewrite H2 in Hk).
         rewrite lookup_insert_ne by (intros <-; by rewrite H1 in Hk).
         by rewrite lookup_insert_ne. }
  unfold bound_to, visible. simpl.
  repeat (lookup_any; simpl). done.
Qed.

Lemma message_dialog_closes_without_a_trace_witness :
  ∃ w1 ok, _show_message_dialog "Info" "No images found." view_wired = Done w1 ∧
        (∃ win, items (dpg w1) !! message_window view_wired = Some win ∧
                modal win = true ∧ show win = true ∧ label win = "Info") ∧
        bound_to ok w1 = Some (message_close (message_window view_wired)) ∧
        self w1 = self view_wired ∧ log w1 = log view_wired ∧
        items (dpg (ui_click returns ok w1)) = items (dpg view_wired) ∧
        self (ui_click returns ok w1) = self view_wired ∧
        log (ui_click returns ok w1) = log view_wired.
Proof.
  apply (message_dialog_closes_without_a_trace returns "Info" "No images found." view_wired).
  - apply fresh_b_spec. vm_compute. reflexivity.
  - apply well_rooted_b_spec. vm_compute. reflexivity.
Defined.

(** X17.  [show_how_to] opens a modal window whose Close button is
    bound to [_close], and leaves the view and the log alone; a click on
    Close deletes exactly what the call has built. *)
Theorem how_to_dialog_closes_without_a_trace env w :
  fresh (dpg w) ->
  well_rooted (dpg w) ->
  items (dpg w) !! how_to_window w = None ->
  ∃ w1 close, show_how_to w = Done w1 ∧
        (∃ win, items (dpg w1) !! how_to_window w = Some win ∧
                modal win = true ∧ show win = true) ∧
        bound_to close w1 = Some (how_to_close (how_to_window w)) ∧
        self w1 = self w ∧ log w1 = log w ∧
        items (dpg (ui_click env close w1)) = items (dpg w) ∧
        self (ui_click env close w1) = self w ∧
        log (ui_click env close w1) = log w.
Proof.
  intros Hf Hwr Hfree. exists_ok. unfold how_to_window in *.
  destruct w as [c v ins tm u4 da lg]. destruct c as [its regs khs n vp]. simpl in *.
  assert (H0 : its !! TInt n = None) by (apply (fresh_int _ _ Hf); simpl; lia).
  assert (H1 : its !! TInt (n + 1)%N = None) by (apply (fresh_int _ _ Hf); simpl; lia).
  assert (H2 : its !! TInt (n + 1 + 1)%N = None) by (apply (fresh_int _ _ Hf); simpl; lia).
  replace (n + 2)%N with (n + 1 + 1)%N by lia.
  unfold show_how_to, uuid4. simpl.
  unfold and_then, add, add_auto, dpg_call, add_item, generate_uuid, skip. simpl.
  repeat (lookup_any; simpl).
  unfold _center_window, dpg_call, update_item. simpl. destruct vp as [vw vh].
  repeat (lookup_any; simpl).
  eexists. split; [reflexivity|]. simpl.
  split; [eexists; split; [apply lookup_insert_eq|done]|].
  match goal with
  | |- bound_to ?t ?w1 = _ ∧ _ =>
      assert (Hb : bound_to t w1 =
                   Some (how_to_close (TStr ("how_to_popup_" +:+ Py.str_of_int (Z.of_N u4)))))
  end.
  2: { split; [exact Hb|]. split; [done|]. split; [done|].
       rewrite (ui_click_bound env _ _ _
                  (how_to_close_body
                     (TStr ("how_to_popup_" +:+ Py.str_of_int (Z.of_N u4)))) Hb) by done.
       unfold how_to_close_body, dpg_call, delete_item. simpl.
       rewrite lookup_insert_eq. simpl. split; [|done].
       apply delete_subtree.
       - intros k x. rewrite !lookup_insert_Some.
         intros [[<- <-]|[_ [[<- <-]|[_ [[<- <-]|[_ [[<- <-]|[_ [[<- <-]|[_ H]]]]]]]]]];
           simpl; auto; right; right; set_solver.
       - intros k x Hk.
         destruct (free_tag_has_nothing_below _ _ k x Hwr Hfree Hk) as [Hne Hnb].
         split; [|done].
         rewrite lookup_insert_ne by done.
         rewrite lookup_insert_ne by (intros <-; by rewrite H2 in Hk).
         rewrite lookup_insert_ne by (intros <-; by rewrite H1 in Hk).
         rewrite lookup_insert_ne by (intros <-; by rewrite H0 in Hk).
         by rewrite lookup_insert_ne. }
  unfold bound_to, visible. simpl.
  repeat (lookup_any; simpl). done.
Qed.

Lemma how_to_dialog_closes_without_a_trace_witness :
  ∃ w1 close, show_how_to view_wired = Done w1 ∧
        (∃ win, items (dpg w1) !! how_to_window view_wired = Some win ∧
                modal win = true ∧ show win = true) ∧
        bound_to close w1 = Some (how_to_close (how_to_window view_wired)) ∧
        self w1 = self view_wired ∧ log w1 = log view_wired ∧
        items (dpg (ui_click returns close w1)) = items (dpg view_wired) ∧
        self (ui_click returns close w1) = self view_wired ∧
        log (ui_click returns close w1) = log view_wired.
Proof.
  apply (how_to_dialog_closes_without_a_trace returns view_wired).
  - apply fresh_b_spec. vm_compute. reflexivity.
  - apply well_rooted_b_spec. vm_compute. reflexivity.
  - vm_compute. reflexivity.
Defined.

(** X18.  When the about window exists, [show_about] builds
    nothing: it sets the modal flag (when the view exists), centres the
    window and shows it; no id is drawn.  [close_popup] then clears the
    flag and hides the window, which stays in the registry. *)
Theorem about_dialog_is_built_once w :
  is_Some (items (dpg w) !! about_window_id) ->
  ∃ w' it x y,
    items (dpg w) !! about_window_id = Some it ∧
    show_about w = Done w' ∧
    items (dpg w') = <[about_window_id := with_show true (with_pos x y it)]> (items (dpg w)) ∧
    next_uuid (dpg w') = next_uuid (dpg w) ∧
    _modal_open (self w') = (instance_set w || _modal_open (self w)) ∧
    log w' = log w ∧
    let closed := world_of (about_close_body true w') in
    items (dpg closed) =
      <[about_window_id := with_show false (with_pos x y it)]> (items (dpg w)) ∧
    _modal_open (self closed) = false.
Proof.
  intros [it Hit]. unfold show_about.
  unfold and_then at 1 2 3. unfold does_item_exist.
  rewrite bool_decide_eq_true_2 by by eexists.
  unfold _set_modal_state, set_modal_open, update_self, pure, skip.
  unfold _center_window, dpg_call, update_item.
  destruct (instance_set w) eqn:Hi; simpl;
    destruct (viewport_client (dpg w)) as [vw vh]; simpl; rewrite Hit; simpl;
    rewrite lookup_insert_eq; simpl;
    eexists _, it, _, _; (split; [done|]); (split; [reflexivity|]); simpl;
    rewrite insert_insert_eq;
    unfold about_close_body, and_then, _set_modal_state, set_modal_open,
      update_self, pure, dpg_call, update_item; simpl;
    rewrite lookup_insert_eq; simpl; rewrite insert_insert_eq; done.
Qed.

Lemma about_dialog_is_built_once_witness :
  ∃ w' it x y,
    items (dpg about_closed) !! about_window_id =
      Some it ∧
    show_about about_closed = Done w' ∧
    items (dpg w') =
      <[about_window_id := with_show true (with_pos x y it)]>
        (items (dpg about_closed)) ∧
    next_uuid (dpg w') =
      next_uuid (dpg about_closed) ∧
    _modal_open (self w') =
      (instance_set about_closed ||
       _modal_open (self about_closed)) ∧
    log w' = log about_closed ∧
    let closed := world_of (about_close_body true w') in
    items (dpg closed) =
      <[about_window_id := with_show false (with_pos x y it)]>
        (items (dpg about_closed)) ∧
    _modal_open (self closed) = false.
Proof.
  apply (about_dialog_is_built_once about_closed).
  vm_compute. eexists. reflexivity.
Defined.

(** *** [MainWindow]: the grid, its bindings and the resize handler *)

Lemma tk_set_nothing m :
  Tk.set_cat_buttons (Tk.cat_buttons m) (Tk.set_next_widget (Tk.next_widget m) m) = m.
Proof. by destruct m. Qed.

(** The loop of [_rebuild_category_grid], in full. *)
Lemma tk_for_each_new_buttons cats cols xs : ∀ m,
  cols ≠ 0 ->
  Tk.for_each xs (Tk.add_grid_button cats cols) m =
  Tk.Done (Tk.set_cat_buttons
             (Tk.cat_buttons m ++ new_buttons cats cols (Tk.next_widget m) xs)
             (Tk.set_next_widget (Tk.next_widget m + length xs) m)).
Proof.
  induction xs as [|x xs IH]; intros m Hc.
  - simpl. rewrite app_nil_r, Nat.add_0_r. by rewrite tk_set_nothing.
  - simpl. unfold Tk.add_grid_button at 1.
    apply Z.eqb_neq in Hc as Hc'. rewrite Hc'.
    rewrite IH by done. f_equal. unfold Tk.set_cat_buttons, Tk.set_next_widget. simpl.
    f_equal; [by rewrite <- app_assoc|lia].
Qed.

Lemma tk_set_categories_exact cats m :
  Tk.current_columns m ≠ 0 ->
  Tk.set_categories cats m =
  Tk.Done (Tk.set_cat_buttons
             (new_buttons cats (Tk.current_columns m) (Tk.next_widget m)
                [0; 1; 2; 3; 4; 5; 6; 7; 8])
             (Tk.set_next_widget (Tk.next_widget m + 9) m)).
Proof.
  intros Hc. unfold Tk.set_categories, Tk._rebuild_category_grid.
  by rewrite tk_for_each_new_buttons.
Qed.

(** The nine positions of the grid. *)
Lemma nine_positions cats cols wid pos b :
  new_buttons cats cols wid [0; 1; 2; 3; 4; 5; 6; 7; 8] !! pos = Some b ->
  (pos < 9)%nat ∧ b = new_button cats cols (wid + pos) (Z.of_nat pos).
Proof.
  intros H. do 9 (destruct pos as [|pos];
    [simpl in H; injection H as <-; split; [lia|f_equal; lia]|]).
  done.
Qed.

(** X19.  With at least one column, [set_categories] of
    [MainWindow] returns with nine buttons; button [pos] sits in row
    [pos // columns] and column [pos % columns], the column is within
    range, no two buttons share a cell and no two are the same widget. *)
Theorem grid_cells_are_distinct cats m :
  1 <= Tk.current_columns m ->
  ∃ m', Tk.set_categories cats m = Tk.Done m' ∧
        length (Tk.cat_buttons m') = 9%nat ∧
        (∀ pos b, Tk.cat_buttons m' !! pos = Some b →
           0 <= Tk.grid_row b ∧
           0 <= Tk.grid_column b < Tk.current_columns m ∧
           Tk.grid_row b * Tk.current_columns m + Tk.grid_column b = Z.of_nat pos) ∧
        (∀ i j bi bj, Tk.cat_buttons m' !! i = Some bi → Tk.cat_buttons m' !! j = Some bj →
           Tk.grid_row bi = Tk.grid_row bj → Tk.grid_column bi = Tk.grid_column bj →
           i = j) ∧
        (∀ i j bi bj, Tk.cat_buttons m' !! i = Some bi → Tk.cat_buttons m' !! j = Some bj →
           Tk.widget bi = Tk.widget bj → i = j).
Proof.
  intros Hc. rewrite tk_set_categories_exact by lia.
  eexists. split; [reflexivity|]. simpl. split; [done|].
  set (c := Tk.current_columns m) in *.
  assert (Hcell : ∀ pos b,
    new_buttons cats c (Tk.next_widget m) [0; 1; 2; 3; 4; 5; 6; 7; 8] !! pos = Some b →
    0 <= Tk.grid_row b ∧ 0 <= Tk.grid_column b < c ∧
    Tk.grid_row b * c + Tk.grid_column b = Z.of_nat pos).
  { intros pos b H. apply nine_positions in H as [Hp ->]. simpl.
    pose proof (Z.div_mod (Z.of_nat pos) c ltac:(lia)).
    pose proof (Z.mod_pos_bound (Z.of_nat pos) c ltac:(lia)).
    pose proof (Z.div_pos (Z.of_nat pos) c ltac:(lia) ltac:(lia)).
    repeat split; lia. }
  split; [exact Hcell|]. split.
  - intros i j bi bj Hi Hj Hr Hcol.
    apply Hcell in Hi as (_ & _ & Hi), Hj as (_ & _ & Hj). nia.
  - intros i j bi bj Hi Hj Hw.
    apply nine_positions in Hi as [_ ->], Hj as [_ ->]. simpl in Hw. lia.
Qed.

Lemma grid_cells_are_distinct_witness :
  ∃ m', Tk.set_categories one_defined Tk.__init__ = Tk.Done m' ∧
        length (Tk.cat_buttons m') = 9%nat ∧
        (∀ pos b, Tk.cat_buttons m' !! pos = Some b →
           0 <= Tk.grid_row b ∧
           0 <= Tk.grid_column b < Tk.current_columns Tk.__init__ ∧
           Tk.grid_row b * Tk.current_columns Tk.__init__ + Tk.grid_column b =
             Z.of_nat pos) ∧
        (∀ i j bi bj, Tk.cat_buttons m' !! i = Some bi → Tk.cat_buttons m' !! j = Some bj →
           Tk.grid_row bi = Tk.grid_row bj → Tk.grid_column bi = Tk.grid_column bj →
           i = j) ∧
        (∀ i j bi bj, Tk.cat_buttons m' !! i = Some bi → Tk.cat_buttons m' !! j = Some bj →
           Tk.widget bi = Tk.widget bj → i = j).
Proof.
  apply (grid_cells_are_distinct one_defined Tk.__init__). simpl. lia.
Defined.

(** X20.  [_on_window_resize] ignores the events of other widgets
    and those that leave the column count as it is; otherwise it stores
    the new count and schedules a rebuild with the entries read back from
    the button texts.  The count is always within 1..9: 9 from a width of
    1030, 1 below 260, and 6 for the 800 pixels of the initial
    geometry, which differs from the initial count 9. *)
Theorem window_resize_keeps_the_columns_in_range event m :
  let m1 := (TkRest._on_window_resize event m).1 in
  let scheduled := (TkRest._on_window_resize event m).2 in
  1 <= TkRest.columns_for (TkRest.width event) <= 9 ∧
  (1 <= Tk.current_columns m <= 9 → 1 <= Tk.current_columns m1 <= 9) ∧
  (TkRest.widget_is_self event = false → m1 = m ∧ scheduled = None) ∧
  (TkRest.columns_for (TkRest.width event) = Tk.current_columns m →
     m1 = m ∧ scheduled = None) ∧
  (TkRest.widget_is_self event = true →
   TkRest.columns_for (TkRest.width event) ≠ Tk.current_columns m →
     m1 = Tk.set_current_columns (TkRest.columns_for (TkRest.width event)) m ∧
     scheduled = Some (List.map (fun b => TkRest.read_back (Tk.text b)) (Tk.cat_buttons m))) ∧
  TkRest.columns_for 800 = 6 ∧
  (∀ width, 1030 <= width → TkRest.columns_for width = 9) ∧
  (∀ width, width < 260 → TkRest.columns_for width = 1).
Proof.
  cbv zeta.
  assert (Hrange : ∀ wd, 1 <= TkRest.columns_for wd <= 9)
    by (intros wd; unfold TkRest.columns_for; lia).
  split; [apply Hrange|].
  unfold TkRest._on_window_resize.
  split; [|split; [|split; [|split; [|split; [|split]]]]].
  - intros Hm. destruct (TkRest.widget_is_self event); simpl; [|done].
    destruct (Z.eqb_spec (TkRest.columns_for (TkRest.width event)) (Tk.current_columns m));
      simpl; [done|apply Hrange].
  - intros ->. done.
  - intros ->. rewrite Z.eqb_refl. by destruct (TkRest.widget_is_self event).
  - intros -> Hne. apply Z.eqb_neq in Hne. rewrite Hne. done.
  - reflexivity.
  - intros wd Hw. unfold TkRest.columns_for.
    assert (9 <= (wd - 40) / 110) by (apply Z.div_le_lower_bound; lia). lia.
  - intros wd Hw. unfold TkRest.columns_for.
    assert ((wd - 40) / 110 < 2) by (apply Z.div_lt_upper_bound; lia). lia.
Qed.

(** Every entry that the resize handler reads back has an empty path. *)
Lemma read_back_path s : TkRest.read_back s !! "path" = Some (Py.text "").
Proof. unfold TkRest.read_back. by destruct (negb _). Qed.

Lemma read_back_undefined (texts : list Py.str) i :
  Tk.btn_text (TkRest.read_back <$> texts) i =
  Py.str_of_int (i + 1) +:+ ": Select a category".
Proof.
  unfold Tk.btn_text. destruct (_ <? _); [|done].
  rewrite list_lookup_fmap. destruct (texts !! Z.to_nat i) as [s|]; [|done].
  simpl. unfold Tk.has at 2. rewrite read_back_path. simpl.
  by rewrite andb_false_r.
Qed.

(** X21.  The entries that [_on_window_resize] reads back all have
    an empty path, and [_rebuild_category_grid] shows the name only for an
    entry with a path: once the scheduled rebuild has run, every button
    reads "Select a category" and has no mouse binding, whatever was
    shown before.  The callback of the number keys is kept. *)
Theorem resize_rebuild_forgets_every_category env event m :
  TkRest.widget_is_self event = true ->
  TkRest.columns_for (TkRest.width event) ≠ Tk.current_columns m ->
  ∃ m2, TkRest.after_resize event m = Tk.Done m2 ∧
        Tk.current_columns m2 = TkRest.columns_for (TkRest.width event) ∧
        length (Tk.cat_buttons m2) = 9%nat ∧
        (∀ pos b, Tk.cat_buttons m2 !! pos = Some b →
           Tk.text b = Py.str_of_int (Z.of_nat pos + 1) +:+ ": Select a category" ∧
           Tk.bound_Button_1 b = None ∧ Tk.bound_Button_3 b = None) ∧
        (∀ pos left, Tk.ui_click env pos left m2 = m2) ∧
        Tk.category_click_callback m2 = Tk.category_click_callback m ∧
        Tk.key_bindings m2 = Tk.key_bindings m.
Proof.
  intros Hself Hne. unfold TkRest.after_resize, TkRest._on_window_resize.
  rewrite Hself. apply Z.eqb_neq in Hne. rewrite Hne. simpl.
  assert (Hc : Tk.current_columns
                 (Tk.set_current_columns (TkRest.columns_for (TkRest.width event)) m) ≠ 0)
    by (simpl; unfold TkRest.columns_for; lia).
  rewrite tk_set_categories_exact by done.
  eexists. split; [reflexivity|]. simpl. split; [done|]. split; [done|].
  assert (Hb : ∀ pos b,
    new_buttons (List.map (fun btn => TkRest.read_back (Tk.text btn)) (Tk.cat_buttons m))
      (TkRest.columns_for (TkRest.width event)) (Tk.next_widget m)
      [0; 1; 2; 3; 4; 5; 6; 7; 8] !! pos = Some b →
    Tk.text b = Py.str_of_int (Z.of_nat pos + 1) +:+ ": Select a category" ∧
    Tk.bound_Button_1 b = None ∧ Tk.bound_Button_3 b = None).
  { intros pos b H. apply nine_positions in H as [_ ->]. simpl. split; [|done].
    rewrite <- (read_back_undefined (Tk.text <$> Tk.cat_buttons m)).
    f_equal. by rewrite <- list_fmap_compose. }
  split; [exact Hb|]. split; [|done].
  intros pos left. unfold Tk.ui_click. simpl.
  match goal with
  | |- context [ ?l !! pos ] => destruct (l !! pos) as [b|] eqn:E; [|done]
  end.
  apply Hb in E as (_ & -> & ->). by destruct left.
Qed.

Lemma resize_rebuild_forgets_every_category_witness :
  ∃ m2, TkRest.after_resize first_configure tk_one_defined = Tk.Done m2 ∧
        Tk.current_columns m2 = TkRest.columns_for (TkRest.width first_configure) ∧
        length (Tk.cat_buttons m2) = 9%nat ∧
        (∀ pos b, Tk.cat_buttons m2 !! pos = Some b →
           Tk.text b = Py.str_of_int (Z.of_nat pos + 1) +:+ ": Select a category" ∧
           Tk.bound_Button_1 b = None ∧ Tk.bound_Button_3 b = None) ∧
        (∀ pos left, Tk.ui_click Tk.returns pos left m2 = m2) ∧
        Tk.category_click_callback m2 = Tk.category_click_callback tk_one_defined ∧
        Tk.key_bindings m2 = Tk.key_bindings tk_one_defined.
Proof.
  apply (resize_rebuild_forgets_every_category Tk.returns first_configure tk_one_defined).
  - reflexivity.
  - vm_compute. discriminate.
Defined.

(** The button of slot 0 showed the name before the resize. *)
Example name_shown_before_resize :
  Tk.text <$> Tk.cat_buttons tk_one_defined !! 0%nat = Some (Py.text "1: A") ∧
  List.map (fun c : Tk.Category => (c !! "name", c !! "path")) <$>
    (TkRest._on_window_resize first_configure tk_one_defined).2 =
    Some ((Some (Py.text "A"), Some (Py.text "")) ::
          List.repeat (Some (Py.text ""), Some (Py.text "")) 8).
Proof. split; vm_compute; reflexivity. Qed.

(** *** [MainWindow]: bindings *)

Lemma tk_invoke_log env h a m :
  tk_transparent env ->
  Tk.log (Tk.window_of (Tk.invoke env h a m)) = Tk.log m ++ [Call h a].
Proof. intros Henv. unfold Tk.invoke. by rewrite Henv. Qed.

Lemma tk_handle_click_log env wid h left m :
  tk_transparent env ->
  Tk.log (Tk.window_of (Tk.handle_click env wid h left m)) =
  Tk.log m ++ [Call (if left then Tk.hc_on_click h else Tk.hc_on_right_click h)
                    (IdxArg (Tk.hc_idx h))].
Proof.
  intros Henv. unfold Tk.handle_click.
  destruct left;
    match goal with
    | |- context [Tk.invoke ?e ?h0 ?a ?m0] =>
        pose proof (tk_invoke_log e h0 a m0 Henv) as H;
        destruct (Tk.invoke e h0 a m0)
    end; simpl in *; exact H.
Qed.

Lemma tk_ui_click_bound env pos (left : bool) m b h :
  Tk.cat_buttons m !! pos = Some b ->
  (if left then Tk.bound_Button_1 b else Tk.bound_Button_3 b) = Some h ->
  Tk.ui_click env pos left m = Tk.window_of (Tk.handle_click env (Tk.widget b) h left m).
Proof. intros Hb Hh. unfold Tk.ui_click. by rewrite Hb, Hh. Qed.

(** X22.  [MainWindow.bind_category] indexes [cat_buttons] the way
    Python does: out of range it raises and changes nothing; a negative
    index within range binds the button counted from the end, and the
    callbacks receive the index as it was given. *)
Theorem tk_bind_category_follows_python_indexing env idx f g m :
  tk_transparent env ->
  let n := Z.of_nat (length (Tk.cat_buttons m)) in
  (idx < - n ∨ n <= idx → Tk.bind_category idx f g m = Tk.Raised m) ∧
  (- n <= idx < n →
   let pos := Z.to_nat (if 0 <=? idx then idx else n + idx) in
   ∃ m', Tk.bind_category idx f g m = Tk.Done m' ∧
         Tk.log (Tk.ui_click env pos true m') = Tk.log m ++ [Call f (IdxArg idx)] ∧
         Tk.log (Tk.ui_click env pos false m') = Tk.log m ++ [Call g (IdxArg idx)] ∧
         (∀ p, p ≠ pos → Tk.cat_buttons m' !! p = Tk.cat_buttons m !! p)).
Proof.
  intros Henv. cbv zeta. unfold Tk.bind_category, Tk.py_index. split.
  - intros H.
    destruct (Z.leb_spec 0 idx), (Z.ltb_spec idx (Z.of_nat (length (Tk.cat_buttons m))));
      simpl; try lia;
      destruct (Z.leb_spec (- Z.of_nat (length (Tk.cat_buttons m))) idx),
               (Z.ltb_spec idx 0); simpl; try lia; done.
  - intros H.
    set (pos := Z.to_nat (if 0 <=? idx then idx
                          else Z.of_nat (length (Tk.cat_buttons m)) + idx)).
    assert (Hpos : (pos < length (Tk.cat_buttons m))%nat)
      by (subst pos; destruct (Z.leb_spec 0 idx); lia).
    destruct (lookup_lt_is_Some_2 _ _ Hpos) as [b Hb].
    assert (Hrun :
      (if (0 <=? idx) && (idx <? Z.of_nat (length (Tk.cat_buttons m)))
       then Some (Z.to_nat idx)
       else if (- Z.of_nat (length (Tk.cat_buttons m)) <=? idx) && (idx <? 0)
            then Some (Z.to_nat (Z.of_nat (length (Tk.cat_buttons m)) + idx))
            else None) = Some pos).
    { subst pos.
      destruct (Z.leb_spec 0 idx), (Z.ltb_spec idx (Z.of_nat (length (Tk.cat_buttons m))));
        simpl; try lia; try done.
      destruct (Z.leb_spec (- Z.of_nat (length (Tk.cat_buttons m))) idx),
               (Z.ltb_spec idx 0); simpl; try lia; done. }
    rewrite Hrun. eexists. split; [reflexivity|].
    set (h := {| Tk.hc_idx := idx; Tk.hc_on_click := f; Tk.hc_on_right_click := g |}).
    split; [|split].
    + rewrite (tk_ui_click_bound env pos true _ (Tk.with_bindings h b) h);
        [|by simpl; rewrite list_lookup_alter, Hb, decide_True|done].
      by rewrite tk_handle_click_log.
    + rewrite (tk_ui_click_bound env pos false _ (Tk.with_bindings h b) h);
        [|by simpl; rewrite list_lookup_alter, Hb, decide_True|done].
      by rewrite tk_handle_click_log.
    + intros p Hp. simpl. by rewrite list_lookup_alter_ne.
Qed.

Lemma tk_bind_category_follows_python_indexing_witness :
  let n := Z.of_nat (length (Tk.cat_buttons tk_grid)) in
  (-1 < - n ∨ n <= -1 → Tk.bind_category (-1) f1 g1 tk_grid = Tk.Raised tk_grid) ∧
  (- n <= -1 < n →
   let pos := Z.to_nat (if 0 <=? -1 then -1 else n + -1) in
   ∃ m', Tk.bind_category (-1) f1 g1 tk_grid = Tk.Done m' ∧
         Tk.log (Tk.ui_click Tk.returns pos true m') =
           Tk.log tk_grid ++ [Call f1 (IdxArg (-1))] ∧
         Tk.log (Tk.ui_click Tk.returns pos false m') =
           Tk.log tk_grid ++ [Call g1 (IdxArg (-1))] ∧
         (∀ p, p ≠ pos → Tk.cat_buttons m' !! p = Tk.cat_buttons tk_grid !! p)).
Proof.
  apply (tk_bind_category_follows_python_indexing Tk.returns (-1) f1 g1 tk_grid).
  intros h a m. reflexivity.
Defined.

(** The last button of the grid is the one that index -1 binds, and
    index 9 is out of range. *)
Example tk_bind_category_edges :
  Z.to_nat (if 0 <=? -1 then -1 else Z.of_nat (length (Tk.cat_buttons tk_grid)) + -1) = 8%nat ∧
  Tk.bind_category 9 f1 g1 tk_grid = Tk.Raised tk_grid ∧
  Tk.bind_category (-10) f1 g1 tk_grid = Tk.Raised tk_grid ∧
  Tk.bind_category 0 f1 g1 Tk.__init__ = Tk.Raised Tk.__init__.
Proof. repeat split. Qed.


(** Idle tasks leave every button where it is, with its widget, and add
    no idle task. *)
Lemma tk_config_relief_lookup wid r m pos b :
  Tk.cat_buttons m !! pos = Some b ->
  Tk.cat_buttons (Tk.config_relief wid r m) !! pos =
  Some (if Nat.eqb (Tk.widget b) wid then Tk.with_relief r b else b).
Proof.
  intros Hb. unfold Tk.config_relief. simpl.
  change (List.map ?f ?l) with (f <$> l). by rewrite list_lookup_fmap, Hb.
Qed.

Lemma tk_idle_tasks_keep_widgets tasks : ∀ m pos b,
  Tk.cat_buttons m !! pos = Some b ->
  ∃ b', Tk.cat_buttons (fold_left (fun m t => TkRest.run_idle_task t m) tasks m) !! pos
          = Some b' ∧ Tk.widget b' = Tk.widget b.
Proof.
  induction tasks as [|[wid] tasks IH]; intros m pos b Hb; simpl; [by exists b|].
  destruct (IH (Tk.config_relief wid "raised" m) pos
              (if Nat.eqb (Tk.widget b) wid then Tk.with_relief "raised" b else b))
    as (b' & Hb' & Hw).
  - by apply tk_config_relief_lookup.
  - exists b'. split; [done|]. rewrite Hw. by destruct (Nat.eqb _ _).
Qed.

Lemma tk_idle_tasks_keep_idle tasks : ∀ m,
  Tk.idle (fold_left (fun m t => TkRest.run_idle_task t m) tasks m) = Tk.idle m.
Proof.
  induction tasks as [|[wid] tasks IH]; intros m; simpl; [done|]. by rewrite IH.
Qed.

(** X23.  [handle_click] presses the button, calls the callback
    and, in its [finally], schedules the release: whether the callback
    returns or raises, the button is sunken after the click, the release
    is the last idle task, and once Tk is idle the button is raised
    again. *)
Theorem click_always_schedules_the_release_of_the_button env m pos b h (left : bool) :
  tk_keeps_buttons env ->
  Tk.cat_buttons m !! pos = Some b ->
  (if left then Tk.bound_Button_1 b else Tk.bound_Button_3 b) = Some h ->
  let m' := Tk.ui_click env pos left m in
  (∃ b', Tk.cat_buttons m' !! pos = Some b' ∧ Tk.relief b' = "sunken") ∧
  (∃ earlier, Tk.idle m' = earlier ++ [Tk.raise_relief (Tk.widget b)]) ∧
  (∃ b', Tk.cat_buttons (TkRest.run_idle m') !! pos = Some b' ∧ Tk.relief b' = "raised") ∧
  Tk.idle (TkRest.run_idle m') = [].
Proof.
  intros Henv Hb Hh. cbv zeta.
  rewrite (tk_ui_click_bound env pos left m b h Hb Hh).
  unfold Tk.handle_click.
  set (m1 := Tk.config_relief (Tk.widget b) "sunken" m).
  assert (Hb1 : Tk.cat_buttons m1 !! pos = Some (Tk.with_relief "sunken" b)).
  { subst m1. rewrite (tk_config_relief_lookup _ _ _ _ b Hb). by rewrite Nat.eqb_refl. }
  set (body := if left then Tk.invoke env (Tk.hc_on_click h) (IdxArg (Tk.hc_idx h)) m1
               else Tk.invoke env (Tk.hc_on_right_click h) (IdxArg (Tk.hc_idx h)) m1).
  assert (Hbody : Tk.cat_buttons (Tk.window_of body) = Tk.cat_buttons m1).
  { subst body. destruct left; unfold Tk.invoke; by rewrite Henv. }
  set (m2 := Tk.window_of body) in *.
  assert (Hres : Tk.window_of
            match body with
            | Tk.Done m2 => Tk.Done (Tk.set_idle (Tk.idle m2 ++ [Tk.raise_relief (Tk.widget b)]) m2)
            | Tk.Raised m2 => Tk.Raised (Tk.set_idle (Tk.idle m2 ++ [Tk.raise_relief (Tk.widget b)]) m2)
            end = Tk.set_idle (Tk.idle m2 ++ [Tk.raise_relief (Tk.widget b)]) m2)
    by (subst m2; by destruct body).
  rewrite Hres. simpl. rewrite Hbody, Hb1.
  split; [by eexists|]. split; [by eexists|].
  unfold TkRest.run_idle. cbn [Tk.idle Tk.set_idle]. rewrite fold_left_app.
  cbn [fold_left TkRest.run_idle_task].
  set (mid := fold_left _ (Tk.idle m2) _).
  assert (Hmid : ∃ bm, Tk.cat_buttons mid !! pos = Some bm ∧ Tk.widget bm = Tk.widget b).
  { subst mid. apply (tk_idle_tasks_keep_widgets _ _ pos (Tk.with_relief "sunken" b)).
    simpl. by rewrite Hbody. }
  destruct Hmid as (bm & Hbm & Hw).
  split.
  - rewrite (tk_config_relief_lookup _ _ _ _ bm Hbm). rewrite Hw, Nat.eqb_refl.
    by eexists.
  - unfold Tk.config_relief. simpl. subst mid. by rewrite tk_idle_tasks_keep_idle.
Qed.

Lemma click_always_schedules_the_release_of_the_button_witness :
  let m' := Tk.ui_click tk_raises 0 true tk_two_bound in
  (∃ b', Tk.cat_buttons m' !! 0%nat = Some b' ∧ Tk.relief b' = "sunken") ∧
  (∃ earlier, Tk.idle m' = earlier ++
     [Tk.raise_relief
        (Tk.widget
           (Tk.with_bindings {| Tk.hc_idx := 0; Tk.hc_on_click := f1;
                                Tk.hc_on_right_click := g1 |}
              (new_button [] 9 0 0)))]) ∧
  (∃ b', Tk.cat_buttons (TkRest.run_idle m') !! 0%nat = Some b' ∧ Tk.relief b' = "raised") ∧
  Tk.idle (TkRest.run_idle m') = [].
Proof.
  apply (click_always_schedules_the_release_of_the_button tk_raises tk_two_bound 0
           (Tk.with_bindings {| Tk.hc_idx := 0; Tk.hc_on_click := f1;
                                Tk.hc_on_right_click := g1 |}
              (new_button [] 9 0 0))
           {| Tk.hc_idx := 0; Tk.hc_on_click := f1; Tk.hc_on_right_click := g1 |} true).
  - intros h a m. reflexivity.
  - vm_compute. reflexivity.
  - reflexivity.
Defined.

(** What [bind_keyboard_shortcuts] binds to each of its eleven keys. *)
Lemma tk_shortcut_bindings m :
  let kb := Tk.key_bindings (Tk.bind_keyboard_shortcuts m) in
  (∀ i, 0 <= i < 9 → kb !! Py.str_of_int (i + 1) = Some (Tk.key_category i)) ∧
  kb !! "<Left>" = Some Tk.key_prev ∧ kb !! "<Right>" = Some Tk.key_next.
Proof.
  cbv zeta. unfold Tk.bind_keyboard_shortcuts. simpl.
  split; [|split].
  - intros i Hi.
    assert (i = 0 ∨ i = 1 ∨ i = 2 ∨ i = 3 ∨ i = 4 ∨ i = 5 ∨ i = 6 ∨ i = 7 ∨ i = 8)
      as Hcase by lia.
    destruct Hcase as [->|[->|[->|[->|[->|[->|[->|[->| ->]]]]]]]];
      repeat (rewrite lookup_insert_ne by done); apply lookup_insert_eq.
  - rewrite lookup_insert_ne by done. apply lookup_insert_eq.
  - apply lookup_insert_eq.
Qed.

(** X24.  The lambdas that [MainWindow.bind_keyboard_shortcuts]
    binds read [category_click_callback] and the commands of the
    navigation buttons when the key is pressed: shortcuts bound before any
    category do nothing at first and call the callback of a later
    [bind_category]; the arrow keys call the command of their button, if
    it has one. *)
Theorem tk_shortcuts_look_the_callback_up_at_key_time env m i :
  tk_transparent env ->
  0 <= i < 9 ->
  let bound := Tk.bind_keyboard_shortcuts m in
  (Tk.category_click_callback m = None →
     Tk.ui_key_press env (Py.str_of_int (i + 1)) bound = bound) ∧
  (∀ idx f g m2, Tk.bind_category idx f g bound = Tk.Done m2 →
     Tk.log (Tk.ui_key_press env (Py.str_of_int (i + 1)) m2) =
     Tk.log m ++ [Call f (IdxArg i)]) ∧
  (∀ h, Tk.prev_btn m = Some h →
     Tk.log (Tk.ui_key_press env "<Left>" bound) = Tk.log m ++ [Call h NoArgs]) ∧
  (∀ h, Tk.next_btn m = Some h →
     Tk.log (Tk.ui_key_press env "<Right>" bound) = Tk.log m ++ [Call h NoArgs]) ∧
  (Tk.prev_btn m = None → Tk.ui_key_press env "<Left>" bound = bound) ∧
  (Tk.next_btn m = None → Tk.ui_key_press env "<Right>" bound = bound).
Proof.
  intros Henv Hi. cbv zeta.
  destruct (tk_shortcut_bindings m) as (Hnum & Hl & Hr).
  split; [|split; [|split; [|split; [|split]]]].
  - intros Hc. unfold Tk.ui_key_press. rewrite Hnum by done. simpl. by rewrite Hc.
  - intros idx f g m2 Hbind.
    destruct (tk_bind_category_last_wins _ _ _ _ _ Hbind) as [Hcb Hkb].
    rewrite (tk_number_key env m2 i f); try done.
    + f_equal. unfold Tk.bind_category in Hbind.
      destruct (Tk.py_index _ _); [|done]. by injection Hbind as <-.
    + rewrite Hkb. by apply Hnum.
  - intros h Hp. unfold Tk.ui_key_press. rewrite Hl. simpl. rewrite Hp. simpl.
    by rewrite tk_invoke_log.
  - intros h Hn. unfold Tk.ui_key_press. rewrite Hr. simpl. rewrite Hn. simpl.
    by rewrite tk_invoke_log.
  - intros Hp. unfold Tk.ui_key_press. rewrite Hl. simpl. by rewrite Hp.
  - intros Hn. unfold Tk.ui_key_press. rewrite Hr. simpl. by rewrite Hn.
Qed.

Lemma tk_shortcuts_look_the_callback_up_at_key_time_witness :
  let bound := Tk.bind_keyboard_shortcuts tk_grid in
  (Tk.category_click_callback tk_grid = None →
     Tk.ui_key_press Tk.returns (Py.str_of_int (2 + 1)) bound = bound) ∧
  (∀ idx f g m2, Tk.bind_category idx f g bound = Tk.Done m2 →
     Tk.log (Tk.ui_key_press Tk.returns (Py.str_of_int (2 + 1)) m2) =
     Tk.log tk_grid ++ [Call f (IdxArg 2)]) ∧
  (∀ h, Tk.prev_btn tk_grid = Some h →
     Tk.log (Tk.ui_key_press Tk.returns "<Left>" bound) = Tk.log tk_grid ++ [Call h NoArgs]) ∧
  (∀ h, Tk.next_btn tk_grid = Some h →
     Tk.log (Tk.ui_key_press Tk.returns "<Right>" bound) = Tk.log tk_grid ++ [Call h NoArgs]) ∧
  (Tk.prev_btn tk_grid = None → Tk.ui_key_press Tk.returns "<Left>" bound = bound) ∧
  (Tk.next_btn tk_grid = None → Tk.ui_key_press Tk.returns "<Right>" bound = bound).
Proof.
  apply (tk_shortcuts_look_the_callback_up_at_key_time Tk.returns tk_grid 2).
  - intros h a m. reflexivity.
  - lia.
Defined.

(** X25.  [MainWindow.set_categories] replaces the buttons and with
    them the mouse bindings, but not [category_click_callback]: after it a
    click on any button does nothing, while the number keys still call
    the callback stored by the last [bind_category]. *)
Theorem tk_set_categories_keeps_the_key_callback env cats m h i :
  tk_transparent env ->
  Tk.current_columns m ≠ 0 ->
  Tk.category_click_callback m = Some h ->
  Tk.key_bindings m !! Py.str_of_int (i + 1) = Some (Tk.key_category i) ->
  ∃ m', Tk.set_categories cats m = Tk.Done m' ∧
        (∀ pos left, Tk.ui_click env pos left m' = m') ∧
        Tk.log (Tk.ui_key_press env (Py.str_of_int (i + 1)) m') =
          Tk.log m ++ [Call h (IdxArg i)].
Proof.
  intros Henv Hc Hcb Hkb. rewrite tk_set_categories_exact by done.
  eexists. split; [reflexivity|]. split.
  - intros pos left. unfold Tk.ui_click. simpl.
    match goal with
    | |- context [ ?l !! pos ] => destruct (l !! pos) as [b|] eqn:E; [|done]
    end.
    apply nine_positions in E as [_ ->]. by destruct left.
  - by rewrite (tk_number_key env _ i h).
Qed.

Lemma tk_set_categories_keeps_the_key_callback_witness :
  ∃ m', Tk.set_categories one_defined tk_two_bound = Tk.Done m' ∧
        (∀ pos left, Tk.ui_click Tk.returns pos left m' = m') ∧
        Tk.log (Tk.ui_key_press Tk.returns (Py.str_of_int (0 + 1)) m') =
          Tk.log tk_two_bound ++ [Call f2 (IdxArg 0)].
Proof.
  apply (tk_set_categories_keeps_the_key_callback Tk.returns one_defined tk_two_bound f2 0).
  - intros h a m. reflexivity.
  - vm_compute. discriminate.
  - vm_compute. reflexivity.
  - vm_compute. reflexivity.
Defined.
